(** * ProtX student model: checkpoint architecture inference and
      embedding extraction

    Shallow embedding of [src/protx/models/student/model.py]:
    [ProtX.inspect_checkpoint_architecture],
    [ProtX.load_and_generate_embeddings], [ProtX.forward], the
    configuration built by [ProtX.__init__], and the feed-forward block
    [SwiGLU] / [ModernBertMLPSwiGLU].

    Modelling conventions.
    - A checkpoint's state dict is an insertion-ordered Python [dict]; only
      the iteration order, the keys and the tensor shapes are read by the
      inspector, so a parameter table is an association list of
      (name, shape) in iteration order.
    - A parameter name is a [str]; it is modelled by its UTF-8 encoding, a
      string of bytes.  The names the model writes are ASCII.  [lower]
      changes 'A'..'Z' only: outside ASCII, [str.lower] yields an ASCII
      letter for U+0130 and U+212A alone ('i' and 'k'), and the one needle
      sought in a lowered name, 'query', has neither.
    - Python [int] is [Z]; [%] and [//] with a positive divisor are
      [Z.modulo] and [Z.div].
    - Exceptions are values of [exn]; a computation that may raise returns
      [result]. *)

From Stdlib Require Import ZArith Ascii String Lia QArith.
From stdpp Require Import gmap strings list pretty.

Local Open Scope Z_scope.

(** ** Exceptions and fallible computations *)

(** The exceptions the code can see.  [ValueError] and [FileNotFoundError]
    are raised by the source itself; [OtherException] stands for any other
    subclass of [Exception] raised by a collaborator; [BaseOnly] stands for
    the [BaseException]s that [except Exception] does not catch. *)
Inductive exn : Type :=
  | ValueError (msg : string)
  | FileNotFoundError (msg : string)
  | OtherException (cls msg : string)
  | BaseOnly (cls : string).

(** [isinstance(e, Exception)] *)
Definition is_Exception (e : exn) : bool :=
  match e with
  | BaseOnly _ => false
  | _ => true
  end.

(** [str(e)] *)
Definition exn_str (e : exn) : string :=
  match e with
  | ValueError m | FileNotFoundError m | OtherException _ m => m
  | BaseOnly _ => ""
  end.

Inductive result (A : Type) : Type :=
  | Ok (a : A)
  | Raise (e : exn).
Arguments Ok {A} a.
Arguments Raise {A} e.

#[global] Instance result_ret : MRet result := fun _ a => Ok a.
#[global] Instance result_bind : MBind result := fun _ _ k m =>
  match m with
  | Ok a => k a
  | Raise e => Raise e
  end.

(** ** Python string built-ins *)
Module Py.

(** [needle in hay] on [str]. *)
Fixpoint contains (needle hay : string) : bool :=
  if String.prefix needle hay then true
  else match hay with
       | EmptyString => false
       | String _ rest => contains needle rest
       end.

(** [s.split('.')] : never empty, [''.split('.') == ['']]. *)
Fixpoint split_dot (s : string) : list string :=
  match s with
  | EmptyString => [EmptyString]
  | String c rest =>
      if Ascii.eqb c "." then EmptyString :: split_dot rest
      else match split_dot rest with
           | p :: ps => String c p :: ps
           | [] => [String c EmptyString]
           end
  end.

Definition lower_char (c : ascii) : ascii :=
  let n := nat_of_ascii c in
  if ((65 <=? n) && (n <=? 90))%nat then ascii_of_nat (n + 32) else c.

(** [s.lower()] *)
Fixpoint lower (s : string) : string :=
  match s with
  | EmptyString => EmptyString
  | String c rest => String (lower_char c) (lower rest)
  end.

(** *** [int()] on a [str]

    A [str] is a sequence of Unicode code points; it is modelled by its
    UTF-8 encoding, on which [in], [split('.')] and the ASCII needles of the
    inspector behave as they do on the code points.  [int(s)] first maps
    [s] to ASCII ([_PyUnicode_TransformDecimalAndSpaceToASCII]): a code
    point below 127 is kept, any other white space becomes a space, any
    other decimal digit (general category Nd) becomes the ASCII digit of
    its value, and the first code point that is none of these becomes '?'
    and ends the text.  The result is then read as a base-10 literal
    ([PyLong_FromString]). *)

(** The payload of a UTF-8 continuation byte. *)
Definition continuation (c : ascii) : option N :=
  let n := N_of_ascii c in
  if ((128 <=? n) && (n <? 192))%N then Some (n - 128)%N else None.

(** U+FFFD stands for a byte sequence that encodes no code point; the
    encoding of a [str] has none. *)
Definition replacement : N := 65533%N.

(** The code points of a UTF-8 encoded text. *)
Fixpoint code_points (s : string) : list N :=
  match s with
  | EmptyString => []
  | String c rest =>
      let n := N_of_ascii c in
      if (n <? 128)%N then n :: code_points rest
      else if ((194 <=? n) && (n <? 224))%N then
        match rest with
        | String c1 rest1 =>
            match continuation c1 with
            | Some a => ((n - 192) * 64 + a)%N :: code_points rest1
            | None => replacement :: code_points rest
            end
        | EmptyString => [replacement]
        end
      else if ((224 <=? n) && (n <? 240))%N then
        match rest with
        | String c1 (String c2 rest2) =>
            match continuation c1, continuation c2 with
            | Some a, Some b =>
                (((n - 224) * 64 + a) * 64 + b)%N :: code_points rest2
            | _, _ => replacement :: code_points rest
            end
        | _ => replacement :: code_points rest
        end
      else if ((240 <=? n) && (n <? 245))%N then
        match rest with
        | String c1 (String c2 (String c3 rest3)) =>
            match continuation c1, continuation c2, continuation c3 with
            | Some a, Some b, Some d =>
                ((((n - 240) * 64 + a) * 64 + b) * 64 + d)%N
                  :: code_points rest3
            | _, _, _ => replacement :: code_points rest
            end
        | _ => replacement :: code_points rest
        end
      else replacement :: code_points rest
  end.

(** The code points of the digit zero of every decimal digit set (general
    category Nd, Unicode 14.0, the database of CPython 3.11); the digits
    one to nine of a set follow its zero. *)
Definition decimal_zeros : list N :=
  [48; 1632; 1776; 1984; 2406; 2534; 2662; 2790; 2918; 3046; 3174; 3302;
   3430; 3558; 3664; 3792; 3872; 4160; 4240; 6112; 6160; 6470; 6608; 6784;
   6800; 6992; 7088; 7232; 7248; 42528; 43216; 43264; 43472; 43504; 43600;
   44016; 65296; 66720; 68912; 69734; 69872; 69942; 70096; 70384; 70736;
   70864; 71248; 71360; 71472; 71904; 72016; 72784; 73040; 73120; 92768;
   92864; 93008; 120782; 120792; 120802; 120812; 120822; 123200; 123632;
   125264; 130032]%N.

(** [Py_UNICODE_TODECIMAL] *)
Definition to_decimal (cp : N) : option N :=
  match List.find (fun z => ((z <=? cp) && (cp <? z + 10))%N) decimal_zeros with
  | Some z => Some (cp - z)%N
  | None => None
  end.

(** The white space above U+007E ([Py_UNICODE_ISSPACE]). *)
Definition unicode_spaces : list N :=
  [133; 160; 5760; 8192; 8193; 8194; 8195; 8196; 8197; 8198; 8199; 8200;
   8201; 8202; 8232; 8233; 8239; 8287; 12288]%N.

Definition is_unicode_space (cp : N) : bool :=
  existsb (N.eqb cp) unicode_spaces.

(** [_PyUnicode_TransformDecimalAndSpaceToASCII] *)
Fixpoint to_ascii (cps : list N) : string :=
  match cps with
  | [] => EmptyString
  | cp :: rest =>
      if (cp <? 127)%N then String (ascii_of_N cp) (to_ascii rest)
      else if is_unicode_space cp then String " " (to_ascii rest)
      else match to_decimal cp with
           | Some d => String (ascii_of_N (48 + d)) (to_ascii rest)
           | None => String "?" EmptyString
           end
  end.

(** White space skipped around an ASCII literal ([Py_ISSPACE]):
    tab, line feed, vertical tab, form feed, carriage return, space. *)
Definition is_space (c : ascii) : bool :=
  let n := nat_of_ascii c in
  (((9 <=? n) && (n <=? 13)) || (n =? 32))%nat.

Definition is_digit (c : ascii) : bool :=
  let n := nat_of_ascii c in ((48 <=? n) && (n <=? 57))%nat.

Definition digit_value (c : ascii) : Z := Z.of_nat (nat_of_ascii c) - 48.

Fixpoint lstrip (s : string) : string :=
  match s with
  | String c rest => if is_space c then lstrip rest else s
  | EmptyString => EmptyString
  end.

Fixpoint all_space (s : string) : bool :=
  match s with
  | String c rest => is_space c && all_space rest
  | EmptyString => true
  end.

(** The digit scan of a base-10 literal: decimal digits, single
    underscores allowed between digits only.  Returns the value, the number
    of digits and the unread rest. *)
Fixpoint scan_digits (prev_us : bool) (acc : Z) (n : nat) (s : string)
  : option (Z * nat * string) :=
  match s with
  | String c rest =>
      if is_digit c then scan_digits false (10 * acc + digit_value c) (S n) rest
      else if Ascii.eqb c "_" then
             if prev_us then None else scan_digits true acc n rest
      else if prev_us then None else Some (acc, n, s)
  | EmptyString => if prev_us then None else Some (acc, n, EmptyString)
  end.

(** CPython's default [sys.int_max_str_digits]. *)
Definition int_max_str_digits : nat := 4300.

(** [PyLong_FromString] in base 10 on the ASCII text: [None] is
    [ValueError]. *)
Definition int_of_ascii (s : string) : option Z :=
  let s1 := lstrip s in
  let '(neg, s2) :=
    match s1 with
    | String "-" t => (true, t)
    | String "+" t => (false, t)
    | _ => (false, s1)
    end in
  match s2 with
  | String "_" _ => None
  | _ =>
      match scan_digits false 0 0 s2 with
      | Some (v, n, rest) =>
          if ((n =? 0) || (int_max_str_digits <? n))%nat then None
          else if all_space rest then Some (if neg then - v else v)
          else None
      | None => None
      end
  end.

(** [int(s)] for a [str] argument: [None] is [ValueError]. *)
Definition int (s : string) : option Z :=
  int_of_ascii (to_ascii (code_points s)).

(** [a, b = shape]: unpacking a [torch.Size] into exactly two names. *)
Definition unpack2 (shape : list Z) : result (Z * Z) :=
  match shape with
  | [a; b] => Ok (a, b)
  | _ :: _ :: _ :: _ => Raise (ValueError "too many values to unpack (expected 2)")
  | _ =>
      Raise (ValueError ("not enough values to unpack (expected 2, got "
                           +:+ pretty (length shape) +:+ ")"))
  end.

End Py.

(** ** The parameter table *)

(** [state_dict.items()]: (name, [tensor.shape]) in iteration order. *)
Definition table : Type := list (string * list Z).

Definition tok_embeddings_name : string := "embeddings.tok_embeddings.weight".
Definition wo_name : string := "model.layers.0.attn.Wo.weight".
Definition wi_name : string := "model.layers.0.mlp.Wi.weight".
Definition wqkv_name : string := "model.layers.0.attn.Wqkv.weight".

(** ** [inspect_checkpoint_architecture], stage by stage *)

(** Lines 211-220: the scan for [embed_dim]; [Ok None] when the loop ends
    without a [break]. *)
Fixpoint find_embed_dim (items : table) : result (option Z) :=
  match items with
  | [] => Ok None
  | (key, shape) :: rest =>
      if Py.contains tok_embeddings_name key then
        '(vocab_size, embed_dim) ← Py.unpack2 shape; Ok (Some embed_dim)
      else if Py.contains wo_name key then
        '(embed_dim, _) ← Py.unpack2 shape; Ok (Some embed_dim)
      else if Py.contains wi_name key then
        '(_, embed_dim) ← Py.unpack2 shape; Ok (Some embed_dim)
      else find_embed_dim rest
  end.

(** Lines 231-237: the inner loop over [enumerate(parts)], adding to
    [layer_indices]. *)
Fixpoint scan_parts (parts : list string) (acc : gset Z) : gset Z :=
  match parts with
  | [] => acc
  | part :: rest =>
      let acc' :=
        if String.eqb part "layers" then
          match rest with
          | next :: _ =>
              match Py.int next with
              | Some layer_idx => {[ layer_idx ]} ∪ acc
              | None => acc
              end
          | [] => acc
          end
        else acc in
      scan_parts rest acc'
  end.

(** Lines 226-237: the loop over [state_dict.keys()]. *)
Fixpoint collect_layer_indices (items : table) (acc : gset Z) : gset Z :=
  match items with
  | [] => acc
  | (key, _) :: rest =>
      let acc' :=
        if Py.contains "model.layers." key
        then scan_parts (Py.split_dot key) acc
        else acc in
      collect_layer_indices rest acc'
  end.

Definition layer_indices (items : table) : gset Z :=
  collect_layer_indices items ∅.

(** Lines 260-263: [for possible_heads in [8, 12, 16, 20, 24, 32]]. *)
Fixpoint try_head_counts (embed_dim : Z) (candidates : list Z) : option Z :=
  match candidates with
  | [] => None
  | possible_heads :: rest =>
      if embed_dim mod possible_heads =? 0 then Some possible_heads
      else try_head_counts embed_dim rest
  end.

(** Lines 252-263: the head-count rules tried once [qkv_dim == 3 * embed_dim]. *)
Definition heads_for_embed_dim (embed_dim : Z) : option Z :=
  if embed_dim mod 64 =? 0 then Some (embed_dim / 64)
  else if embed_dim mod 32 =? 0 then Some (embed_dim / 32)
  else if embed_dim mod 128 =? 0 then Some (embed_dim / 128)
  else try_head_counts embed_dim [8; 12; 16; 20; 24; 32].

(** Lines 245-264: the scan for the fused Wqkv matrix. *)
Fixpoint heads_from_wqkv (embed_dim : Z) (items : table) : result (option Z) :=
  match items with
  | [] => Ok None
  | (key, shape) :: rest =>
      if Py.contains wqkv_name key then
        '(qkv_dim, model_dim) ← Py.unpack2 shape;
        Ok (if qkv_dim =? 3 * embed_dim
            then heads_for_embed_dim embed_dim
            else None)
      else heads_from_wqkv embed_dim rest
  end.

(** Lines 275-278: [for head_dim in [32, 64, 128]]. *)
Fixpoint try_head_dims (out_dim : Z) (head_dims : list Z) : option Z :=
  match head_dims with
  | [] => None
  | head_dim :: rest =>
      if out_dim mod head_dim =? 0 then Some (out_dim / head_dim)
      else try_head_dims out_dim rest
  end.

(** Lines 268-279: the scan for a separate query projection. *)
Fixpoint heads_from_query (embed_dim : Z) (items : table) : option Z :=
  match items with
  | [] => None
  | (key, shape) :: rest =>
      if Py.contains "query" (Py.lower key)
         && Py.contains "weight" key
         && Py.contains "layers.0" key
      then
        match shape with
        | [out_dim; in_dim] =>
            if in_dim =? embed_dim then try_head_dims out_dim [32; 64; 128]
            else None
        | _ => None
        end
      else heads_from_query embed_dim rest
  end.

Definition embed_dim_undetermined : exn :=
  ValueError "Could not determine embed_dim from checkpoint".
Definition num_layers_undetermined : exn :=
  ValueError "Could not determine num_layers from checkpoint".
Definition num_heads_undetermined : exn :=
  ValueError "Could not determine num_heads from checkpoint".

(** Lines 205-284: the body of [inspect_checkpoint_architecture] after the
    state dict has been loaded. *)
Definition infer_architecture (state_dict : table) : result (Z * Z * Z) :=
  found ← find_embed_dim state_dict;
  match found with
  | None => Raise embed_dim_undetermined
  | Some embed_dim =>
      let num_layers := Z.of_nat (size (layer_indices state_dict)) in
      if num_layers =? 0 then Raise num_layers_undetermined
      else
        primary ← heads_from_wqkv embed_dim state_dict;
        let num_heads :=
          match primary with
          | Some h => Some h
          | None => heads_from_query embed_dim state_dict
          end in
        match num_heads with
        | None => Raise num_heads_undetermined
        | Some num_heads => Ok (embed_dim, num_layers, num_heads)
        end
  end.


(** ** Python sequence built-ins *)
Module PySeq.

(** [range(start, stop, step)], as the list it iterates over. *)
Definition range (start stop step : Z) : result (list Z) :=
  if step =? 0 then Raise (ValueError "range() arg 3 must not be zero")
  else
    let n := if 0 <? step then (stop - start + step - 1) / step
             else (start - stop - step - 1) / (- step) in
    Ok (map (fun k : nat => start + Z.of_nat k * step) (seq 0 (Z.to_nat n))).

(** A slice bound [i] of a sequence of length [len], normalised as Python
    does: negative bounds count from the end, then clip to [0, len]. *)
Definition clip_index (len : nat) (i : Z) : nat :=
  let i' := if i <? 0 then i + Z.of_nat len else i in
  Z.to_nat (Z.max 0 (Z.min (Z.of_nat len) i')).

(** [l[lo:hi]] *)
Definition slice {A} (l : list A) (lo hi : Z) : list A :=
  let a := clip_index (length l) lo in
  let b := clip_index (length l) hi in
  take (b - a) (drop a l).

(** [zip(xs, ys)] and [zip(xs, ys, zs)] stop at the shortest argument. *)
Fixpoint zip2 {A B} (xs : list A) (ys : list B) : list (A * B) :=
  match xs, ys with
  | x :: xs', y :: ys' => (x, y) :: zip2 xs' ys'
  | _, _ => []
  end.

Fixpoint zip3 {A B C} (xs : list A) (ys : list B) (zs : list C)
  : list (A * B * C) :=
  match xs, ys, zs with
  | x :: xs', y :: ys', z :: zs' => (x, y, z) :: zip3 xs' ys' zs'
  | _, _, _ => []
  end.

End PySeq.

(** ** Tensors *)

(** A tensor is its shape and its entries by index; entries outside the
    shape are never read. *)
Record tensor2 (A : Type) : Type := Tensor2 {
  rows : nat;
  cols : nat;
  get2 : nat → nat → A
}.
Arguments Tensor2 {A} _ _ _.
Arguments rows {A} _.
Arguments cols {A} _.
Arguments get2 {A} _ _ _.

Record tensor3 (A : Type) : Type := Tensor3 {
  size0 : nat;
  size1 : nat;
  size2 : nat;
  get3 : nat → nat → nat → A
}.
Arguments Tensor3 {A} _ _ _ _.
Arguments size0 {A} _.
Arguments size1 {A} _.
Arguments size2 {A} _.
Arguments get3 {A} _ _ _ _.

(** The floating-point arithmetic of the tensor library, kept abstract:
    nothing below depends on rounding or on the order in which a reduction
    adds its terms. *)
Class FloatOps (F : Type) : Type := {
  fmul : F → F → F;              (* elementwise [*] *)
  fdiv : F → F → F;              (* elementwise [/] *)
  fsum : list F → F;             (* [torch.sum] over one axis *)
  fclamp_min : F → F → F;        (* [torch.clamp(x, min=m)] *)
  of_int64 : Z → F;              (* [.float()] *)
  eps : F                        (* [1e-9] *)
}.

Module Torch.
Section Ops.
Context {F : Type} `{FloatOps F}.

Definition wrap_int64 (z : Z) : Z := (z + 2 ^ 63) mod 2 ^ 64 - 2 ^ 63.

(** [x[:, :-1, :]] *)
Definition drop_last3 {A} (x : tensor3 A) : tensor3 A :=
  Tensor3 (size0 x) (PySeq.clip_index (size1 x) (-1)) (size2 x) (get3 x).

(** [m[:, :-1]] *)
Definition drop_last2 {A} (m : tensor2 A) : tensor2 A :=
  Tensor2 (rows m) (PySeq.clip_index (cols m) (-1)) (get2 m).

(** [m.unsqueeze(-1)] *)
Definition unsqueeze_last {A} (m : tensor2 A) : tensor3 A :=
  Tensor3 (rows m) (cols m) 1 (fun b t _ => get2 m b t).

(** One axis of [expand]: the source extent is the target's or is 1. *)
Definition expand_axis (src tgt i : nat) : nat :=
  if (src =? tgt)%nat then i else 0%nat.

(** [x.expand(s0, s1, s2)] of a 3-D tensor to a 3-D size. *)
Definition expand {A} (x : tensor3 A) (s0 s1 s2 : nat) : result (tensor3 A) :=
  if (((size0 x =? s0) || (size0 x =? 1))
      && ((size1 x =? s1) || (size1 x =? 1))
      && ((size2 x =? s2) || (size2 x =? 1)))%nat
  then Ok (Tensor3 s0 s1 s2
             (fun b t d => get3 x (expand_axis (size0 x) s0 b)
                                  (expand_axis (size1 x) s1 t)
                                  (expand_axis (size2 x) s2 d)))
  else Raise (OtherException "RuntimeError"
                "The expanded size of the tensor must match the existing size").

(** [x.float()] on an integer tensor *)
Definition float3 (x : tensor3 Z) : tensor3 F :=
  Tensor3 (size0 x) (size1 x) (size2 x) (fun b t d => of_int64 (get3 x b t d)).

(** [x * y] for operands of one shape *)
Definition mul3 (x y : tensor3 F) : tensor3 F :=
  Tensor3 (size0 x) (size1 x) (size2 x)
    (fun b t d => fmul (get3 x b t d) (get3 y b t d)).

(** [torch.sum(x, dim=1)] / [x.sum(dim=1)] *)
Definition sum_dim1 (x : tensor3 F) : tensor2 F :=
  Tensor2 (size0 x) (size2 x)
    (fun b d => fsum (map (fun t => get3 x b t d) (seq 0 (size1 x)))).

(** [torch.clamp(x, min=m)] *)
Definition clamp_min2 (x : tensor2 F) (m : F) : tensor2 F :=
  Tensor2 (rows x) (cols x) (fun b d => fclamp_min (get2 x b d) m).

(** [x / y] for operands of one shape *)
Definition div2 (x y : tensor2 F) : tensor2 F :=
  Tensor2 (rows x) (cols x) (fun b d => fdiv (get2 x b d) (get2 y b d)).

(** Iterating a 2-D tensor yields its rows; [.cpu()] of a row, as the
    list of its entries. *)
Definition row {A} (m : tensor2 A) (b : nat) : list A :=
  map (get2 m b) (seq 0 (cols m)).

Definition iter2 {A} (m : tensor2 A) : list (list A) :=
  map (row m) (seq 0 (rows m)).

(** Iterating a 3-D tensor yields its 2-D slices along axis 0. *)
Definition iter3 {A} (x : tensor3 A) : list (tensor2 A) :=
  map (fun b => Tensor2 (size1 x) (size2 x) (get3 x b)) (seq 0 (size0 x)).

(** [m[:n]] of a 2-D tensor: its first rows, as lists of entries. *)
Definition first_rows {A} (m : tensor2 A) (n : Z) : list (list A) :=
  map (row m) (seq 0 (PySeq.clip_index (rows m) n)).

(** [v.sum().item()] of a row of an int64 tensor *)
Definition sum_item (v : list Z) : Z :=
  wrap_int64 (foldr Z.add 0 v).

End Ops.
End Torch.

(** ** Collaborators of the extractor *)

(** What the extractor calls outside this module: the safetensors reader,
    the encoder and tokenizer built by [ProtX.__init__] (lines 18-50, all of
    it calls into the transformers library), and the encoder's forward
    pass.  Each call may raise.  Reading a file depends on the state of the
    world at the time of the call. *)
Record collaborators (F World Model : Type) : Type := Collaborators {
  (* [load_file(checkpoint_path)] *)
  load_file : string → World → result table * World;
  (* [ProtX(embed_dim=, num_layers=, num_heads=, mlp_activation=)] *)
  new_model : Z → Z → Z → string → result Model;
  (* [model.load_state_dict(state_dict, strict=False)] *)
  load_state_dict : Model → table → result Model;
  (* [model.to(device)]; [model.eval()] *)
  to_device : Model → string → result Model;
  (* [model.tokenizer.batch_encode_plus(batch, padding=True,
     truncation=True, max_length=, return_tensors="pt")]:
     [input_ids] and [attention_mask] *)
  batch_encode_plus : Model → list string → Z → result (tensor2 Z * tensor2 Z);
  (* [self.model(input_ids=, attention_mask=).last_hidden_state] *)
  encoder : Model → tensor2 Z → tensor2 Z → result (tensor3 F);
  (* [self.proj_norm(self.proj(x))] *)
  project : Model → tensor3 F → result (tensor3 F)
}.
Arguments load_file {F World Model} _ _ _.
Arguments new_model {F World Model} _ _ _ _ _.
Arguments load_state_dict {F World Model} _ _ _.
Arguments to_device {F World Model} _ _ _.
Arguments batch_encode_plus {F World Model} _ _ _ _.
Arguments encoder {F World Model} _ _ _ _.
Arguments project {F World Model} _ _ _.

(** ** The generator *)

(** What [load_and_generate_embeddings] yields with each sequence. *)
Inductive embedding (F : Type) : Type :=
  | Pooled (vector : list F)
  | PerToken (matrix : list (list F)).
Arguments Pooled {F} _.
Arguments PerToken {F} _.

(** The four [print] calls of [load_and_generate_embeddings]. *)
Inductive message : Type :=
  | DetectedArchitecture (embed_dim num_layers num_heads : Z)
  | ErrorDetectingArchitecture (e : exn)
  | LoadedCheckpoint (checkpoint_path : string)
  | ErrorLoadingCheckpoint (e : exn).

Inductive event (F : Type) : Type :=
  | Printed (m : message)
  | Yielded (seq : string) (emb : embedding F).
Arguments Printed {F} _.
Arguments Yielded {F} _ _.

(** A run of a generator body: what it printed and yielded, in order, and
    how it ended ([Ok]: it returned, the caller sees [StopIteration];
    [Raise e]: [e] reaches the caller of [next]). *)
Record gen (F A : Type) : Type := Gen {
  emitted : list (event F);
  returned : result A
}.
Arguments Gen {F A} _ _.
Arguments emitted {F A} _.
Arguments returned {F A} _.

#[global] Instance gen_ret {F} : MRet (gen F) := fun _ a => Gen [] (Ok a).
#[global] Instance gen_bind {F} : MBind (gen F) := fun _ _ k m =>
  match returned m with
  | Ok a => let r := k a in Gen (emitted m ++ emitted r) (returned r)
  | Raise e => Gen (emitted m) (Raise e)
  end.

Definition lift {F A} (r : result A) : gen F A := Gen [] r.
Definition print {F} (m : message) : gen F unit := Gen [Printed m] (Ok tt).
Definition yield {F} (seq : string) (emb : embedding F) : gen F unit :=
  Gen [Yielded seq emb] (Ok tt).

(** [for x in xs: body(x)] inside a generator *)
Fixpoint for_each {F A} (xs : list A) (body : A → gen F unit) : gen F unit :=
  match xs with
  | [] => mret tt
  | x :: xs' => _ ← body x; for_each xs' body
  end.

(** The sequences a run yielded, in order. *)
Fixpoint yielded {F} (evs : list (event F)) : list (string * embedding F) :=
  match evs with
  | [] => []
  | Yielded seq emb :: rest => (seq, emb) :: yielded rest
  | Printed _ :: rest => yielded rest
  end.

Fixpoint printed {F} (evs : list (event F)) : list message :=
  match evs with
  | [] => []
  | Printed m :: rest => m :: printed rest
  | Yielded _ _ :: rest => printed rest
  end.

Section Extractor.
Context {F World Model : Type} `{FloatOps F}.
Variable C : collaborators F World Model.

(** Lines 52-70: [ProtX.forward], returning [last_hidden_state]. *)
Definition forward (model : Model) (input_ids attention_mask : tensor2 Z)
    (training_mode : bool) : result (tensor3 F) :=
  student_out ← encoder C model input_ids attention_mask;
  if training_mode then project C model student_out
  else Ok student_out.

(** Lines 199-203 and then the body: [inspect_checkpoint_architecture]. *)
Definition inspect_checkpoint_architecture (checkpoint_path : string)
    (w : World) : result (Z * Z * Z) * World :=
  let '(loaded, w') := load_file C checkpoint_path w in
  match loaded with
  | Ok state_dict => (infer_architecture state_dict, w')
  | Raise e =>
      if is_Exception e then
        (Raise (FileNotFoundError
                  ("Error loading checkpoint from " +:+ checkpoint_path
                     +:+ ": " +:+ exn_str e)), w')
      else (Raise e, w')
  end.

(** Lines 165-172: mean pooling without the last position. *)
Definition mean_pool (embeddings : tensor3 F) (attention_mask : tensor2 Z)
    : result (tensor2 F) :=
  let embeddings_no_eos := Torch.drop_last3 embeddings in
  let mask_no_eos := Torch.drop_last2 attention_mask in
  expanded ← Torch.expand (Torch.unsqueeze_last mask_no_eos)
               (size0 embeddings_no_eos) (size1 embeddings_no_eos)
               (size2 embeddings_no_eos);
  let mask_expanded := Torch.float3 expanded in
  let masked_embeddings := Torch.mul3 embeddings_no_eos mask_expanded in
  let summed := Torch.sum_dim1 masked_embeddings in
  let summed_mask := Torch.clamp_min2 (Torch.sum_dim1 mask_expanded) eps in
  Ok (Torch.div2 summed summed_mask).

(** Lines 181-182: one sequence's per-token embeddings. *)
Definition actual_length (seq_mask : list Z) : Z :=
  Torch.sum_item seq_mask - 1.

Definition per_token (seq_embeddings : tensor2 F) (seq_mask : list Z)
    : list (list F) :=
  Torch.first_rows seq_embeddings (actual_length seq_mask).

(** Lines 160-182: from the hidden states of one batch to its yields. *)
Definition extract_batch (per_seq_embeddings : bool)
    (batch_sequences : list string) (embeddings : tensor3 F)
    (attention_mask : tensor2 Z) : gen F unit :=
  if per_seq_embeddings then
    mean_pooled ← lift (mean_pool embeddings attention_mask);
    for_each (PySeq.zip2 batch_sequences (Torch.iter2 mean_pooled))
      (fun '(seq, emb) => yield seq (Pooled emb))
  else
    for_each (PySeq.zip3 batch_sequences (Torch.iter3 embeddings)
                (Torch.iter2 attention_mask))
      (fun '(seq, seq_embeddings, seq_mask) =>
         yield seq (PerToken (per_token seq_embeddings seq_mask))).

(** Lines 137-182: the body of the loop over batches. *)
Definition process_batch (model : Model) (per_seq_embeddings : bool)
    (max_length : Z) (batch_sequences : list string) : gen F unit :=
  '(input_ids, attention_mask) ←
    lift (batch_encode_plus C model batch_sequences max_length);
  embeddings ← lift (forward model input_ids attention_mask false);
  extract_batch per_seq_embeddings batch_sequences embeddings attention_mask.

(** Lines 136-137: the batches, in order. *)
Definition batches (sequences : list string) (batch_size : Z)
    : result (list (list string)) :=
  starts ← PySeq.range 0 (Z.of_nat (length sequences)) batch_size;
  Ok (map (fun i => PySeq.slice sequences i (i + batch_size)) starts).

(** Lines 101-182: [load_and_generate_embeddings]. *)
Definition load_and_generate_embeddings (checkpoint_path : string)
    (sequences : list string) (batch_size max_length : Z) (device : string)
    (per_seq_embeddings : bool) (mlp_activation : string) (w : World)
    : gen F unit :=
  let '(detected, w1) := inspect_checkpoint_architecture checkpoint_path w in
  match detected with
  | Raise e =>
      if is_Exception e then print (ErrorDetectingArchitecture e)
      else lift (Raise e)
  | Ok (embed_dim, num_layers, num_heads) =>
      _ ← print (DetectedArchitecture embed_dim num_layers num_heads);
      model ← lift (new_model C embed_dim num_layers num_heads mlp_activation);
      let '(read, w2) := load_file C checkpoint_path w1 in
      match state_dict ← read; load_state_dict C model state_dict with
      | Raise e =>
          if is_Exception e then print (ErrorLoadingCheckpoint e)
          else lift (Raise e)
      | Ok model =>
          _ ← print (LoadedCheckpoint checkpoint_path);
          model ← lift (to_device C model device);
          bs ← lift (batches sequences batch_size);
          for_each bs (process_batch model per_seq_embeddings max_length)
      end
  end.

End Extractor.

(** * Specification-side definitions and concrete inputs *)

(** ** What the inspector is specified to compute *)

(** [idx] is what [int] reads in the segment that follows a segment
    [layers] of the dotted name [key]. *)
Definition index_after_layers (key : string) (idx : Z) : Prop :=
  ∃ (i : nat) (part : string),
    Py.split_dot key !! i = Some "layers"
    ∧ Py.split_dot key !! S i = Some part
    ∧ Py.int part = Some idx.

(** [idx] is found in some key of the table that contains
    [model.layers.]. *)
Definition index_found (tbl : table) (idx : Z) : Prop :=
  ∃ key shape,
    (key, shape) ∈ tbl
    ∧ Py.contains "model.layers." key = true
    ∧ index_after_layers key idx.

(** The name matches one of the three width rules of lines 212-218. *)
Definition matches_embed_rule (key : string) : bool :=
  Py.contains tok_embeddings_name key
  || Py.contains wo_name key
  || Py.contains wi_name key.

(** The rules of the primary stage, in the order they are tried: a head
    size of 64, then 32, then 128, then the first of the common head counts
    that divides the width. *)
Inductive heads_rule (e : Z) : Z → Prop :=
  | rule_64 : e mod 64 = 0 → heads_rule e (e / 64)
  | rule_32 : e mod 64 ≠ 0 → e mod 32 = 0 → heads_rule e (e / 32)
  | rule_128 :
      e mod 64 ≠ 0 → e mod 32 ≠ 0 → e mod 128 = 0 → heads_rule e (e / 128)
  | rule_common (before after : list Z) (h : Z) :
      e mod 64 ≠ 0 → e mod 32 ≠ 0 → e mod 128 ≠ 0 →
      [8; 12; 16; 20; 24; 32] = before ++ h :: after →
      Forall (fun c => e mod c ≠ 0) before →
      e mod h = 0 →
      heads_rule e h.

(** ** Parameter tables used as concrete inputs *)

(** A [Wo] entry of width 64 ahead of a token-embedding matrix of width
    128. *)
Definition wo_before_tok : table :=
  [ ("model.layers.0.attn.Wo.weight", [64; 64]);
    ("model.embeddings.tok_embeddings.weight", [30; 128]);
    ("model.layers.0.attn.Wqkv.weight", [192; 64]) ].

(** The token-embedding matrix is the first entry matching a width rule;
    a [Wo] entry of another width follows. *)
Definition tok_after_norm : table :=
  [ ("model.embeddings.norm.weight", [768]);
    ("model.embeddings.tok_embeddings.weight", [30; 768]);
    ("model.layers.0.attn.Wo.weight", [512; 512]);
    ("model.layers.0.attn.Wqkv.weight", [2304; 768]) ].

(** Layer indices {0, 1, 2, 3}. *)
Definition four_layers : table :=
  [ ("model.embeddings.tok_embeddings.weight", [30; 64]);
    ("model.layers.0.attn.Wqkv.weight", [192; 64]);
    ("model.layers.0.attn.Wo.weight", [64; 64]);
    ("model.layers.1.attn.Wqkv.weight", [192; 64]);
    ("model.layers.2.attn.Wqkv.weight", [192; 64]);
    ("model.layers.3.attn.Wqkv.weight", [192; 64]) ].

(** Layer indices {0, 2}: the largest index plus one is 3. *)
Definition gap_layers : table :=
  [ ("model.embeddings.tok_embeddings.weight", [30; 64]);
    ("model.layers.0.attn.Wqkv.weight", [192; 64]);
    ("model.layers.2.attn.Wqkv.weight", [192; 64]) ].

(** Two keys whose segment after [layers] is not an integer. *)
Definition malformed_segment : table :=
  [ ("model.embeddings.tok_embeddings.weight", [30; 64]);
    ("model.layers.final.norm.weight", [64]);
    ("model.layers..weight", [64]);
    ("model.layers.0.attn.Wqkv.weight", [192; 64]) ].

(** A key whose segment after [layers] reads as -1. *)
Definition negative_index : table :=
  [ ("model.embeddings.tok_embeddings.weight", [30; 64]);
    ("model.layers.-1.mlp.Wo.weight", [64; 128]);
    ("model.layers.0.attn.Wqkv.weight", [192; 64]) ].

(** Segments that [int] reads though they are not plain runs of ASCII
    digits: the Arabic-Indic digit three (U+0663), a literal between
    spaces, an underscore between digits, and two further spellings of
    zero.  The integers read are 0, 3, 7 and 10. *)
Definition unusual_literals : table :=
  [ ("model.embeddings.tok_embeddings.weight", [30; 64]);
    ("model.layers.0.attn.Wqkv.weight", [192; 64]);
    ("model.layers.٣.weight", [64]);
    ("model.layers. 7 .weight", [64]);
    ("model.layers.1_0.weight", [64]);
    ("model.layers.+0.weight", [64]);
    ("model.layers.00.weight", [64]) ].

(** Two keys contain the Wqkv name; the first has the shape of another
    model, the second the shape that fits the width. *)
Definition shadowed_wqkv : table :=
  [ ("model.embeddings.tok_embeddings.weight", [30; 768]);
    ("teacher.model.layers.0.attn.Wqkv.weight", [1536; 512]);
    ("model.layers.0.attn.Wqkv.weight", [2304; 768]) ].

(** Width 768 with a fused Wqkv matrix of shape [2304, 768]. *)
Definition t768 : table :=
  [ ("model.embeddings.tok_embeddings.weight", [30; 768]);
    ("model.layers.0.attn.Wqkv.weight", [2304; 768]);
    ("model.layers.0.attn.Wo.weight", [768; 768]);
    ("model.layers.1.attn.Wqkv.weight", [2304; 768]) ].

(** Width 100, not a multiple of 64, 32 or 128. *)
Definition width_100 : table :=
  [ ("model.embeddings.tok_embeddings.weight", [30; 100]);
    ("model.layers.0.attn.Wqkv.weight", [300; 100]) ].

(** The entries before and after a first Wqkv key whose shape does not
    fit the width: a second Wqkv key that would fit, and a separate query
    projection. *)
Definition mismatched_wqkv_pre : table :=
  [ ("model.embeddings.tok_embeddings.weight", [30; 768]) ].
Definition mismatched_wqkv_post : table :=
  [ ("decoder.model.layers.0.attn.Wqkv.weight", [2304; 768]);
    ("model.layers.0.attn.query.weight", [768; 768]) ].

(** The first Wqkv key holds a one-dimensional tensor whose extent is not
    three times the width; a separate query projection follows. *)
Definition flat_wqkv_pre : table :=
  [ ("model.embeddings.tok_embeddings.weight", [30; 64]) ].
Definition flat_wqkv_post : table :=
  [ ("model.layers.0.attn.query.weight", [64; 64]) ].

(** ** What the two extraction modes are specified to yield *)

Section ModeSpec.
Context {F : Type} `{FloatOps F}.

(** The masked mean of feature [d] over the first [positions] positions of
    one sequence: the sum of hidden state times mask weight, divided by the
    summed mask weight clamped below at [eps]. *)
Definition masked_mean (hidden : nat → nat → F) (mask : nat → Z)
    (positions d : nat) : F :=
  fdiv
    (fsum (map (fun t => fmul (hidden t d) (of_int64 (mask t))) (seq 0 positions)))
    (fclamp_min (fsum (map (fun t => of_int64 (mask t)) (seq 0 positions))) eps).

(** The pooled vector of row [b] of a batch: the masked mean of every
    feature over all positions but the last column of the batch. *)
Definition pooled_vector (embeddings : tensor3 F) (attention_mask : tensor2 Z)
    (b : nat) : list F :=
  map (masked_mean (get3 embeddings b) (get2 attention_mask b)
         (size1 embeddings - 1))
      (seq 0 (size2 embeddings)).

(** Whether two batches agree everywhere but in their last position
    column. *)
Definition agree_before_last (e1 e2 : tensor3 F) (m1 m2 : tensor2 Z) : Prop :=
  size0 e1 = size0 e2 ∧ size1 e1 = size1 e2 ∧ size2 e1 = size2 e2
  ∧ (∀ b t d, (t < size1 e1 - 1)%nat → get3 e1 b t d = get3 e2 b t d)
  ∧ (∀ b t, (t < size1 e1 - 1)%nat → get2 m1 b t = get2 m2 b t).

(** [sum(mask) - 1] for row [b] of the attention mask. *)
Definition true_length (attention_mask : tensor2 Z) (b : nat) : Z :=
  foldr Z.add 0 (Torch.row attention_mask b) - 1.

(** The hidden states of the first [n] positions of sequence [b]. *)
Definition first_positions (embeddings : tensor3 F) (b n : nat)
    : list (list F) :=
  map (fun t => map (get3 embeddings b t) (seq 0 (size2 embeddings))) (seq 0 n).

Definition binary (x : Z) : Prop := x = 0 ∨ x = 1.

(** Modelled from the spec: the attention mask of a [TokenizedBatch] (the
    tokenizer itself is not part of this module).  Every entry is 0 or 1,
    and every row attends at least its end-of-sequence marker.  A tensor
    extent fits an int64. *)
Definition tokenized_mask (attention_mask : tensor2 Z) : Prop :=
  Z.of_nat (cols attention_mask) < 2 ^ 63
  ∧ ∀ b, (b < rows attention_mask)%nat →
         Forall binary (Torch.row attention_mask b)
         ∧ 1 ≤ foldr Z.add 0 (Torch.row attention_mask b).

(** Position [p] holds the last attended token of a mask row: the
    end-of-sequence marker. *)
Definition end_marker_at (seq_mask : list Z) (p : nat) : Prop :=
  seq_mask !! p = Some 1 ∧ ∀ p', (p < p')%nat → seq_mask !! p' ≠ Some 1.

End ModeSpec.

(** ** Concrete tensors *)

(** Exact rational arithmetic, standing in for float32 where a theorem is
    run on concrete tensors. *)
#[global] Instance exact_ops : FloatOps Q := {|
  fmul := Qmult;
  fdiv := Qdiv;
  fsum := foldr Qplus (0 # 1)%Q;
  fclamp_min := fun x m => if Qle_bool m x then x else m;
  of_int64 := inject_Z;
  eps := (1 # 1000000000)%Q
|}.

(** Hidden states of a batch of two sequences, three positions, width 2. *)
Definition demo_hidden : tensor3 Q :=
  Tensor3 2 3 2 (fun b t d => inject_Z (Z.of_nat (100 * b + 10 * t + d))).

(** Its mask: the first row has two tokens and the end marker, the second
    one token, the end marker and one padding position. *)
Definition demo_mask : tensor2 Z :=
  Tensor2 2 3 (fun b t => if ((b =? 0) || (t <? 2))%nat then 1 else 0).

(** Hidden states of a batch of two sequences, two positions, width 2. *)
Definition demo_empty_hidden : tensor3 Q :=
  Tensor3 2 2 2 (fun b t d => inject_Z (Z.of_nat (100 * b + 10 * t + d))).

(** The mask of the batch of the empty sequence and a one-token
    sequence. *)
Definition demo_empty_mask : tensor2 Z :=
  Tensor2 2 2 (fun b t => if ((t =? 0) || (b =? 1))%nat then 1 else 0).

(** ** Contracts of the collaborators *)

(** Modelled from the spec: the tokenizer contract of section 6 (the
    tokenizer is not part of this module).  A batch is encoded as one row
    of ids and one row of mask per sequence. *)
Definition tokenizer_contract {F World Model}
    (C : collaborators F World Model) : Prop :=
  ∀ model batch max_length input_ids attention_mask,
    batch_encode_plus C model batch max_length = Ok (input_ids, attention_mask) →
    rows input_ids = length batch
    ∧ rows attention_mask = length batch
    ∧ cols attention_mask = cols input_ids.

(** Modelled from the spec: the encoder contract of section 6.  The hidden
    states have the batch and length of the ids. *)
Definition encoder_contract {F World Model}
    (C : collaborators F World Model) : Prop :=
  ∀ model input_ids attention_mask hidden,
    encoder C model input_ids attention_mask = Ok hidden →
    size0 hidden = rows input_ids ∧ size1 hidden = cols input_ids.

(** The two messages printed by the [except] blocks. *)
Definition is_error_message (m : message) : bool :=
  match m with
  | ErrorDetectingArchitecture _ | ErrorLoadingCheckpoint _ => true
  | DetectedArchitecture _ _ _ | LoadedCheckpoint _ => false
  end.

(** A run in which no error occurred: nothing was raised and no error was
    logged. *)
Definition ran_without_error {F} (run : gen F unit) : Prop :=
  returned run = Ok tt
  ∧ forallb (fun m => negb (is_error_message m)) (printed (emitted run)) = true.

(** ** Concrete collaborators *)

(** Modelled from the spec: a tokenizer that meets the contract of
    sections 3 and 6 (the ProtX tokenizer is not part of this module).
    Every sequence is encoded by its character codes followed by the
    end-of-sequence id 2, padded with id 0 to the longest sequence of the
    batch; the mask is 1 up to and including the end marker. *)
Definition demo_tokenize (batch : list string) : tensor2 Z * tensor2 Z :=
  let seq_len := S (foldr Nat.max 0%nat (map String.length batch)) in
  (Tensor2 (length batch) seq_len
     (fun b t =>
        let s := nth b batch EmptyString in
        match String.get t s with
        | Some c => Z.of_nat (nat_of_ascii c)
        | None => if (t =? String.length s)%nat then 2 else 0
        end),
   Tensor2 (length batch) seq_len
     (fun b t =>
        if (t <=? String.length (nth b batch EmptyString))%nat then 1 else 0)).

(** Modelled from the spec: an encoder that meets the contract of section
    6 (the transformers encoder is not part of this module).  It is built
    from the three inferred scalars, construction fails when the width is
    not a multiple of the head count, and the hidden states have the batch
    and length of the ids and the width of the model. *)
Definition demo_collaborators (checkpoint : table)
    : collaborators Q unit (Z * Z * Z) := {|
  load_file := fun _ w => (Ok checkpoint, w);
  new_model := fun embed_dim num_layers num_heads _ =>
    if num_heads =? 0 then
      Raise (OtherException "ZeroDivisionError" "integer modulo by zero")
    else if embed_dim mod num_heads =? 0 then
      Ok (embed_dim, num_layers, num_heads)
    else
      Raise (ValueError
        "The hidden size is not a multiple of the number of attention heads");
  load_state_dict := fun model _ => Ok model;
  to_device := fun model _ => Ok model;
  batch_encode_plus := fun _ batch _ => Ok (demo_tokenize batch);
  encoder := fun model input_ids _ =>
    Ok (Tensor3 (rows input_ids) (cols input_ids) (Z.to_nat model.1.1)
          (fun b t d => inject_Z (get2 input_ids b t + Z.of_nat d)));
  project := fun _ x => Ok x
|}.

(** A checkpoint with a separate query projection of 96 outputs for a
    width of 100: 3 heads are inferred, which do not divide the width. *)
Definition indivisible_heads : table :=
  [ ("model.embeddings.tok_embeddings.weight", [30; 100]);
    ("model.layers.0.attn.query.weight", [96; 100]) ].

(** A checkpoint with neither a fused Wqkv matrix nor a query
    projection. *)
Definition no_attention_weights : table :=
  [ ("model.embeddings.tok_embeddings.weight", [30; 64]);
    ("model.layers.0.attn.Wo.weight", [64; 64]);
    ("model.layers.1.attn.Wo.weight", [64; 64]) ].

(** * Further specification-side definitions *)

(** The name passes the test of line 269 for a separate query projection. *)
Definition matches_query_rule (key : string) : bool :=
  Py.contains "query" (Py.lower key)
  && Py.contains "weight" key
  && Py.contains "layers.0" key.

(** Every extent of every tensor of the table is positive. *)
Definition dims_positive (tbl : table) : Prop :=
  Forall (fun entry : string * list Z => Forall (fun d => 0 < d) entry.2) tbl.

(** Everything [load_and_generate_embeddings] does before its loop over
    batches succeeds (lines 102-128): the architecture is detected, the
    encoder is built, the weights are loaded and the encoder is moved to
    the device. *)
Definition setup_succeeds {F World Model} (C : collaborators F World Model)
    (checkpoint_path device mlp_activation : string) (w : World)
    (embed_dim num_layers num_heads : Z) (model : Model) : Prop :=
  ∃ (w1 w2 : World) (read : result table) (built loaded : Model),
    inspect_checkpoint_architecture C checkpoint_path w
    = (Ok (embed_dim, num_layers, num_heads), w1)
    ∧ new_model C embed_dim num_layers num_heads mlp_activation = Ok built
    ∧ load_file C checkpoint_path w1 = (read, w2)
    ∧ (state_dict ← read; load_state_dict C built state_dict) = Ok loaded
    ∧ to_device C loaded device = Ok model.

(** One pass of the loop body over the batch [batch], with [evs] what it
    printed and yielded: the tokenizer was run on the batch, the encoder on
    the ids and mask it returned, and [evs] is what the extraction step
    emits from the encoder's hidden states and the tokenizer's mask. *)
Definition batch_processed {F World Model} `{FloatOps F}
    (C : collaborators F World Model) (model : Model)
    (per_seq_embeddings : bool) (max_length : Z) (batch : list string)
    (evs : list (event F)) : Prop :=
  ∃ (input_ids attention_mask : tensor2 Z) (hidden : tensor3 F),
    batch_encode_plus C model batch max_length = Ok (input_ids, attention_mask)
    ∧ encoder C model input_ids attention_mask = Ok hidden
    ∧ evs = emitted (extract_batch per_seq_embeddings batch hidden attention_mask).


(** The value every pooled entry takes when no position is left to
    average over: an empty sum divided by the clamped empty sum. *)
Definition empty_mean {F} `{FloatOps F} : F :=
  fdiv (fsum []) (fclamp_min (fsum []) eps).

(** ** Further concrete collaborators *)

(** The collaborators of [demo_collaborators] with a reader that fails
    with [err] at every call. *)
Definition unreadable_collaborators (err : exn)
    : collaborators Q unit (Z * Z * Z) := {|
  load_file := fun _ w => (Raise err, w);
  new_model := new_model (demo_collaborators []);
  load_state_dict := load_state_dict (demo_collaborators []);
  to_device := to_device (demo_collaborators []);
  batch_encode_plus := batch_encode_plus (demo_collaborators []);
  encoder := encoder (demo_collaborators []);
  project := project (demo_collaborators [])
|}.


(** The collaborators of [demo_collaborators] over a world that counts the
    reads of the checkpoint file: the first read succeeds, every later one
    fails. *)
Definition vanishing_collaborators (checkpoint : table)
    : collaborators Q nat (Z * Z * Z) := {|
  load_file := fun _ reads =>
    (if (reads =? 0)%nat then Ok checkpoint
     else Raise (OtherException "OSError" "No such file"),
     S reads);
  new_model := new_model (demo_collaborators checkpoint);
  load_state_dict := load_state_dict (demo_collaborators checkpoint);
  to_device := to_device (demo_collaborators checkpoint);
  batch_encode_plus := batch_encode_plus (demo_collaborators checkpoint);
  encoder := encoder (demo_collaborators checkpoint);
  project := project (demo_collaborators checkpoint)
|}.

(** A mask whose second row attends nothing. *)
Definition demo_blank_mask : tensor2 Z :=
  Tensor2 2 3 (fun b t => if (b =? 0)%nat then 1 else 0).

(** Hidden states and mask of a batch of two empty sequences: one
    position, the end marker. *)
Definition demo_marker_only_hidden : tensor3 Q :=
  Tensor3 2 1 2 (fun b t d => inject_Z (Z.of_nat (100 * b + d))).
Definition demo_marker_only_mask : tensor2 Z :=
  Tensor2 2 1 (fun _ _ => 1).

(** A mask with one row more than the hidden states of [demo_hidden]. *)
Definition demo_tall_mask : tensor2 Z :=
  Tensor2 3 3 (fun _ _ => 1).

(** The keys of [gap_layers] in another order and with other shapes. *)
Definition gap_layers_shuffled : table :=
  [ ("model.layers.2.attn.Wqkv.weight", [5]);
    ("model.layers.0.attn.Wqkv.weight", [7; 7; 7]);
    ("model.embeddings.tok_embeddings.weight", []) ].

(** A token-embedding entry that is not a matrix, ahead of a [Wo] entry
    that would give the width. *)
Definition flat_tok_embeddings_pre : table :=
  [ ("model.final_norm.weight", [64]) ].
Definition flat_tok_embeddings_post : table :=
  [ ("model.layers.0.attn.Wo.weight", [64; 64]);
    ("model.layers.0.attn.Wqkv.weight", [192; 64]) ].

(** The entries before and after a first query projection: the width
    entry, and a second query projection. *)
Definition query_mismatch_pre : table :=
  [ ("model.embeddings.tok_embeddings.weight", [30; 64]) ].
Definition query_mismatch_post : table :=
  [ ("model.layers.0.attn.query_proj.weight", [64; 64]) ].

(** No fused Wqkv matrix; a separate query projection of 64 outputs. *)
Definition separate_query : table :=
  [ ("model.embeddings.tok_embeddings.weight", [30; 64]);
    ("model.layers.0.attn.Query.weight", [64; 64]);
    ("model.layers.1.attn.Query.weight", [64; 64]) ].

(** * The feed-forward block, lines 287-304 *)

(** The further float operations of the feed-forward block, kept abstract
    like those of [FloatOps]. *)
Class BlockOps (F : Type) : Type := {
  fadd : F → F → F;                        (* [+] of a bias *)
  fsilu : F → F;                           (* [F.silu] *)
  fdropout : Q → nat → nat → nat → F → F   (* the entry at a position under
                                              a training-mode dropout *)
}.

(** The fields of [ModernBertConfig] that [ProtX.__init__] sets. *)
Record ModernBertConfig : Type := {
  vocab_size : Z;
  hidden_size : Z;
  intermediate_size : Z;
  num_hidden_layers : Z;
  num_attention_heads : Z;
  pad_token_id : Z;
  eos_token_id : Z;
  attention_dropout : Q;
  mlp_dropout : Q;
  mlp_bias : bool;
  attention_bias : bool
}.

(** Lines 29-41: the configuration [ProtX.__init__] builds; the three
    tokenizer attributes are read from the tokenizer. *)
Definition protx_config (tokenizer_vocab_size tokenizer_pad_token_id
    tokenizer_eos_token_id embed_dim num_layers num_heads : Z)
    : ModernBertConfig := {|
  vocab_size := tokenizer_vocab_size;
  hidden_size := embed_dim;
  intermediate_size := embed_dim * 2;
  num_hidden_layers := num_layers;
  num_attention_heads := num_heads;
  pad_token_id := tokenizer_pad_token_id;
  eos_token_id := tokenizer_eos_token_id;
  attention_dropout := 0%Q;
  mlp_dropout := 0%Q;
  mlp_bias := false;
  attention_bias := false
|}.

(** [torch.nn] layers and tensor operations the block is built from. *)
Module NN.
Section Layers.
Context {F : Type} `{FloatOps F} `{BlockOps F}.

(** [nn.Linear]: a weight of shape [out_features, in_features] and an
    optional bias of [out_features] entries. *)
Record Linear : Type := {
  weight : tensor2 F;
  bias : option (nat → F)
}.

(** [nn.Linear(in_features, out_features, bias=)]; the parameters start
    from the values of the initialiser. *)
Definition new_linear (in_features out_features : Z) (with_bias : bool)
    (init_weight : nat → nat → F) (init_bias : nat → F) : result Linear :=
  if (in_features <? 0) || (out_features <? 0) then
    Raise (OtherException "RuntimeError"
             "Trying to create tensor with negative dimension")
  else
    Ok {| weight := Tensor2 (Z.to_nat out_features) (Z.to_nat in_features)
                      init_weight;
          bias := if with_bias then Some init_bias else None |}.

(** [lin(x)] on a 3-D input: [x @ weight.T + bias] along the last axis. *)
Definition linear (lin : Linear) (x : tensor3 F) : result (tensor3 F) :=
  if (size2 x =? cols (weight lin))%nat then
    Ok (Tensor3 (size0 x) (size1 x) (rows (weight lin))
          (fun b t o =>
             let dot :=
               fsum (map (fun i => fmul (get3 x b t i) (get2 (weight lin) o i))
                       (seq 0 (cols (weight lin)))) in
             match bias lin with
             | Some bias_at => fadd dot (bias_at o)
             | None => dot
             end))
  else
    Raise (OtherException "RuntimeError"
             "mat1 and mat2 shapes cannot be multiplied").

(** [nn.Dropout(p)] *)
Definition new_dropout (p : Q) : result Q :=
  if negb (Qle_bool 0 p) || negb (Qle_bool p 1) then
    Raise (ValueError "dropout probability has to be between 0 and 1")
  else Ok p.

(** [drop(x)]: the identity in evaluation mode and for [p = 0]. *)
Definition dropout (p : Q) (training : bool) (x : tensor3 F) : tensor3 F :=
  if training && negb (Qeq_bool p 0) then
    Tensor3 (size0 x) (size1 x) (size2 x)
      (fun b t d => fdropout p b t d (get3 x b t d))
  else x.

(** [x.chunk(2, dim=-1)]: chunks of [ceil(n / 2)] entries; an axis of one
    entry gives a single chunk, an empty axis two empty chunks. *)
Definition chunk2 {A} (x : tensor3 A) : list (tensor3 A) :=
  let n := size2 x in
  let split_size := ((n + 1) / 2)%nat in
  if (n =? 0)%nat then
    [Tensor3 (size0 x) (size1 x) 0 (get3 x);
     Tensor3 (size0 x) (size1 x) 0 (get3 x)]
  else if (n =? 1)%nat then [x]
  else
    [Tensor3 (size0 x) (size1 x) split_size (get3 x);
     Tensor3 (size0 x) (size1 x) (n - split_size)
       (fun b t d => get3 x b t (split_size + d))].

(** [a, b = chunks] *)
Definition unpack_pair {A} (chunks : list A) : result (A * A) :=
  match chunks with
  | [a; b] => Ok (a, b)
  | _ :: _ :: _ :: _ => Raise (ValueError "too many values to unpack (expected 2)")
  | _ =>
      Raise (ValueError ("not enough values to unpack (expected 2, got "
                           +:+ pretty (length chunks) +:+ ")"))
  end.

(** The extent of one axis of a broadcast product, if the operands'
    extents are compatible. *)
Definition broadcast_axis (a b : nat) : option nat :=
  if (a =? b)%nat then Some a
  else if (a =? 1)%nat then Some b
  else if (b =? 1)%nat then Some a
  else None.

(** [x * y] with broadcasting, for 3-D operands. *)
Definition mul (x y : tensor3 F) : result (tensor3 F) :=
  match broadcast_axis (size0 x) (size0 y),
        broadcast_axis (size1 x) (size1 y),
        broadcast_axis (size2 x) (size2 y) with
  | Some s0, Some s1, Some s2 =>
      Ok (Tensor3 s0 s1 s2
            (fun b t d =>
               fmul (get3 x (Torch.expand_axis (size0 x) s0 b)
                            (Torch.expand_axis (size1 x) s1 t)
                            (Torch.expand_axis (size2 x) s2 d))
                    (get3 y (Torch.expand_axis (size0 y) s0 b)
                            (Torch.expand_axis (size1 y) s1 t)
                            (Torch.expand_axis (size2 y) s2 d))))
  | _, _, _ =>
      Raise (OtherException "RuntimeError"
               "The size of tensor a must match the size of tensor b")
  end.

(** [F.silu(x)] *)
Definition silu (x : tensor3 F) : tensor3 F :=
  Tensor3 (size0 x) (size1 x) (size2 x) (fun b t d => fsilu (get3 x b t d)).

End Layers.
End NN.

(** Lines 287-289: [class SwiGLU]. *)
Module SwiGLU.
Section SwiGLU.
Context {F : Type} `{FloatOps F} `{BlockOps F}.

Definition forward (x gate : tensor3 F) : result (tensor3 F) :=
  NN.mul (NN.silu gate) x.

End SwiGLU.
End SwiGLU.

(** Lines 292-304: [class ModernBertMLPSwiGLU]. *)
Module ModernBertMLPSwiGLU.
Section Block.
Context {F : Type} `{FloatOps F} `{BlockOps F}.

(** The values the parameters of the two linear layers start from. *)
Record initial_values : Type := {
  Wi_weight : nat → nat → F;
  Wi_bias : nat → F;
  Wo_weight : nat → nat → F;
  Wo_bias : nat → F
}.

(** The module's state: its two linear layers, the probability of its
    dropout, and the mode it is in ([train] or [eval]). *)
Record t : Type := {
  Wi : @NN.Linear F;
  drop : Q;
  Wo : @NN.Linear F;
  training : bool
}.

(** Lines 295-300: [__init__]; a new module is in training mode. *)
Definition init (config : ModernBertConfig) (values : initial_values)
    : result t :=
  wi ← NN.new_linear (hidden_size config) (intermediate_size config * 2)
         (mlp_bias config) (Wi_weight values) (Wi_bias values);
  p ← NN.new_dropout (mlp_dropout config);
  wo ← NN.new_linear (intermediate_size config) (hidden_size config)
         (mlp_bias config) (Wo_weight values) (Wo_bias values);
  Ok {| Wi := wi; drop := p; Wo := wo; training := true |}.

(** [module.eval()] / [module.train(mode)] *)
Definition train (mode : bool) (m : t) : t :=
  {| Wi := Wi m; drop := drop m; Wo := Wo m; training := mode |}.

(** Lines 302-304: [forward]. *)
Definition forward (m : t) (hidden_states : tensor3 F)
    : result (tensor3 F) :=
  projected ← NN.linear (Wi m) hidden_states;
  '(x, gate) ← NN.unpack_pair (NN.chunk2 projected);
  activated ← SwiGLU.forward x gate;
  NN.linear (Wo m) (NN.dropout (drop m) (training m) activated).

End Block.
End ModernBertMLPSwiGLU.

(** The entry [o] of the block's output at one position, for input vector
    [x], weights without bias and no dropout: with
    [y = Wi x], the first half of [y] is the value, the second half the
    gate, and the output is [Wo (silu(gate) * value)]. *)
Definition swiglu_entry {F} `{FloatOps F} `{BlockOps F}
    (wi wo : nat → nat → F) (width inner : nat) (x : nat → F) (o : nat) : F :=
  let y := fun k => fsum (map (fun i => fmul (x i) (wi k i)) (seq 0 width)) in
  fsum (map (fun j => fmul (fmul (fsilu (y (inner + j)%nat)) (y j)) (wo o j))
          (seq 0 inner)).

(** Stand-ins for the block's float operations on exact rationals, where a
    theorem is run on concrete tensors. *)
#[global] Instance exact_block_ops : BlockOps Q := {|
  fadd := Qplus;
  fsilu := fun x => Qdiv x (Qplus (1 # 1) (Qmult x x));
  fdropout := fun p _ _ _ x => Qdiv x (Qminus (1 # 1) p)
|}.

(** Initial values for a block on rationals. *)
Definition demo_initial_values : @ModernBertMLPSwiGLU.initial_values Q := {|
  ModernBertMLPSwiGLU.Wi_weight := fun o i => inject_Z (Z.of_nat (o + i));
  ModernBertMLPSwiGLU.Wi_bias := fun _ => (0 # 1)%Q;
  ModernBertMLPSwiGLU.Wo_weight := fun o i => inject_Z (Z.of_nat (o * i));
  ModernBertMLPSwiGLU.Wo_bias := fun _ => (0 # 1)%Q
|}.

(** Hidden states of width 2 for one sequence of three positions. *)
Definition demo_block_input : tensor3 Q :=
  Tensor3 1 3 2 (fun b t d => inject_Z (Z.of_nat (10 * t + d))).

(** * Properties of the built-ins *)

(** What [int] reads: ASCII and non-ASCII decimal digits, a sign, white
    space at both ends, single underscores between digits; nothing else. *)
Example int_reads :
  map Py.int ["0"; "12"; "-1"; "+7"; " 3 "; "1_0"; "007"; "٣"; "１２"; "-٣"]%string
  = [Some 0; Some 12; Some (-1); Some 7; Some 3; Some 10; Some 7; Some 3;
     Some 12; Some (-3)]
  ∧ map Py.int [""; "x"; "1x"; "1.5"; "_1"; "1_"; "1__0"; "- 1"; "²"; "0x1f"]%string
    = [None; None; None; None; None; None; None; None; None; None].
Proof. split; vm_compute; reflexivity. Qed.

Lemma append_nil (s : string) : "" +:+ s = s.
Proof. reflexivity. Qed.

Lemma append_cons (c : ascii) (a b : string) :
  String c a +:+ b = String c (a +:+ b).
Proof. reflexivity. Qed.

Ltac push_append := rewrite ?append_cons, ?append_nil.

Lemma prefix_nil (s : string) : String.prefix "" s = true.
Proof. by destruct s. Qed.

Lemma prefix_app (n post : string) : String.prefix n (n +:+ post) = true.
Proof.
  induction n as [|c n IH]; push_append; [apply prefix_nil|].
  simpl. destruct (ascii_dec c c); [exact IH | congruence].
Qed.

Lemma prefix_inv (n h : string) :
  String.prefix n h = true → ∃ post, h = n +:+ post.
Proof.
  revert h. induction n as [|c n IH]; intros h Hp.
  - by exists h.
  - destruct h as [|c' h]; [done|]. simpl in Hp.
    destruct (ascii_dec c c') as [->|]; [|done].
    destruct (IH _ Hp) as [post ->]. by exists post.
Qed.

Lemma contains_unfold (n h : string) :
  Py.contains n h =
  if String.prefix n h then true
  else match h with
       | EmptyString => false
       | String _ rest => Py.contains n rest
       end.
Proof. by destruct h. Qed.

Lemma contains_intro (n pre post : string) :
  Py.contains n (pre +:+ n +:+ post) = true.
Proof.
  induction pre as [|c pre IH]; push_append; rewrite contains_unfold.
  - by rewrite prefix_app.
  - rewrite IH. by destruct (String.prefix _ _).
Qed.

Lemma contains_inv (n h : string) :
  Py.contains n h = true → ∃ pre post, h = pre +:+ n +:+ post.
Proof.
  induction h as [|c h IH]; rewrite contains_unfold; intros Hc.
  - destruct (String.prefix n "") eqn:Hp; [|done].
    destruct (prefix_inv _ _ Hp) as [post Heq]. exists "", post.
    by rewrite append_nil.
  - destruct (String.prefix n (String c h)) eqn:Hp.
    + destruct (prefix_inv _ _ Hp) as [post Heq]. exists "", post.
      by rewrite append_nil.
    + destruct (IH Hc) as (pre & post & ->). by exists (String c pre), post.
Qed.

Lemma string_app_assoc (a b c : string) : (a +:+ b) +:+ c = a +:+ (b +:+ c).
Proof. induction a as [|x a IH]; push_append; [done | by rewrite IH]. Qed.

(** A name that contains [n1 +:+ n2] contains [n1]. *)
Lemma contains_prefix_of_needle (n1 n2 h : string) :
  Py.contains (n1 +:+ n2) h = true → Py.contains n1 h = true.
Proof.
  intros Hc. destruct (contains_inv _ _ Hc) as (pre & post & ->).
  rewrite string_app_assoc. apply contains_intro.
Qed.

Lemma split_dot_nonempty (s : string) : Py.split_dot s ≠ [].
Proof.
  induction s as [|c s IH]; simpl; [done|].
  destruct (Ascii.eqb c "."); [done|]. by destruct (Py.split_dot s).
Qed.

(** Splitting at a dot splits the list of parts. *)
Lemma split_dot_app (a b : string) :
  Py.split_dot (a +:+ String "." b) = Py.split_dot a ++ Py.split_dot b.
Proof.
  induction a as [|c a IH]; push_append; simpl; [done|].
  rewrite IH. destruct (Ascii.eqb c "."); [done|].
  pose proof (split_dot_nonempty a) as Hne.
  by destruct (Py.split_dot a).
Qed.

(** * The layer-index set *)

Lemma scan_parts_spec (parts : list string) (acc : gset Z) (idx : Z) :
  idx ∈ scan_parts parts acc ↔
  idx ∈ acc ∨ ∃ (i : nat) (part : string),
      parts !! i = Some "layers" ∧ parts !! S i = Some part
      ∧ Py.int part = Some idx.
Proof.
  revert acc. induction parts as [|p rest IH]; intros acc; simpl.
  - split; [by left | intros [?|(i & part & Hi & _)]; [done|]].
    by rewrite lookup_nil in Hi.
  - rewrite IH. split.
    + intros [Hacc | (i & part & Hi & Hn & Hint)].
      * destruct (String.eqb p "layers") eqn:Hp; [|by left].
        destruct rest as [|next rest']; [by left|].
        destruct (Py.int next) as [l|] eqn:Hnext; [|by left].
        apply elem_of_union in Hacc as [->%elem_of_singleton | ?]; [|by left].
        right. exists 0%nat, next. apply String.eqb_eq in Hp as ->. done.
      * right. by exists (S i), part.
    + intros [Hacc | (i & part & Hi & Hn & Hint)].
      * left. destruct (String.eqb p "layers"); [|done].
        destruct rest as [|next rest']; [done|].
        destruct (Py.int next); [|done]. apply elem_of_union. by right.
      * destruct i as [|i].
        -- left. simpl in Hi, Hn. injection Hi as ->. simpl.
           destruct rest as [|next rest']; [done|]. simpl in Hn.
           injection Hn as ->. rewrite Hint.
           apply elem_of_union. left. by apply elem_of_singleton.
        -- right. by exists i, part.
Qed.

Lemma collect_layer_indices_spec (items : table) (acc : gset Z) (idx : Z) :
  idx ∈ collect_layer_indices items acc ↔ idx ∈ acc ∨ index_found items idx.
Proof.
  revert acc. induction items as [|[key shape] rest IH]; intros acc; simpl.
  - split; [by left | intros [?|(k & s & Hin & _)]; [done|]].
    by apply elem_of_nil in Hin.
  - rewrite IH. unfold index_found, index_after_layers. split.
    + intros [Hacc | (k & s & Hin & Hc & Hix)].
      * destruct (Py.contains "model.layers." key) eqn:Hc; [|by left].
        apply scan_parts_spec in Hacc as [?|Hix]; [by left|].
        right. exists key, shape. split; [apply elem_of_cons; by left | done].
      * right. exists k, s. split; [apply elem_of_cons; by right | done].
    + intros [Hacc | (k & s & Hin & Hc & Hix)].
      * left. destruct (Py.contains "model.layers." key); [|done].
        apply scan_parts_spec. by left.
      * apply elem_of_cons in Hin as [[= -> ->] | Hin].
        -- left. rewrite Hc. apply scan_parts_spec. by right.
        -- right. by exists k, s.
Qed.

(** The set the code builds is the set of indices found. *)
Lemma layer_indices_spec (tbl : table) (idx : Z) :
  idx ∈ layer_indices tbl ↔ index_found tbl idx.
Proof.
  unfold layer_indices. rewrite collect_layer_indices_spec.
  split; [intros [Hin | Hf]; [by apply not_elem_of_empty in Hin | done]
         | by right].
Qed.

(** A key that contains [model.layers.0.] has a segment [layers] followed
    by a segment [0]. *)
Lemma layer_zero_segment (key : string) :
  Py.contains "model.layers.0." key = true →
  Py.contains "model.layers." key = true ∧ index_after_layers key 0.
Proof.
  intros Hc. split.
  { apply (contains_prefix_of_needle "model.layers." "0."). exact Hc. }
  destruct (contains_inv _ _ Hc) as (pre & post & ->).
  assert (pre +:+ "model.layers.0." +:+ post =
          (pre +:+ "model") +:+ String "." ("layers" +:+
             String "." ("0" +:+ String "." post))) as ->.
  { rewrite string_app_assoc. reflexivity. }
  unfold index_after_layers. rewrite !split_dot_app.
  exists (length (Py.split_dot (pre +:+ "model"))), "0"%string.
  split; [|split].
  - rewrite lookup_app_r by lia. by rewrite Nat.sub_diag.
  - rewrite lookup_app_r by lia.
    replace (S _ - _)%nat with 1%nat by lia. reflexivity.
  - reflexivity.
Qed.

Lemma layer_zero_found (tbl : table) (needle key : string) (shape : list Z) :
  (key, shape) ∈ tbl →
  Py.contains ("model.layers.0." +:+ needle) key = true →
  0 ∈ layer_indices tbl.
Proof.
  intros Hin Hc. apply layer_indices_spec.
  apply contains_prefix_of_needle in Hc.
  destruct (layer_zero_segment _ Hc) as [Hm Hix].
  by exists key, shape.
Qed.

Lemma size_pos_of_elem (s : gset Z) (x : Z) : x ∈ s → Z.of_nat (size s) ≠ 0.
Proof.
  intros Hx Hs. assert (size s = 0%nat) as H0 by lia.
  apply size_empty_inv in H0. set_solver.
Qed.

(** * The scans stop at the first matching entry *)

Lemma find_embed_dim_skip (pre rest : table) :
  Forall (fun '(key, _) => matches_embed_rule key = false) pre →
  find_embed_dim (pre ++ rest) = find_embed_dim rest.
Proof.
  induction 1 as [|[key shape] pre Hk _ IH]; simpl; [done|].
  unfold matches_embed_rule in Hk.
  apply orb_false_iff in Hk as [[-> ->]%orb_false_iff ->]. exact IH.
Qed.

Lemma heads_from_wqkv_skip (e : Z) (pre rest : table) :
  Forall (fun '(key, _) => Py.contains wqkv_name key = false) pre →
  heads_from_wqkv e (pre ++ rest) = heads_from_wqkv e rest.
Proof.
  induction 1 as [|[key shape] pre Hk _ IH]; simpl; [done|].
  by rewrite Hk.
Qed.

(** * The head-count rules *)

Lemma try_head_counts_spec (e : Z) (cands : list Z) (h : Z) :
  try_head_counts e cands = Some h ↔
  ∃ before after, cands = before ++ h :: after
    ∧ Forall (fun c => e mod c ≠ 0) before ∧ e mod h = 0.
Proof.
  induction cands as [|c cands IH]; simpl.
  - split; [done | intros (b & a & Heq & _)]. by destruct b.
  - destruct (e mod c =? 0) eqn:Hc.
    + apply Z.eqb_eq in Hc. split.
      * intros [= <-]. exists [], cands. by repeat split.
      * intros ([|b0 b] & a & Heq & Hb & Hh); simplify_eq/=; try done.
        by apply Forall_cons in Hb as [? _].
    + apply Z.eqb_neq in Hc. rewrite IH. split.
      * intros (b & a & -> & Hb & Hh). exists (c :: b), a.
        split; [done|]. split; [by apply Forall_cons | done].
      * intros ([|b0 b] & a & Heq & Hb & Hh); simplify_eq/=; try done.
        apply Forall_cons in Hb as [_ Hb]. by exists b, a.
Qed.

Lemma heads_for_embed_dim_spec (e h : Z) :
  heads_for_embed_dim e = Some h ↔ heads_rule e h.
Proof.
  unfold heads_for_embed_dim. split.
  - destruct (e mod 64 =? 0) eqn:H64.
    { intros [= <-]. apply rule_64. by apply Z.eqb_eq. }
    apply Z.eqb_neq in H64. destruct (e mod 32 =? 0) eqn:H32.
    { intros [= <-]. apply rule_32; [done | by apply Z.eqb_eq]. }
    apply Z.eqb_neq in H32. destruct (e mod 128 =? 0) eqn:H128.
    { intros [= <-]. apply rule_128; [done.. | by apply Z.eqb_eq]. }
    apply Z.eqb_neq in H128.
    intros (b & a & Heq & Hb & Hh)%try_head_counts_spec.
    by eapply rule_common.
  - intros [H64 | H64 H32 | H64 H32 H128 | b a h' H64 H32 H128 Heq Hb Hh].
    + apply Z.eqb_eq in H64. by rewrite H64.
    + apply Z.eqb_neq in H64. apply Z.eqb_eq in H32. by rewrite H64, H32.
    + apply Z.eqb_neq in H64, H32. apply Z.eqb_eq in H128.
      by rewrite H64, H32, H128.
    + apply Z.eqb_neq in H64, H32, H128. rewrite H64, H32, H128.
      apply try_head_counts_spec. by exists b, a.
Qed.

(** The head size of 128 is only tried after 64 has failed, so it never
    decides. *)
Lemma rule_128_never_fires (e : Z) : e mod 64 ≠ 0 → e mod 128 ≠ 0.
Proof.
  intros H64 H128. apply H64.
  apply Z.mod_divide in H128 as [k ->]; [|done].
  replace (k * 128) with ((k * 2) * 64) by lia. by apply Z.mod_mul.
Qed.

(** * Embedding width: the first matching entry decides *)

Example wo_before_tok_result : infer_architecture wo_before_tok = Ok (64, 1, 1).
Proof. vm_compute. reflexivity. Qed.

(** C2, as stated, fails: a token-embedding matrix of shape [30, 128] is
    present, yet the inferred width is 64, read from the [Wo] entry that
    comes first in iteration order. *)
Lemma tok_embeddings_width_depends_on_order :
  ¬ (∀ (tbl : table) (key : string) (V E e l h : Z),
        (key, [V; E]) ∈ tbl →
        Py.contains tok_embeddings_name key = true →
        infer_architecture tbl = Ok (e, l, h) →
        e = E).
Proof.
  intros Hclaim.
  specialize (Hclaim wo_before_tok "model.embeddings.tok_embeddings.weight"%string
                30 128 64 1 1).
  assert (64 = 128) as Habs; [|done].
  apply Hclaim; [| reflexivity | apply wo_before_tok_result].
  apply elem_of_cons; right. apply elem_of_cons; by left.
Qed.

(** C2, amended: when the first entry, in iteration order, whose name
    matches any of the three width rules is a token-embedding entry of
    shape [V, E], the width stage finds [E] and every architecture the
    inspector returns has [embed_dim = E], whatever entries follow. *)
Theorem embed_dim_from_first_tok_embeddings
    (pre post : table) (key : string) (V E : Z) :
  Forall (fun '(k, _) => matches_embed_rule k = false) pre →
  Py.contains tok_embeddings_name key = true →
  find_embed_dim (pre ++ (key, [V; E]) :: post) = Ok (Some E)
  ∧ ∀ e l h,
      infer_architecture (pre ++ (key, [V; E]) :: post) = Ok (e, l, h) →
      e = E.
Proof.
  intros Hpre Hkey.
  assert (find_embed_dim (pre ++ (key, [V; E]) :: post) = Ok (Some E)) as Hfind.
  { rewrite find_embed_dim_skip by done. simpl. by rewrite Hkey. }
  split; [done|]. intros e l h. unfold infer_architecture. rewrite Hfind. simpl.
  destruct (_ =? 0); [done|].
  destruct (heads_from_wqkv _ _) as [[h1|]|]; simpl; try done.
  - by intros [= <- _ _].
  - destruct (heads_from_query _ _); [|done]. by intros [= <- _ _].
Qed.

Lemma embed_dim_from_first_tok_embeddings_witness :
  infer_architecture tok_after_norm = Ok (768, 1, 12)
  ∧ find_embed_dim tok_after_norm = Ok (Some 768)
  ∧ ∀ e l h, infer_architecture tok_after_norm = Ok (e, l, h) → e = 768.
Proof.
  split; [vm_compute; reflexivity|].
  apply (embed_dim_from_first_tok_embeddings
           [("model.embeddings.norm.weight"%string, [768])]
           [("model.layers.0.attn.Wo.weight"%string, [512; 512]);
            ("model.layers.0.attn.Wqkv.weight"%string, [2304; 768])]
           "model.embeddings.tok_embeddings.weight" 30 768).
  - repeat constructor.
  - reflexivity.
Defined.

(** * Layer count: the number of distinct indices *)

Example negative_index_result : infer_architecture negative_index = Ok (64, 2, 1).
Proof. vm_compute. reflexivity. Qed.

Example negative_index_set : layer_indices negative_index = {[ -1; 0 ]}.
Proof. vm_compute. reflexivity. Qed.

(** C3, as stated, fails: [int] accepts a sign, so the key
    [model.layers.-1.mlp.Wo.weight] contributes the index -1.  The
    non-negative indices found in [negative_index] are just {0}, yet the
    inspector returns [num_layers = 2]. *)
Lemma num_layers_counts_negative_indices :
  ¬ (∀ (tbl : table) (indices : gset Z),
        (∀ idx, idx ∈ indices ↔ 0 ≤ idx ∧ index_found tbl idx) →
        ∀ e l h, infer_architecture tbl = Ok (e, l, h) →
                 l = Z.of_nat (size indices)).
Proof.
  intros Hclaim.
  specialize (Hclaim negative_index {[ 0 ]}).
  assert (∀ idx, idx ∈ ({[ 0 ]} : gset Z)
                 ↔ 0 ≤ idx ∧ index_found negative_index idx) as Hchar.
  { intros idx. rewrite <- layer_indices_spec, negative_index_set.
    rewrite elem_of_union, !elem_of_singleton. lia. }
  specialize (Hclaim Hchar 64 2 1 negative_index_result).
  by rewrite size_singleton in Hclaim.
Qed.

(** C3, amended: [num_layers] is the number of distinct integers, of either
    sign, that [int] reads in the segment following a segment [layers] of a
    key containing [model.layers.]; it is not the largest index plus one.
    Indices {0,1,2,3} give 4 and indices {0,2} give 2; a segment that [int]
    rejects is skipped and raises nothing; once the width is determined, an
    empty index set fails with the num_layers-undetermined error.  What
    [int] reads is what Python's [int] reads: a non-ASCII decimal digit, a
    literal between white space and an underscore between digits count,
    and two spellings of one integer count once. *)
Theorem num_layers_is_number_of_distinct_indices :
  (∀ (tbl : table) idx, idx ∈ layer_indices tbl ↔ index_found tbl idx)
  ∧ (∀ (tbl : table) e l h,
        infer_architecture tbl = Ok (e, l, h) →
        l = Z.of_nat (size (layer_indices tbl)))
  ∧ (∀ (tbl : table) e,
        find_embed_dim tbl = Ok (Some e) →
        (∀ idx, ¬ index_found tbl idx) →
        infer_architecture tbl = Raise num_layers_undetermined)
  ∧ (layer_indices four_layers = {[ 0; 1; 2; 3 ]}
     ∧ infer_architecture four_layers = Ok (64, 4, 1))
  ∧ (layer_indices gap_layers = {[ 0; 2 ]}
     ∧ infer_architecture gap_layers = Ok (64, 2, 1))
  ∧ (layer_indices malformed_segment = {[ 0 ]}
     ∧ infer_architecture malformed_segment = Ok (64, 1, 1))
  ∧ (layer_indices unusual_literals = {[ 0; 3; 7; 10 ]}
     ∧ infer_architecture unusual_literals = Ok (64, 4, 1)).
Proof.
  split; [exact layer_indices_spec|]. split; [|split].
  - intros tbl e l h. unfold infer_architecture.
    destruct (find_embed_dim tbl) as [[e'|]|]; simpl; try done.
    destruct (_ =? 0); [done|].
    destruct (heads_from_wqkv _ _) as [[h1|]|]; simpl; try done.
    + by intros [= _ <- _].
    + destruct (heads_from_query _ _); [|done]. by intros [= _ <- _].
  - intros tbl e Hfind Hnone. unfold infer_architecture. rewrite Hfind. simpl.
    assert (layer_indices tbl = ∅) as ->.
    { apply set_eq. intros idx. rewrite layer_indices_spec.
      split; [by intros ?%Hnone | by intros ?%not_elem_of_empty]. }
    by rewrite size_empty.
  - repeat split; vm_compute; reflexivity.
Qed.

Lemma num_layers_is_number_of_distinct_indices_witness :
  infer_architecture gap_layers = Ok (64, 2, 1)
  ∧ 2 = Z.of_nat (size (layer_indices gap_layers))
  ∧ infer_architecture [("model.embeddings.tok_embeddings.weight"%string, [30; 64]);
                        ("model.layers.x.weight"%string, [64])]
    = Raise num_layers_undetermined.
Proof.
  destruct num_layers_is_number_of_distinct_indices
    as (Hset & Hcount & Hempty & _ & [_ Hgap] & _).
  split; [exact Hgap|]. split.
  - exact (Hcount gap_layers 64 2 1 Hgap).
  - apply (Hempty _ 64); [reflexivity|].
    intros idx Hfound. apply Hset in Hfound.
    assert (layer_indices
              [("model.embeddings.tok_embeddings.weight"%string, [30; 64]);
               ("model.layers.x.weight"%string, [64])] = ∅) as Hnone
      by (vm_compute; reflexivity).
    rewrite Hnone in Hfound. by apply not_elem_of_empty in Hfound.
Defined.

(** * Head count, primary stage *)

Example t768_ok : infer_architecture t768 = Ok (768, 2, 12).
Proof. vm_compute. reflexivity. Qed.

Example shadowed_wqkv_result :
  infer_architecture shadowed_wqkv = Raise num_heads_undetermined.
Proof. vm_compute. reflexivity. Qed.

(** C1, as stated, fails: the table holds the key
    [model.layers.0.attn.Wqkv.weight] with shape [2304, 768] and the width
    is 768, but an earlier key also contains that name and has another
    shape; the scan reads only that earlier key and no head count is
    chosen. *)
Lemma wqkv_rule_needs_first_key :
  ¬ (∀ (tbl : table) (q m e h : Z),
        ("model.layers.0.attn.Wqkv.weight"%string, [q; m]) ∈ tbl →
        find_embed_dim tbl = Ok (Some e) →
        q = 3 * e →
        heads_rule e h →
        ∃ l, infer_architecture tbl = Ok (e, l, h)).
Proof.
  intros Hclaim.
  destruct (Hclaim shadowed_wqkv 2304 768 768 (768 / 64)) as [l Hl].
  - apply elem_of_cons; right. apply elem_of_cons; right.
    apply elem_of_cons; by left.
  - reflexivity.
  - reflexivity.
  - by apply rule_64.
  - by rewrite shadowed_wqkv_result in Hl.
Qed.

(** C1, amended: when the first key, in iteration order, that contains
    [model.layers.0.attn.Wqkv.weight] has a shape [qkv_dim, model_dim] with
    [qkv_dim = 3 * embed_dim], the inspector returns the head count given by
    the first rule that applies, in the order 64, 32, 128, then the first of
    8, 12, 16, 20, 24, 32 dividing the width.  Width 768 with a [2304, 768]
    matrix gives 12 heads; width 100 gives 20. *)
Theorem num_heads_from_first_wqkv :
  (∀ (pre post : table) (key : string) (q m e h : Z),
      Forall (fun '(k, _) => Py.contains wqkv_name k = false) pre →
      Py.contains wqkv_name key = true →
      find_embed_dim (pre ++ (key, [q; m]) :: post) = Ok (Some e) →
      q = 3 * e →
      heads_rule e h →
      ∃ l, infer_architecture (pre ++ (key, [q; m]) :: post) = Ok (e, l, h))
  ∧ infer_architecture t768 = Ok (768, 2, 12)
  ∧ infer_architecture width_100 = Ok (100, 1, 20).
Proof.
  split; [|split; vm_compute; reflexivity].
  intros pre post key q m e h Hpre Hkey Hfind -> Hrule.
  exists (Z.of_nat (size (layer_indices (pre ++ (key, [3 * e; m]) :: post)))).
  unfold infer_architecture. rewrite Hfind. simpl.
  destruct (_ =? 0) eqn:Hsize.
  { apply Z.eqb_eq in Hsize. exfalso. revert Hsize.
    apply (size_pos_of_elem _ 0).
    apply (layer_zero_found _ "attn.Wqkv.weight" key [3 * e; m]); [|exact Hkey].
    apply elem_of_app; right. apply elem_of_cons; by left. }
  rewrite heads_from_wqkv_skip by done. simpl. rewrite Hkey. simpl.
  rewrite Z.eqb_refl.
  apply heads_for_embed_dim_spec in Hrule. by rewrite Hrule.
Qed.

Lemma num_heads_from_first_wqkv_witness :
  ∃ l, infer_architecture
         ([("model.embeddings.tok_embeddings.weight"%string, [30; 96])]
            ++ ("model.layers.0.attn.Wqkv.weight"%string, [288; 96]) :: [])
       = Ok (96, l, 96 / 32).
Proof.
  apply (proj1 num_heads_from_first_wqkv).
  - repeat constructor.
  - reflexivity.
  - reflexivity.
  - reflexivity.
  - by apply rule_32.
Defined.

(** C9, as stated, fails: line 248 unpacks the shape of the first Wqkv key
    into two names before it compares anything.  A tensor that is not
    two-dimensional, here of shape [100] with width 64, makes the inspector
    raise the [ValueError] of the unpacking; the query key that the
    fallback stage would have read is never looked at. *)
Lemma wqkv_scan_unpacks_before_comparing :
  ¬ (∀ (pre post : table) (key : string) (q : Z) (dims : list Z) (e : Z),
        Forall (fun '(k, _) => Py.contains wqkv_name k = false) pre →
        Py.contains wqkv_name key = true →
        find_embed_dim (pre ++ (key, q :: dims) :: post) = Ok (Some e) →
        q ≠ 3 * e ∨ (∀ h, ¬ heads_rule e h) →
        heads_from_wqkv e (pre ++ (key, q :: dims) :: post) = Ok None
        ∧ ∃ l,
            infer_architecture (pre ++ (key, q :: dims) :: post) =
            match heads_from_query e (pre ++ (key, q :: dims) :: post) with
            | Some h => Ok (e, l, h)
            | None => Raise num_heads_undetermined
            end).
Proof.
  intros Hclaim.
  destruct (Hclaim flat_wqkv_pre flat_wqkv_post
              "model.layers.0.attn.Wqkv.weight" 100 [] 64) as [Hstage [l Hl]].
  - repeat constructor.
  - reflexivity.
  - reflexivity.
  - left. lia.
  - assert (heads_from_wqkv 64
              (flat_wqkv_pre
                 ++ ("model.layers.0.attn.Wqkv.weight"%string, [100])
                 :: flat_wqkv_post)
            = Raise (ValueError "not enough values to unpack (expected 2, got 1)"))
      as Hraise by (vm_compute; reflexivity).
    rewrite Hraise in Hstage. discriminate Hstage.
Qed.

(** C9, amended: the primary stage reads only the first key, in iteration
    order, that contains [model.layers.0.attn.Wqkv.weight].  If that key
    holds a two-dimensional tensor whose first dimension differs from
    [3 * embed_dim], or one for which no head-count rule applies to the
    width, the stage ends there with no head count and no error, whatever
    keys follow, and the inspector's answer is the one of the query-key
    fallback stage. *)
Theorem wqkv_scan_reads_first_key_only
    (pre post : table) (key : string) (q m e : Z) :
  Forall (fun '(k, _) => Py.contains wqkv_name k = false) pre →
  Py.contains wqkv_name key = true →
  find_embed_dim (pre ++ (key, [q; m]) :: post) = Ok (Some e) →
  q ≠ 3 * e ∨ (∀ h, ¬ heads_rule e h) →
  (∀ post', heads_from_wqkv e (pre ++ (key, [q; m]) :: post') = Ok None)
  ∧ ∃ l,
      infer_architecture (pre ++ (key, [q; m]) :: post) =
      match heads_from_query e (pre ++ (key, [q; m]) :: post) with
      | Some h => Ok (e, l, h)
      | None => Raise num_heads_undetermined
      end.
Proof.
  intros Hpre Hkey Hfind Hmiss.
  assert (∀ post', heads_from_wqkv e (pre ++ (key, [q; m]) :: post') = Ok None)
    as Hstage.
  { intros post'. rewrite heads_from_wqkv_skip by done. simpl. rewrite Hkey.
    simpl. destruct Hmiss as [Hq | Hrule].
    - apply Z.eqb_neq in Hq. by rewrite Hq.
    - destruct (q =? 3 * e); [|done].
      destruct (heads_for_embed_dim e) as [h|] eqn:Hh; [|done].
      apply heads_for_embed_dim_spec in Hh. by destruct (Hrule h). }
  split; [exact Hstage|].
  exists (Z.of_nat (size (layer_indices (pre ++ (key, [q; m]) :: post)))).
  unfold infer_architecture. rewrite Hfind. simpl.
  destruct (_ =? 0) eqn:Hsize.
  { apply Z.eqb_eq in Hsize. exfalso. revert Hsize.
    apply (size_pos_of_elem _ 0).
    apply (layer_zero_found _ "attn.Wqkv.weight" key [q; m]); [|exact Hkey].
    apply elem_of_app; right. apply elem_of_cons; by left. }
  rewrite Hstage. simpl. by destruct (heads_from_query _ _).
Qed.

Lemma wqkv_scan_reads_first_key_only_witness :
  (∀ post',
      heads_from_wqkv 768
        (mismatched_wqkv_pre
           ++ ("model.layers.0.attn.Wqkv.weight"%string, [1536; 768]) :: post')
      = Ok None)
  ∧ ∃ l,
      infer_architecture
        (mismatched_wqkv_pre
           ++ ("model.layers.0.attn.Wqkv.weight"%string, [1536; 768])
           :: mismatched_wqkv_post)
      = Ok (768, l, 24).
Proof.
  apply (wqkv_scan_reads_first_key_only mismatched_wqkv_pre mismatched_wqkv_post
           "model.layers.0.attn.Wqkv.weight" 1536 768 768).
  - repeat constructor.
  - reflexivity.
  - reflexivity.
  - left. lia.
Defined.

(** * Runs of a generator body *)

Section GenFacts.
Context {F : Type}.

Lemma gen_bind_ok {A B} (m : gen F A) (k : A → gen F B) (a : A) :
  returned m = Ok a →
  m ≫= k = Gen (emitted m ++ emitted (k a)) (returned (k a)).
Proof. intros Hm. unfold mbind, gen_bind. by rewrite Hm. Qed.

Lemma gen_bind_raise {A B} (m : gen F A) (k : A → gen F B) (e : exn) :
  returned m = Raise e → m ≫= k = Gen (emitted m) (Raise e).
Proof. intros Hm. unfold mbind, gen_bind. by rewrite Hm. Qed.

Lemma gen_bind_returned_ok {A B} (m : gen F A) (k : A → gen F B) (b : B) :
  returned (m ≫= k) = Ok b →
  ∃ a, returned m = Ok a ∧ returned (k a) = Ok b.
Proof.
  unfold mbind, gen_bind. destruct (returned m) as [a|e] eqn:Hm; [|done].
  simpl. intros Hk. by exists a.
Qed.

Lemma yielded_app (xs ys : list (event F)) :
  yielded (xs ++ ys) = yielded xs ++ yielded ys.
Proof.
  induction xs as [|[m|seq emb] xs IH]; simpl; [done | done | by rewrite IH].
Qed.

Lemma printed_app (xs ys : list (event F)) :
  printed (xs ++ ys) = printed xs ++ printed ys.
Proof.
  induction xs as [|[m|seq emb] xs IH]; simpl; [done | by rewrite IH | done].
Qed.

(** A loop whose body only yields: one yield per element, in order. *)
Lemma for_each_yields {A} (xs : list A) (body : A → gen F unit)
    (out : A → string * embedding F) :
  (∀ x, body x = yield (out x).1 (out x).2) →
  returned (for_each xs body) = Ok tt
  ∧ yielded (emitted (for_each xs body)) = map out xs
  ∧ printed (emitted (for_each xs body)) = [].
Proof.
  intros Hbody. induction xs as [|x xs (IHr & IHy & IHp)]; simpl; [done|].
  rewrite (gen_bind_ok _ _ tt) by by rewrite Hbody.
  rewrite Hbody. simpl. rewrite IHr, IHy, IHp. by destruct (out x).
Qed.

(** A loop that returns normally ran every iteration to its end. *)
Lemma for_each_ok {A} (xs : list A) (body : A → gen F unit) :
  returned (for_each xs body) = Ok tt →
  Forall (fun x => returned (body x) = Ok tt) xs
  ∧ emitted (for_each xs body) = concat (map (fun x => emitted (body x)) xs).
Proof.
  induction xs as [|x xs IH]; simpl; [done|]. intros Hret.
  destruct (gen_bind_returned_ok _ _ _ Hret) as ([] & Hx & Hrest).
  rewrite (gen_bind_ok _ _ tt) by done. simpl.
  destruct (IH Hrest) as [Hall ->]. split; [by constructor | done].
Qed.

End GenFacts.

(** * Python slices and ranges *)

Lemma clip_index_nonneg (len : nat) (i : nat) :
  PySeq.clip_index len (Z.of_nat i) = (len `min` i)%nat.
Proof.
  unfold PySeq.clip_index.
  destruct (Z.of_nat i <? 0) eqn:Hneg; [apply Z.ltb_lt in Hneg; lia|]. lia.
Qed.

Lemma clip_index_minus_one (len : nat) :
  PySeq.clip_index len (-1) = (len - 1)%nat.
Proof. unfold PySeq.clip_index. simpl. lia. Qed.

(** [l[lo:hi]] for bounds [0 <= lo <= hi]. *)
Lemma slice_nonneg {A} (l : list A) (lo hi : nat) :
  (lo ≤ hi)%nat →
  PySeq.slice l (Z.of_nat lo) (Z.of_nat hi) = take (hi - lo) (drop lo l).
Proof.
  intros Hle. unfold PySeq.slice. rewrite !clip_index_nonneg.
  destruct (decide (length l ≤ lo)%nat) as [Hlen|Hlen].
  - rewrite !drop_ge by lia. by rewrite !take_nil.
  - replace (length l `min` lo)%nat with lo by lia.
    destruct (decide (hi ≤ length l)%nat).
    + by replace (length l `min` hi)%nat with hi by lia.
    + replace (length l `min` hi)%nat with (length l) by lia.
      rewrite !take_ge; [done | rewrite length_drop; lia..].
  Qed.

(** Consecutive chunks of [n] elements, [k] of them, make up the first
    [k * n] elements. *)
Lemma concat_chunks {A} (l : list A) (n k : nat) :
  concat (map (fun j => take n (drop (j * n) l)) (seq 0 k)) = take (k * n) l.
Proof.
  induction k as [|k IH]; [by rewrite take_0|].
  rewrite seq_S, map_app, concat_app, IH. simpl. rewrite app_nil_r.
  rewrite take_take_drop. f_equal. lia.
Qed.

(** The batches of lines 136-137, for a positive batch size: consecutive
    chunks of the input, all of [batch_size] elements except possibly the
    last, none empty, together the whole input. *)
Lemma batches_partition (sequences : list string) (batch_size : Z) :
  0 < batch_size →
  ∃ bl, batches sequences batch_size = Ok bl
    ∧ concat bl = sequences
    ∧ Forall (fun b => b ≠ [] ∧ Z.of_nat (length b) ≤ batch_size) bl
    ∧ ∀ (i : nat) b, bl !! i = Some b → (S i < length bl)%nat →
                     Z.of_nat (length b) = batch_size.
Proof.
  intros Hpos. unfold batches, PySeq.range.
  destruct (batch_size =? 0) eqn:Hz; [apply Z.eqb_eq in Hz; lia|].
  destruct (0 <? batch_size) eqn:Hp; [|apply Z.ltb_ge in Hp; lia].
  set (n := length sequences). set (B := Z.to_nat batch_size).
  set (q := (Z.of_nat n - 0 + batch_size - 1) / batch_size).
  assert (0 ≤ q) as Hq0 by (apply Z.div_pos; lia).
  pose proof (Z.div_mod (Z.of_nat n - 0 + batch_size - 1) batch_size
                ltac:(lia)) as Hdm.
  pose proof (Z.mod_pos_bound (Z.of_nat n - 0 + batch_size - 1) batch_size
                Hpos) as Hr.
  fold q in Hdm.
  assert (Z.of_nat n ≤ batch_size * q) as Hcover by lia.
  assert (batch_size * (q - 1) < Z.of_nat n) as Hlast by lia.
  simpl. eexists. split; [reflexivity|].
  rewrite map_map.
  assert (∀ j : nat,
            PySeq.slice sequences (0 + Z.of_nat j * batch_size)
              (0 + Z.of_nat j * batch_size + batch_size)
            = take B (drop (j * B) sequences)) as Hslice.
  { intros j.
    replace (0 + Z.of_nat j * batch_size) with (Z.of_nat (j * B)) by lia.
    replace (Z.of_nat (j * B) + batch_size) with (Z.of_nat (j * B + B)) by lia.
    rewrite slice_nonneg by lia. f_equal. lia. }
  rewrite (map_ext _ _ Hslice).
  split; [|split].
  - rewrite concat_chunks. apply take_ge. fold n. nia.
  - apply Forall_forall. intros b [j [-> Hj]]%list_elem_of_fmap.
    apply elem_of_seq in Hj.
    assert (Z.of_nat j ≤ q - 1) as Hjq by lia.
    assert (j * B < n)%nat as Hjn by nia.
    split.
    + intros Hnil. apply (f_equal length) in Hnil.
      rewrite length_take, length_drop in Hnil. simpl in Hnil. fold n in Hnil.
      lia.
    + rewrite length_take. lia.
  - intros i b Hb Hi. rewrite length_map, length_seq in Hi.
    rewrite list_lookup_fmap in Hb.
    rewrite lookup_seq_lt in Hb by lia. simpl in Hb. injection Hb as <-.
    rewrite length_take, length_drop. fold n.
    assert (Z.of_nat (S i) ≤ q - 1) as Hjq by lia.
    assert (S i * B < n)%nat as Hjn by nia. lia.
Qed.

(** * The two extraction modes *)

Section PooledFacts.
Context {F : Type} `{FloatOps F}.

Lemma expand_axis_same (n i : nat) : Torch.expand_axis n n i = i.
Proof. unfold Torch.expand_axis. by rewrite Nat.eqb_refl. Qed.

(** With a mask of the hidden states' batch and length, [mean_pool]
    succeeds and its rows are the pooled vectors. *)
Lemma mean_pool_rows (embeddings : tensor3 F) (attention_mask : tensor2 Z) :
  rows attention_mask = size0 embeddings →
  cols attention_mask = size1 embeddings →
  ∃ mean_pooled,
    mean_pool embeddings attention_mask = Ok mean_pooled
    ∧ rows mean_pooled = size0 embeddings
    ∧ cols mean_pooled = size2 embeddings
    ∧ ∀ b, Torch.row mean_pooled b = pooled_vector embeddings attention_mask b.
Proof.
  intros Hrows Hcols. unfold mean_pool, Torch.expand. simpl.
  rewrite Hrows, Hcols, !Nat.eqb_refl. simpl. rewrite orb_true_r.
  eexists. split; [reflexivity|]. simpl. split; [done|]. split; [done|].
  intros b. unfold Torch.row, pooled_vector. simpl.
  apply map_ext. intros d. unfold masked_mean.
  rewrite clip_index_minus_one, !expand_axis_same.
  f_equal; [|f_equal]; f_equal; apply map_ext; intros t;
    by rewrite expand_axis_same.
Qed.

End PooledFacts.

Lemma zip2_map_r {A B B'} (g : B → B') (xs : list A) (ys : list B) :
  map (fun p : A * B => (p.1, g p.2)) (PySeq.zip2 xs ys)
  = PySeq.zip2 xs (map g ys).
Proof.
  revert ys. induction xs as [|x xs IH]; intros [|y ys]; simpl; try done.
  by rewrite IH.
Qed.

Lemma zip3_map {A B C D I} (f : I → B) (g : I → C) (out : B → C → D)
    (xs : list A) (l : list I) :
  map (fun p : A * B * C => (p.1.1, out p.1.2 p.2))
      (PySeq.zip3 xs (map f l) (map g l))
  = PySeq.zip2 xs (map (fun i => out (f i) (g i)) l).
Proof.
  revert l. induction xs as [|x xs IH]; intros [|i l]; simpl; try done.
  by rewrite IH.
Qed.

Section ModeFacts.
Context {F : Type} `{FloatOps F}.

Lemma pooled_yields (batch : list string) (embeddings : tensor3 F)
    (attention_mask : tensor2 Z) :
  rows attention_mask = size0 embeddings →
  cols attention_mask = size1 embeddings →
  returned (extract_batch true batch embeddings attention_mask) = Ok tt
  ∧ printed (emitted (extract_batch true batch embeddings attention_mask)) = []
  ∧ yielded (emitted (extract_batch true batch embeddings attention_mask))
    = PySeq.zip2 batch
        (map (fun b => Pooled (pooled_vector embeddings attention_mask b))
             (seq 0 (size0 embeddings))).
Proof.
  intros Hrows Hcols. unfold extract_batch.
  destruct (mean_pool_rows embeddings attention_mask Hrows Hcols)
    as (mp & -> & Hr & Hc & Hrow).
  rewrite (gen_bind_ok _ _ mp) by done. simpl.
  edestruct (for_each_yields (PySeq.zip2 batch (Torch.iter2 mp))
               (fun '(seq, emb) => yield seq (Pooled emb))
               (fun p => (p.1, Pooled p.2))) as (Hret & Hy & Hp).
  { by intros [seq emb]. }
  rewrite Hret, Hy, Hp. split; [done|]. split; [done|].
  rewrite (zip2_map_r Pooled). unfold Torch.iter2. rewrite Hr, !map_map.
  f_equal. apply map_ext. intros b. by rewrite Hrow.
Qed.

Lemma per_token_yields (batch : list string) (embeddings : tensor3 F)
    (attention_mask : tensor2 Z) :
  rows attention_mask = size0 embeddings →
  returned (extract_batch false batch embeddings attention_mask) = Ok tt
  ∧ printed (emitted (extract_batch false batch embeddings attention_mask)) = []
  ∧ yielded (emitted (extract_batch false batch embeddings attention_mask))
    = PySeq.zip2 batch
        (map (fun b =>
                PerToken
                  (first_positions embeddings b
                     (PySeq.clip_index (size1 embeddings)
                        (actual_length (Torch.row attention_mask b)))))
             (seq 0 (size0 embeddings))).
Proof.
  intros Hrows. unfold extract_batch.
  edestruct (for_each_yields
               (PySeq.zip3 batch (Torch.iter3 embeddings)
                  (Torch.iter2 attention_mask))
               (fun '(seq, seq_embeddings, seq_mask) =>
                  yield seq (PerToken (per_token seq_embeddings seq_mask)))
               (fun p => (p.1.1, PerToken (per_token p.1.2 p.2))))
    as (Hret & Hy & Hp).
  { by intros [[seq se] sm]. }
  rewrite Hret, Hy, Hp. split; [done|]. split; [done|].
  unfold Torch.iter3, Torch.iter2. rewrite Hrows.
  by rewrite (zip3_map _ _ (fun se sm => PerToken (per_token se sm))).
Qed.

Lemma binary_sum_bounds (v : list Z) :
  Forall binary v → 0 ≤ foldr Z.add 0 v ≤ Z.of_nat (length v).
Proof.
  induction 1 as [|x v [-> | ->] _ IH]; simpl; lia.
Qed.

Lemma wrap_int64_small (z : Z) :
  - 2 ^ 63 ≤ z < 2 ^ 63 → Torch.wrap_int64 z = z.
Proof.
  intros Hz. unfold Torch.wrap_int64. rewrite Z.mod_small; lia.
Qed.

Lemma length_row {A} (m : tensor2 A) (b : nat) :
  length (Torch.row m b) = cols m.
Proof. unfold Torch.row. by rewrite length_map, length_seq. Qed.

Lemma binary_sum_no_one (v : list Z) :
  Forall binary v → (∀ p, v !! p ≠ Some 1) → foldr Z.add 0 v = 0.
Proof.
  induction 1 as [|x v [-> | ->] _ IH]; intros Hno; simpl; [done | |].
  - rewrite IH; [done|]. intros p. apply (Hno (S p)).
  - by destruct (Hno 0%nat).
Qed.

(** The sum of a binary row whose last 1 is at position [p] is at most
    [p + 1]. *)
Lemma binary_sum_upto_marker (v : list Z) (p : nat) :
  Forall binary v → end_marker_at v p →
  1 ≤ foldr Z.add 0 v ≤ Z.of_nat p + 1.
Proof.
  revert p. induction v as [|x v IH]; intros p Hbin [Hp Hlast].
  { by rewrite lookup_nil in Hp. }
  apply Forall_cons in Hbin as [Hx Hbin]. simpl.
  destruct p as [|p].
  - simpl in Hp. injection Hp as ->.
    rewrite (binary_sum_no_one v Hbin); [lia|].
    intros p'. apply (Hlast (S p')). lia.
  - assert (end_marker_at v p) as Hm.
    { split; [exact Hp|]. intros p' Hp'. apply (Hlast (S p')). lia. }
    specialize (IH p Hbin Hm). destruct Hx as [-> | ->]; lia.
Qed.

End ModeFacts.

Section ModeTheorems.
Context {F : Type} `{FloatOps F}.

(** C4: in pooled mode the extractor drops the last position column, the
    same index for every row of the batch, from hidden states and mask,
    and yields for each sequence the masked mean over the remaining
    positions: the sum over positions of hidden state times mask weight,
    divided by the summed mask weight clamped below at 1e-9.  The vector
    has [embed_dim] entries. *)
Theorem pooled_mode_yields_masked_mean (batch : list string)
    (embeddings : tensor3 F) (attention_mask : tensor2 Z) :
  rows attention_mask = size0 embeddings →
  cols attention_mask = size1 embeddings →
  returned (extract_batch true batch embeddings attention_mask) = Ok tt
  ∧ yielded (emitted (extract_batch true batch embeddings attention_mask))
    = PySeq.zip2 batch
        (map (fun b => Pooled (pooled_vector embeddings attention_mask b))
             (seq 0 (size0 embeddings)))
  ∧ (∀ b, length (pooled_vector embeddings attention_mask b)
          = size2 embeddings)
  ∧ (∀ embeddings' attention_mask' b,
        agree_before_last embeddings embeddings' attention_mask attention_mask' →
        pooled_vector embeddings attention_mask b
        = pooled_vector embeddings' attention_mask' b).
Proof.
  intros Hrows Hcols.
  destruct (pooled_yields batch embeddings attention_mask Hrows Hcols)
    as (Hret & _ & Hy).
  split; [done|]. split; [done|]. split.
  - intros b. unfold pooled_vector. by rewrite length_map, length_seq.
  - intros e' m' b (H0 & H1 & H2 & He & Hm). unfold pooled_vector.
    rewrite <- H1, <- H2. apply map_ext. intros d. unfold masked_mean.
    f_equal; [|f_equal]; f_equal; apply map_ext_in; intros t Ht%in_seq.
    + rewrite He, Hm by lia. done.
    + rewrite Hm by lia. done.
Qed.

(** C5: in per-token mode the extractor yields, for every sequence of the
    batch, the first [true_length] positions of its hidden states, where
    [true_length] is the sum of its mask row minus one; the matrix has
    exactly [true_length] rows. *)
Theorem per_token_mode_yields_true_length_rows (batch : list string)
    (embeddings : tensor3 F) (attention_mask : tensor2 Z) :
  rows attention_mask = size0 embeddings →
  cols attention_mask = size1 embeddings →
  tokenized_mask attention_mask →
  returned (extract_batch false batch embeddings attention_mask) = Ok tt
  ∧ yielded (emitted (extract_batch false batch embeddings attention_mask))
    = PySeq.zip2 batch
        (map (fun b =>
                PerToken
                  (first_positions embeddings b
                     (Z.to_nat (true_length attention_mask b))))
             (seq 0 (size0 embeddings)))
  ∧ ∀ b, (b < size0 embeddings)%nat →
         actual_length (Torch.row attention_mask b)
         = true_length attention_mask b
         ∧ Z.of_nat (length (first_positions embeddings b
                               (Z.to_nat (true_length attention_mask b))))
           = true_length attention_mask b.
Proof.
  intros Hrows Hcols [Hfit Hmask].
  assert (∀ b, (b < size0 embeddings)%nat →
               actual_length (Torch.row attention_mask b)
               = true_length attention_mask b
               ∧ 0 ≤ true_length attention_mask b
                   < Z.of_nat (size1 embeddings)) as Hlen.
  { intros b Hb. destruct (Hmask b ltac:(lia)) as [Hbin Hone].
    pose proof (binary_sum_bounds _ Hbin) as Hsum.
    rewrite length_row, Hcols in Hsum. rewrite Hcols in Hfit.
    unfold actual_length, true_length, Torch.sum_item.
    rewrite wrap_int64_small by lia. lia. }
  destruct (per_token_yields batch embeddings attention_mask Hrows)
    as (Hret & _ & Hy).
  split; [done|]. split.
  - rewrite Hy. f_equal. apply map_ext_in. intros b Hb%in_seq.
    destruct (Hlen b ltac:(lia)) as [-> Hrange].
    rewrite <- (Z2Nat.id (true_length attention_mask b)) at 1 by lia.
    rewrite clip_index_nonneg. do 2 f_equal. lia.
  - intros b Hb. destruct (Hlen b Hb) as [Hal Hrange]. split; [done|].
    unfold first_positions. rewrite length_map, length_seq. lia.
Qed.

(** C10: in per-token mode a row whose mask sums to 1 (only the end
    marker is attended) yields a matrix with no rows, and the extractor
    does not fail; in general the positions yielded for a row all come
    before the position of its end marker. *)
Theorem per_token_mode_excludes_end_marker (batch : list string)
    (embeddings : tensor3 F) (attention_mask : tensor2 Z) :
  rows attention_mask = size0 embeddings →
  cols attention_mask = size1 embeddings →
  ∃ kept : nat → nat,
    returned (extract_batch false batch embeddings attention_mask) = Ok tt
    ∧ yielded (emitted (extract_batch false batch embeddings attention_mask))
      = PySeq.zip2 batch
          (map (fun b => PerToken (first_positions embeddings b (kept b)))
               (seq 0 (size0 embeddings)))
    ∧ (∀ b, Torch.sum_item (Torch.row attention_mask b) = 1 →
            kept b = 0%nat ∧ first_positions embeddings b (kept b) = [])
    ∧ (∀ b p, Z.of_nat (cols attention_mask) < 2 ^ 63 →
              Forall binary (Torch.row attention_mask b) →
              end_marker_at (Torch.row attention_mask b) p →
              (kept b ≤ p)%nat).
Proof.
  intros Hrows Hcols.
  exists (fun b => PySeq.clip_index (size1 embeddings)
                     (actual_length (Torch.row attention_mask b))).
  destruct (per_token_yields batch embeddings attention_mask Hrows)
    as (Hret & _ & Hy).
  split; [done|]. split; [done|]. split.
  - intros b Hsum. unfold actual_length. rewrite Hsum.
    change (1 - 1) with (Z.of_nat 0).
    by rewrite clip_index_nonneg, Nat.min_0_r.
  - intros b p Hfit Hbin Hmark.
    pose proof (binary_sum_upto_marker _ _ Hbin Hmark) as Hsum.
    pose proof (binary_sum_bounds _ Hbin) as Hb.
    rewrite length_row in Hb.
    unfold actual_length, Torch.sum_item.
    rewrite wrap_int64_small by lia.
    set (n := foldr Z.add 0 (Torch.row attention_mask b)) in *.
    rewrite <- (Z2Nat.id (n - 1)) by lia. rewrite clip_index_nonneg. lia.
Qed.

End ModeTheorems.

Lemma pooled_mode_yields_masked_mean_witness :
  yielded (emitted (extract_batch true ["MK"; "A"]%string demo_hidden demo_mask))
  = [ ("MK"%string, Pooled (pooled_vector demo_hidden demo_mask 0));
      ("A"%string, Pooled (pooled_vector demo_hidden demo_mask 1)) ]
  ∧ length (pooled_vector demo_hidden demo_mask 1) = 2%nat.
Proof.
  destruct (pooled_mode_yields_masked_mean ["MK"; "A"]%string
              demo_hidden demo_mask) as (_ & Hy & Hlen & _).
  - reflexivity.
  - reflexivity.
  - split; [exact Hy | exact (Hlen 1%nat)].
Defined.

Lemma demo_mask_tokenized : tokenized_mask demo_mask.
Proof.
  split; [done|]. intros b Hb. simpl in Hb.
  destruct b as [|[|b]]; [| |lia]; split; try done;
    repeat constructor; by (left + right).
Qed.

Lemma per_token_mode_yields_true_length_rows_witness :
  yielded (emitted (extract_batch false ["MK"; "A"]%string demo_hidden demo_mask))
  = [ ("MK"%string, PerToken (first_positions demo_hidden 0 2));
      ("A"%string, PerToken (first_positions demo_hidden 1 1)) ].
Proof.
  destruct (per_token_mode_yields_true_length_rows ["MK"; "A"]%string
              demo_hidden demo_mask) as (_ & Hy & _).
  - reflexivity.
  - reflexivity.
  - exact demo_mask_tokenized.
  - exact Hy.
Defined.

Lemma per_token_mode_excludes_end_marker_witness :
  ∃ m, yielded (emitted (extract_batch false [""; "A"]%string
                           demo_empty_hidden demo_empty_mask))
       = [ (""%string, PerToken []); ("A"%string, PerToken m) ]
       ∧ (length m ≤ 1)%nat.
Proof.
  destruct (per_token_mode_excludes_end_marker [""; "A"]%string
              demo_empty_hidden demo_empty_mask)
    as (kept & _ & Hy & Hone & Hmark).
  - reflexivity.
  - reflexivity.
  - exists (first_positions demo_empty_hidden 1 (kept 1%nat)).
    split.
    + rewrite Hy. simpl. destruct (Hone 0%nat) as [_ ->]; [reflexivity|]. done.
    + unfold first_positions. rewrite length_map, length_seq.
      apply Hmark; [done | repeat constructor; by right |].
      split; [reflexivity|]. intros [|[|p']] Hp; try lia. done.
Defined.

(** * The extractor as a whole *)

Lemma zip2_fst {A B} (xs : list A) (ys : list B) :
  length xs = length ys → map fst (PySeq.zip2 xs ys) = xs.
Proof.
  revert ys. induction xs as [|x xs IH]; intros [|y ys] Hlen; simpl in *;
    try done. rewrite IH; [done | lia].
Qed.

Section WholeFacts.
Context {F World Model : Type} `{FloatOps F}.
Variable C : collaborators F World Model.

(** Once the checkpoint is read, the inspector's answer is the one inferred
    from its parameter table. *)
Lemma inspect_loaded (checkpoint_path : string) (w w' : World)
    (state_dict : table) :
  load_file C checkpoint_path w = (Ok state_dict, w') →
  inspect_checkpoint_architecture C checkpoint_path w
  = (infer_architecture state_dict, w').
Proof. intros Hload. unfold inspect_checkpoint_architecture. by rewrite Hload. Qed.

(** Under the collaborators' contracts a batch that is processed without
    an exception yields its sequences, in order, and prints nothing. *)
Lemma process_batch_ok (model : Model) (per_seq_embeddings : bool)
    (max_length : Z) (batch : list string) :
  tokenizer_contract C → encoder_contract C →
  returned (process_batch C model per_seq_embeddings max_length batch) = Ok tt →
  map fst (yielded (emitted
             (process_batch C model per_seq_embeddings max_length batch)))
  = batch
  ∧ printed (emitted
               (process_batch C model per_seq_embeddings max_length batch)) = [].
Proof.
  intros Htok Henc. unfold process_batch, forward.
  destruct (batch_encode_plus C model batch max_length)
    as [[input_ids attention_mask]|e] eqn:Hbep;
    [|by rewrite (gen_bind_raise _ _ e)].
  rewrite (gen_bind_ok _ _ (input_ids, attention_mask)) by done.
  destruct (Htok _ _ _ _ _ Hbep) as (Hri & Hrm & Hcm).
  destruct (encoder C model input_ids attention_mask) as [hidden|e] eqn:Hen;
    [|by rewrite (gen_bind_raise _ _ e)].
  rewrite (gen_bind_ok _ _ hidden) by done.
  destruct (Henc _ _ _ _ Hen) as (Hs0 & Hs1). simpl. intros _.
  destruct per_seq_embeddings.
  - destruct (pooled_yields batch hidden attention_mask) as (_ & -> & ->);
      [congruence.. |].
    split; [|done]. apply zip2_fst. rewrite length_map, length_seq. congruence.
  - destruct (per_token_yields batch hidden attention_mask) as (_ & -> & ->);
      [congruence|].
    split; [|done]. apply zip2_fst. rewrite length_map, length_seq. congruence.
Qed.

(** A batch processed without an exception went through the tokenizer, the
    encoder and the extraction step, in that order. *)
Lemma process_batch_steps (model : Model) (per_seq_embeddings : bool)
    (max_length : Z) (batch : list string) :
  returned (process_batch C model per_seq_embeddings max_length batch) = Ok tt →
  batch_processed C model per_seq_embeddings max_length batch
    (emitted (process_batch C model per_seq_embeddings max_length batch)).
Proof.
  unfold process_batch, forward, batch_processed.
  destruct (batch_encode_plus C model batch max_length)
    as [[input_ids attention_mask]|e] eqn:Hbep;
    [|by rewrite (gen_bind_raise _ _ e)].
  rewrite (gen_bind_ok _ _ (input_ids, attention_mask)) by done.
  destruct (encoder C model input_ids attention_mask) as [hidden|e] eqn:Hen;
    [|by rewrite (gen_bind_raise _ _ e)].
  rewrite (gen_bind_ok _ _ hidden) by done. simpl. intros _.
  by exists input_ids, attention_mask, hidden.
Qed.

Lemma batches_loop_ok (model : Model) (per_seq_embeddings : bool)
    (max_length : Z) (bl : list (list string)) :
  tokenizer_contract C → encoder_contract C →
  returned (for_each bl (process_batch C model per_seq_embeddings max_length))
  = Ok tt →
  map fst (yielded (emitted
     (for_each bl (process_batch C model per_seq_embeddings max_length))))
  = concat bl.
Proof.
  intros Htok Henc Hret. destruct (for_each_ok _ _ Hret) as [Hall ->].
  clear Hret. induction Hall as [|b bl Hb _ IH]; simpl; [done|].
  rewrite yielded_app, map_app, IH.
  by destruct (process_batch_ok model per_seq_embeddings max_length b
                 Htok Henc Hb) as [-> _].
Qed.

End WholeFacts.

Section WholeTheorems.
Context {F World Model : Type} `{FloatOps F}.
Variable C : collaborators F World Model.

(** C8, amended: when no error occurs and [batch_size] is positive, the
    generator yields exactly one pair per input sequence, in input order.
    The input is cut into consecutive batches of [batch_size] sequences,
    the last one possibly shorter; after the two messages of the set-up the
    run is, batch after batch, the tokenizer run on the batch, the encoder
    run on its ids and the extraction from the hidden states, which yields
    the sequences of that batch in order.  So the i-th pair yielded carries
    the i-th input sequence, whatever the length of the input. *)
Theorem one_pair_per_sequence_in_order (checkpoint_path : string)
    (sequences : list string) (batch_size max_length : Z) (device : string)
    (per_seq_embeddings : bool) (mlp_activation : string) (w : World) :
  tokenizer_contract C → encoder_contract C →
  0 < batch_size →
  ran_without_error
    (load_and_generate_embeddings C checkpoint_path sequences batch_size
       max_length device per_seq_embeddings mlp_activation w) →
  map fst (yielded (emitted
     (load_and_generate_embeddings C checkpoint_path sequences batch_size
        max_length device per_seq_embeddings mlp_activation w)))
  = sequences
  ∧ ∃ (embed_dim num_layers num_heads : Z) (model : Model)
      (bl : list (list string)) (runs : list (list (event F))),
      setup_succeeds C checkpoint_path device mlp_activation w
        embed_dim num_layers num_heads model
      ∧ batches sequences batch_size = Ok bl
      ∧ concat bl = sequences
      ∧ Forall (fun b => b ≠ [] ∧ Z.of_nat (length b) ≤ batch_size) bl
      ∧ (∀ (i : nat) b, bl !! i = Some b → (S i < length bl)%nat →
                        Z.of_nat (length b) = batch_size)
      ∧ emitted
          (load_and_generate_embeddings C checkpoint_path sequences batch_size
             max_length device per_seq_embeddings mlp_activation w)
        = Printed (DetectedArchitecture embed_dim num_layers num_heads)
            :: Printed (LoadedCheckpoint checkpoint_path) :: concat runs
      ∧ Forall2
          (fun b evs =>
             batch_processed C model per_seq_embeddings max_length b evs
             ∧ map fst (yielded evs) = b)
          bl runs.
Proof.
  intros Htok Henc Hpos [Hret Hlog].
  destruct (batches_partition sequences batch_size Hpos)
    as (bl & Hbl & Hcat & Hsizes & Hfull).
  revert Hret Hlog. unfold load_and_generate_embeddings.
  destruct (inspect_checkpoint_architecture C checkpoint_path w)
    as [[[[e l] h]|err] w1] eqn:Hinspect.
  2:{ by destruct (is_Exception err). }
  rewrite (gen_bind_ok _ _ tt) by done.
  destruct (new_model C e l h mlp_activation) as [model|err] eqn:Hnew;
    [|by rewrite (gen_bind_raise _ _ err)].
  rewrite (gen_bind_ok _ _ model) by done.
  destruct (load_file C checkpoint_path w1) as [read w2] eqn:Hload.
  destruct (state_dict ← read; load_state_dict C model state_dict)
    as [model'|err] eqn:Hstate.
  2:{ by destruct (is_Exception err). }
  rewrite (gen_bind_ok _ _ tt) by done.
  destruct (to_device C model' device) as [model''|err] eqn:Hdevice;
    [|by rewrite (gen_bind_raise _ _ err)].
  rewrite (gen_bind_ok _ _ model'') by done.
  rewrite Hbl. rewrite (gen_bind_ok _ _ bl) by done.
  simpl. intros Hret _.
  split.
  { rewrite (batches_loop_ok C model'' per_seq_embeddings max_length bl
               Htok Henc Hret).
    exact Hcat. }
  exists e, l, h, model'', bl,
    (map (fun b => emitted (process_batch C model'' per_seq_embeddings
                              max_length b)) bl).
  split; [by exists w1, w2, read, model, model'|].
  do 4 (split; [done|]).
  destruct (for_each_ok _ _ Hret) as [Hall ->]. split; [done|].
  clear Hret Hbl Hcat Hsizes Hfull.
  induction Hall as [|b bl' Hb _ IH]; simpl; constructor; [|exact IH].
  split; [by apply process_batch_steps|].
  by destruct (process_batch_ok C model'' per_seq_embeddings max_length b
                 Htok Henc Hb) as [-> _].
Qed.

(** C7: when the width and the layer count are determined but neither
    head-count stage produces a head count, the inspector fails with the
    num_heads-undetermined error, and the generator run on such a
    checkpoint logs it and ends having yielded nothing. *)
Theorem undetermined_num_heads_yields_nothing (checkpoint_path : string)
    (sequences : list string) (batch_size max_length : Z) (device : string)
    (per_seq_embeddings : bool) (mlp_activation : string) (w w' : World)
    (state_dict : table) (embed_dim : Z) :
  load_file C checkpoint_path w = (Ok state_dict, w') →
  find_embed_dim state_dict = Ok (Some embed_dim) →
  layer_indices state_dict ≠ ∅ →
  heads_from_wqkv embed_dim state_dict = Ok None →
  heads_from_query embed_dim state_dict = None →
  infer_architecture state_dict = Raise num_heads_undetermined
  ∧ (inspect_checkpoint_architecture C checkpoint_path w).1
    = Raise num_heads_undetermined
  ∧ load_and_generate_embeddings C checkpoint_path sequences batch_size
      max_length device per_seq_embeddings mlp_activation w
    = Gen [Printed (ErrorDetectingArchitecture num_heads_undetermined)] (Ok tt)
  ∧ yielded (emitted
       (load_and_generate_embeddings C checkpoint_path sequences batch_size
          max_length device per_seq_embeddings mlp_activation w)) = [].
Proof.
  intros Hload Hfind Hlayers Hprimary Hfallback.
  assert (infer_architecture state_dict = Raise num_heads_undetermined)
    as Hinfer.
  { unfold infer_architecture. rewrite Hfind. simpl.
    destruct (_ =? 0) eqn:Hsize.
    - apply Z.eqb_eq in Hsize. destruct Hlayers.
      apply leibniz_equiv, size_empty_inv. lia.
    - by rewrite Hprimary, Hfallback. }
  assert (inspect_checkpoint_architecture C checkpoint_path w
          = (Raise num_heads_undetermined, w')) as Hinspect.
  { unfold inspect_checkpoint_architecture. by rewrite Hload, Hinfer. }
  split; [done|]. split; [by rewrite Hinspect|].
  unfold load_and_generate_embeddings. by rewrite Hinspect.
Qed.

(** The two guarded failures: an [Exception] raised while detecting the
    architecture or while loading the weights is logged and ends the
    generator. *)
Lemma detection_error_is_logged (checkpoint_path : string)
    (sequences : list string) (batch_size max_length : Z) (device : string)
    (per_seq_embeddings : bool) (mlp_activation : string) (w : World)
    (err : exn) :
  (inspect_checkpoint_architecture C checkpoint_path w).1 = Raise err →
  is_Exception err = true →
  load_and_generate_embeddings C checkpoint_path sequences batch_size
    max_length device per_seq_embeddings mlp_activation w
  = Gen [Printed (ErrorDetectingArchitecture err)] (Ok tt).
Proof.
  intros Hinspect Hexc. unfold load_and_generate_embeddings.
  destruct (inspect_checkpoint_architecture C checkpoint_path w) as [r w1].
  simpl in Hinspect. subst r. by rewrite Hexc.
Qed.

Lemma loading_error_is_logged (checkpoint_path : string)
    (sequences : list string) (batch_size max_length : Z) (device : string)
    (per_seq_embeddings : bool) (mlp_activation : string) (w w1 w2 : World)
    (e l h : Z) (model : Model) (read : result table) (err : exn) :
  inspect_checkpoint_architecture C checkpoint_path w = (Ok (e, l, h), w1) →
  new_model C e l h mlp_activation = Ok model →
  load_file C checkpoint_path w1 = (read, w2) →
  (state_dict ← read; load_state_dict C model state_dict) = Raise err →
  is_Exception err = true →
  load_and_generate_embeddings C checkpoint_path sequences batch_size
    max_length device per_seq_embeddings mlp_activation w
  = Gen [Printed (DetectedArchitecture e l h);
         Printed (ErrorLoadingCheckpoint err)] (Ok tt).
Proof.
  intros Hinspect Hnew Hload Hread Hexc. unfold load_and_generate_embeddings.
  rewrite Hinspect. rewrite (gen_bind_ok _ _ tt) by done.
  rewrite Hnew. rewrite (gen_bind_ok _ _ model) by done.
  rewrite Hload, Hread, Hexc. done.
Qed.

(** C6, where the code departs from it: the encoder is built outside both
    [try] blocks, so an exception raised by its construction is not logged
    and reaches the caller of the generator. *)
Theorem construction_error_reaches_caller (checkpoint_path : string)
    (sequences : list string) (batch_size max_length : Z) (device : string)
    (per_seq_embeddings : bool) (mlp_activation : string) (w w1 : World)
    (e l h : Z) (err : exn) :
  inspect_checkpoint_architecture C checkpoint_path w = (Ok (e, l, h), w1) →
  new_model C e l h mlp_activation = Raise err →
  load_and_generate_embeddings C checkpoint_path sequences batch_size
    max_length device per_seq_embeddings mlp_activation w
  = Gen [Printed (DetectedArchitecture e l h)] (Raise err).
Proof.
  intros Hinspect Hnew. unfold load_and_generate_embeddings.
  rewrite Hinspect. rewrite (gen_bind_ok _ _ tt) by done.
  rewrite Hnew. by rewrite (gen_bind_raise _ _ err).
Qed.

End WholeTheorems.

(** * The extractor run with concrete collaborators *)

Lemma demo_tokenizer_contract (checkpoint : table) :
  tokenizer_contract (demo_collaborators checkpoint).
Proof. intros model batch max_length ids mask [= <- <-]. done. Qed.

Lemma demo_encoder_contract (checkpoint : table) :
  encoder_contract (demo_collaborators checkpoint).
Proof. intros model ids mask hidden [= <-]. done. Qed.

(** C8, as stated, fails: with a negative [batch_size] the range of batch
    starts is empty, so the run ends without an error and without a yield,
    though there are sequences to embed. *)
Lemma no_error_with_negative_batch_size :
  ¬ (∀ (C : collaborators Q unit (Z * Z * Z)) (checkpoint_path : string)
       (sequences : list string) (batch_size max_length : Z) (device : string)
       (per_seq_embeddings : bool) (mlp_activation : string) (w : unit),
        tokenizer_contract C → encoder_contract C →
        ran_without_error
          (load_and_generate_embeddings C checkpoint_path sequences batch_size
             max_length device per_seq_embeddings mlp_activation w) →
        map fst (yielded (emitted
           (load_and_generate_embeddings C checkpoint_path sequences batch_size
              max_length device per_seq_embeddings mlp_activation w)))
        = sequences).
Proof.
  intros Hclaim.
  specialize (Hclaim (demo_collaborators four_layers) "model.safetensors"
                ["MK"; "A"]%string (-1) 512 "cpu"%string true "swiglu"%string tt
                (demo_tokenizer_contract four_layers)
                (demo_encoder_contract four_layers)).
  assert (load_and_generate_embeddings (demo_collaborators four_layers)
            "model.safetensors" ["MK"; "A"]%string (-1) 512 "cpu" true
            "swiglu" tt
          = Gen [Printed (DetectedArchitecture 64 4 1);
                 Printed (LoadedCheckpoint "model.safetensors")] (Ok tt))
    as Hrun by (vm_compute; reflexivity).
  rewrite Hrun in Hclaim. simpl in Hclaim.
  assert (ran_without_error
            (Gen (F := Q)
               [Printed (DetectedArchitecture 64 4 1);
                Printed (LoadedCheckpoint "model.safetensors")] (Ok tt)))
    as Hfine by (split; reflexivity).
  specialize (Hclaim Hfine). discriminate Hclaim.
Qed.

Lemma one_pair_per_sequence_in_order_witness :
  map fst (yielded (emitted
     (load_and_generate_embeddings (demo_collaborators four_layers)
        "model.safetensors" ["MK"; "A"; "GGS"]%string 2 512 "cpu" true
        "swiglu" tt)))
  = ["MK"; "A"; "GGS"]%string
  ∧ ∃ bl runs,
      batches ["MK"; "A"; "GGS"]%string 2 = Ok bl
      ∧ concat bl = ["MK"; "A"; "GGS"]%string
      ∧ emitted
          (load_and_generate_embeddings (demo_collaborators four_layers)
             "model.safetensors" ["MK"; "A"; "GGS"]%string 2 512 "cpu" true
             "swiglu" tt)
        = Printed (DetectedArchitecture 64 4 1)
            :: Printed (LoadedCheckpoint "model.safetensors") :: concat runs
      ∧ Forall2 (fun b evs => map fst (yielded evs) = b) bl runs.
Proof.
  destruct (one_pair_per_sequence_in_order (demo_collaborators four_layers)
              "model.safetensors" ["MK"; "A"; "GGS"]%string 2 512 "cpu" true
              "swiglu" tt)
    as (Hy & e & l & h & model & bl & runs & Hsetup & Hbl & Hcat & _ & _
        & Hrun & Hall).
  - apply demo_tokenizer_contract.
  - apply demo_encoder_contract.
  - lia.
  - split; vm_compute; reflexivity.
  - split; [exact Hy|]. exists bl, runs.
    split; [exact Hbl|]. split; [exact Hcat|]. split.
    + rewrite Hrun. revert Hrun. vm_compute. by intros [= -> -> -> _].
    + eapply Forall2_impl; [exact Hall|]. by intros b evs [_ Hb].
Defined.

Lemma undetermined_num_heads_yields_nothing_witness :
  infer_architecture no_attention_weights = Raise num_heads_undetermined
  ∧ (inspect_checkpoint_architecture (demo_collaborators no_attention_weights)
       "model.safetensors" tt).1 = Raise num_heads_undetermined
  ∧ load_and_generate_embeddings (demo_collaborators no_attention_weights)
      "model.safetensors" ["MK"; "A"]%string 32 512 "cpu" true "swiglu" tt
    = Gen [Printed (ErrorDetectingArchitecture num_heads_undetermined)] (Ok tt)
  ∧ yielded (emitted
       (load_and_generate_embeddings (demo_collaborators no_attention_weights)
          "model.safetensors" ["MK"; "A"]%string 32 512 "cpu" true "swiglu" tt))
    = [].
Proof.
  apply (undetermined_num_heads_yields_nothing
           (demo_collaborators no_attention_weights) "model.safetensors"
           ["MK"; "A"]%string 32 512 "cpu" true "swiglu" tt tt
           no_attention_weights 64).
  - reflexivity.
  - reflexivity.
  - assert (layer_indices no_attention_weights = {[ 0; 1 ]}) as ->
      by (vm_compute; reflexivity).
    intros Hempty. assert (0 ∈ (∅ : gset Z)) as Hin; [|set_solver].
    rewrite <- Hempty. set_solver.
  - reflexivity.
  - reflexivity.
Defined.

Example indivisible_heads_inferred :
  infer_architecture indivisible_heads = Ok (100, 1, 3).
Proof. vm_compute. reflexivity. Qed.

Lemma construction_error_reaches_caller_witness :
  load_and_generate_embeddings (demo_collaborators indivisible_heads)
    "model.safetensors" ["MK"; "A"]%string 32 512 "cpu" true "swiglu" tt
  = Gen [Printed (DetectedArchitecture 100 1 3)]
      (Raise (ValueError
         "The hidden size is not a multiple of the number of attention heads")).
Proof.
  apply (construction_error_reaches_caller
           (demo_collaborators indivisible_heads) "model.safetensors"
           ["MK"; "A"]%string 32 512 "cpu" true "swiglu" tt tt 100 1 3).
  - reflexivity.
  - reflexivity.
Defined.


(** * More on the inspector *)

Lemma unpack2_raise (shape : list Z) (err : exn) :
  Py.unpack2 shape = Raise err →
  length shape ≠ 2%nat
  ∧ (∃ msg, err = ValueError msg)
  ∧ err ≠ embed_dim_undetermined
  ∧ err ≠ num_layers_undetermined
  ∧ err ≠ num_heads_undetermined.
Proof.
  destruct shape as [|a [|b [|c shape]]]; simpl; intros Herr;
    try discriminate; injection Herr as <-;
    (split; [done|]); (split; [by eexists|]); done.
Qed.

Lemma unpack2_ok (shape : list Z) (a b : Z) :
  Py.unpack2 shape = Ok (a, b) ↔ shape = [a; b].
Proof.
  split; [|by intros ->].
  destruct shape as [|x [|y [|z shape]]]; simpl; try done. by intros [= -> ->].
Qed.

Lemma unpack2_not_matrix (shape : list Z) :
  length shape ≠ 2%nat → ∃ err, Py.unpack2 shape = Raise err.
Proof.
  destruct shape as [|a [|b [|c shape]]]; simpl; intros Hlen;
    [by eexists | by eexists | done | by eexists].
Qed.

Lemma find_embed_dim_raise (tbl : table) (err : exn) :
  find_embed_dim tbl = Raise err → ∃ shape, Py.unpack2 shape = Raise err.
Proof.
  induction tbl as [|[key shape] tbl IH]; simpl; [done|].
  destruct (Py.contains tok_embeddings_name key);
    [|destruct (Py.contains wo_name key);
      [|destruct (Py.contains wi_name key); [|exact IH]]];
    destruct (Py.unpack2 shape) as [[a b]|e] eqn:Hu; simpl; try done;
    intros [= <-]; by exists shape.
Qed.

Lemma heads_from_wqkv_raise (e : Z) (tbl : table) (err : exn) :
  heads_from_wqkv e tbl = Raise err → ∃ shape, Py.unpack2 shape = Raise err.
Proof.
  induction tbl as [|[key shape] tbl IH]; simpl; [done|].
  destruct (Py.contains wqkv_name key); [|exact IH].
  destruct (Py.unpack2 shape) as [[a b]|e'] eqn:Hu; simpl; [done|].
  intros [= <-]. by exists shape.
Qed.

Lemma find_embed_dim_none (tbl : table) :
  find_embed_dim tbl = Ok None ↔
  Forall (fun '(key, _) => matches_embed_rule key = false) tbl.
Proof.
  unfold matches_embed_rule.
  induction tbl as [|[key shape] tbl IH]; simpl; [by split|].
  rewrite Forall_cons.
  destruct (Py.contains tok_embeddings_name key);
    [|destruct (Py.contains wo_name key);
      [|destruct (Py.contains wi_name key)]]; simpl;
    try (rewrite IH; by intuition);
    destruct (Py.unpack2 shape) as [[a b]|e]; simpl;
    (split; [done | by intros [? _]]).
Qed.

(** What a returned architecture says about the stages. *)
Lemma infer_architecture_ok (tbl : table) (e l h : Z) :
  infer_architecture tbl = Ok (e, l, h) ↔
  find_embed_dim tbl = Ok (Some e)
  ∧ l = Z.of_nat (size (layer_indices tbl)) ∧ l ≠ 0
  ∧ (heads_from_wqkv e tbl = Ok (Some h)
     ∨ heads_from_wqkv e tbl = Ok None ∧ heads_from_query e tbl = Some h).
Proof.
  unfold infer_architecture.
  destruct (find_embed_dim tbl) as [[e'|]|err]; simpl;
    [| by split; [|intros [? _]] | by split; [|intros [? _]]].
  destruct (_ =? 0) eqn:Hsize.
  { apply Z.eqb_eq in Hsize. split; [done|]. intros (_ & -> & Hne & _). done. }
  apply Z.eqb_neq in Hsize.
  destruct (heads_from_wqkv e' tbl) as [[h1|]|err] eqn:Hp; simpl.
  - split.
    + intros [= -> <- ->]. rewrite Hp. by repeat split; [..|left].
    + intros ([= ->] & -> & _ & [Hq | [Hq _]]); rewrite Hp in Hq; by simplify_eq.
  - destruct (heads_from_query e' tbl) as [h2|] eqn:Hq.
    + split.
      * intros [= -> <- ->]. rewrite Hp, Hq. by repeat split; [..|right].
      * intros ([= ->] & -> & _ & [Hq' | [_ Hq']]).
        -- rewrite Hp in Hq'. done.
        -- rewrite Hq in Hq'. by simplify_eq.
    + split; [done|].
      intros ([= ->] & -> & _ & [Hq' | [_ Hq']]).
      * rewrite Hp in Hq'. done.
      * rewrite Hq in Hq'. done.
  - split; [done|].
    intros ([= ->] & -> & _ & [Hq' | [Hq' _]]); rewrite Hp in Hq'; done.
Qed.

(** X1: when the first entry, in iteration order, that matches a width
    rule is not a token-embedding entry, a key containing
    [model.layers.0.attn.Wo.weight] of shape [a, b] gives [embed_dim = a],
    the first extent, and otherwise a key containing
    [model.layers.0.mlp.Wi.weight] gives [embed_dim = b], the second. *)
Theorem embed_dim_from_first_wo_or_wi
    (pre post : table) (key : string) (a b : Z) :
  Forall (fun '(k, _) => matches_embed_rule k = false) pre →
  Py.contains tok_embeddings_name key = false →
  Py.contains wo_name key = true ∨ Py.contains wi_name key = true →
  find_embed_dim (pre ++ (key, [a; b]) :: post)
  = Ok (Some (if Py.contains wo_name key then a else b))
  ∧ ∀ e l h,
      infer_architecture (pre ++ (key, [a; b]) :: post) = Ok (e, l, h) →
      e = if Py.contains wo_name key then a else b.
Proof.
  intros Hpre Htok Hrule.
  assert (find_embed_dim (pre ++ (key, [a; b]) :: post)
          = Ok (Some (if Py.contains wo_name key then a else b))) as Hfind.
  { rewrite find_embed_dim_skip by done. simpl. rewrite Htok.
    destruct (Py.contains wo_name key); [done|].
    destruct Hrule as [? | ->]; done. }
  split; [done|]. intros e l h (Hf & _)%infer_architecture_ok.
  rewrite Hfind in Hf. by injection Hf.
Qed.

Lemma embed_dim_from_first_wo_or_wi_witness :
  infer_architecture
    ([("model.final_norm.weight"%string, [64])]
       ++ ("model.layers.0.mlp.Wi.weight"%string, [256; 64])
       :: [("model.layers.0.attn.Wqkv.weight"%string, [192; 64])])
  = Ok (64, 1, 1)
  ∧ find_embed_dim
      ([("model.final_norm.weight"%string, [64])]
         ++ ("model.layers.0.attn.Wo.weight"%string, [96; 32])
         :: [("model.embeddings.tok_embeddings.weight"%string, [30; 64])])
    = Ok (Some 96).
Proof.
  split; [vm_compute; reflexivity|].
  apply (embed_dim_from_first_wo_or_wi
           [("model.final_norm.weight"%string, [64])]
           [("model.embeddings.tok_embeddings.weight"%string, [30; 64])]
           "model.layers.0.attn.Wo.weight" 96 32).
  - repeat constructor.
  - reflexivity.
  - by left.
Defined.

(** X2: inference fails with the embed_dim-undetermined error exactly when
    no key of the table contains any of the three names the width rules
    look for. *)
Theorem embed_dim_undetermined_iff_no_rule_matches (tbl : table) :
  infer_architecture tbl = Raise embed_dim_undetermined ↔
  Forall (fun '(key, _) => matches_embed_rule key = false) tbl.
Proof.
  rewrite <- find_embed_dim_none. unfold infer_architecture.
  destruct (find_embed_dim tbl) as [[e|]|err] eqn:Hfind; simpl.
  - split; [|done]. destruct (_ =? 0); [done|].
    destruct (heads_from_wqkv e tbl) as [[h|]|err] eqn:Hp; simpl; [done| |].
    + by destruct (heads_from_query e tbl).
    + intros [= ->]. destruct (heads_from_wqkv_raise _ _ _ Hp) as [s Hs].
      by destruct (unpack2_raise _ _ Hs) as (_ & _ & ? & _).
  - done.
  - split; [|done]. intros [= ->].
    destruct (find_embed_dim_raise _ _ Hfind) as [s Hs].
    by destruct (unpack2_raise _ _ Hs) as (_ & _ & ? & _).
Qed.

(** X3: when the first entry that matches a width rule holds a tensor that
    is not two-dimensional, inference fails with the [ValueError] of the
    unpacking, not with the embed_dim-undetermined error, whatever entries
    follow, even ones that would give the width. *)
Theorem embed_dim_rule_needs_a_matrix
    (pre : table) (key : string) (shape : list Z) :
  Forall (fun '(k, _) => matches_embed_rule k = false) pre →
  matches_embed_rule key = true →
  length shape ≠ 2%nat →
  ∃ msg, Py.unpack2 shape = Raise (ValueError msg)
    ∧ ValueError msg ≠ embed_dim_undetermined
    ∧ ∀ post, infer_architecture (pre ++ (key, shape) :: post)
              = Raise (ValueError msg).
Proof.
  intros Hpre Hkey Hlen.
  destruct (unpack2_not_matrix shape Hlen) as [err Herr].
  destruct (unpack2_raise _ _ Herr) as (_ & [msg ->] & Hne & _).
  exists msg. split; [done|]. split; [done|]. intros post.
  unfold infer_architecture. rewrite find_embed_dim_skip by done. simpl.
  unfold matches_embed_rule in Hkey.
  destruct (Py.contains tok_embeddings_name key); [by rewrite Herr|].
  destruct (Py.contains wo_name key); [by rewrite Herr|].
  destruct (Py.contains wi_name key); [by rewrite Herr | done].
Qed.

Lemma embed_dim_rule_needs_a_matrix_witness :
  ∃ msg, ∀ post,
    infer_architecture
      (flat_tok_embeddings_pre
         ++ ("model.embeddings.tok_embeddings.weight"%string, [1920]) :: post)
    = Raise (ValueError msg).
Proof.
  destruct (embed_dim_rule_needs_a_matrix flat_tok_embeddings_pre
              "model.embeddings.tok_embeddings.weight" [1920])
    as (msg & _ & _ & Hall).
  - repeat constructor.
  - reflexivity.
  - simpl. lia.
  - by exists msg.
Defined.

(** X4: whatever the table, the only exceptions the inference raises are
    [ValueError]s, as the docstring announces. *)
Theorem inference_raises_only_value_errors (tbl : table) (err : exn) :
  infer_architecture tbl = Raise err → ∃ msg, err = ValueError msg.
Proof.
  unfold infer_architecture.
  destruct (find_embed_dim tbl) as [[e|]|err'] eqn:Hfind; simpl.
  - destruct (_ =? 0); [intros [= <-]; by eexists|].
    destruct (heads_from_wqkv e tbl) as [[h|]|err'] eqn:Hp; simpl; [done| |].
    + destruct (heads_from_query e tbl); [done|]. intros [= <-]. by eexists.
    + intros [= <-]. destruct (heads_from_wqkv_raise _ _ _ Hp) as [s Hs].
      by destruct (unpack2_raise _ _ Hs) as (_ & ? & _).
  - intros [= <-]. by eexists.
  - intros [= <-]. destruct (find_embed_dim_raise _ _ Hfind) as [s Hs].
    by destruct (unpack2_raise _ _ Hs) as (_ & ? & _).
Qed.

Lemma inference_raises_only_value_errors_witness :
  ∃ msg, num_layers_undetermined = ValueError msg.
Proof.
  apply (inference_raises_only_value_errors
           [("model.embeddings.tok_embeddings.weight"%string, [30; 64])]).
  reflexivity.
Defined.

Lemma exact_quotient_divides (e c : Z) :
  0 < e → 0 < c → e mod c = 0 → 0 < e / c ≤ e ∧ e mod (e / c) = 0.
Proof.
  intros He Hc Hmod.
  assert (e = c * (e / c)) as Heq by (apply Z_div_exact_full_2; lia).
  remember (e / c) as h eqn:Hh. clear Hh. subst e.
  split; [nia|]. apply Z.mod_mul. nia.
Qed.

Lemma try_head_counts_elem (e : Z) (cands : list Z) (h : Z) :
  try_head_counts e cands = Some h → h ∈ cands ∧ e mod h = 0.
Proof.
  induction cands as [|c cands IH]; simpl; [done|].
  destruct (e mod c =? 0) eqn:Hc.
  - intros [= <-]. apply Z.eqb_eq in Hc. split; [by left | done].
  - intros [Hin Hmod]%IH. split; [by right | done].
Qed.

(** X5: in the primary stage a head count chosen for a positive width is
    positive, at most the width, and divides the width. *)
Theorem primary_heads_divide_width (e h : Z) :
  0 < e → heads_for_embed_dim e = Some h → 0 < h ≤ e ∧ e mod h = 0.
Proof.
  intros He. unfold heads_for_embed_dim.
  destruct (e mod 64 =? 0) eqn:H64.
  { intros [= <-]. apply Z.eqb_eq in H64. by apply exact_quotient_divides. }
  destruct (e mod 32 =? 0) eqn:H32.
  { intros [= <-]. apply Z.eqb_eq in H32. by apply exact_quotient_divides. }
  destruct (e mod 128 =? 0) eqn:H128.
  { intros [= <-]. apply Z.eqb_eq in H128. by apply exact_quotient_divides. }
  intros [Hin Hmod]%try_head_counts_elem. split; [|done].
  assert (0 < h) as Hh.
  { repeat (apply elem_of_cons in Hin as [-> | Hin]; [lia|]).
    by apply elem_of_nil in Hin. }
  split; [done|]. apply Z.mod_divide in Hmod; [|lia].
  apply Z.divide_pos_le in Hmod; lia.
Qed.

Lemma primary_heads_divide_width_witness :
  0 < 20 ≤ 100 ∧ 100 mod 20 = 0.
Proof.
  apply (primary_heads_divide_width 100 20); [lia | reflexivity].
Defined.

(** X6: the outcomes of the primary head-count rules.  The result is
    [embed_dim / 64], [embed_dim / 32], 8, 12 or 20: the head size of 128
    and the head counts 16, 24 and 32 of the list are never selected.  No
    rule applies exactly when the width is a multiple of none of 8, 12
    and 20. *)
Theorem primary_rule_outcomes (e : Z) :
  (∀ h, heads_for_embed_dim e = Some h →
        e mod 64 = 0 ∧ h = e / 64
        ∨ e mod 64 ≠ 0 ∧ e mod 32 = 0 ∧ h = e / 32
        ∨ e mod 32 ≠ 0 ∧ e mod 8 = 0 ∧ h = 8
        ∨ e mod 8 ≠ 0 ∧ e mod 12 = 0 ∧ h = 12
        ∨ e mod 8 ≠ 0 ∧ e mod 12 ≠ 0 ∧ e mod 20 = 0 ∧ h = 20)
  ∧ (heads_for_embed_dim e = None ↔
     e mod 8 ≠ 0 ∧ e mod 12 ≠ 0 ∧ e mod 20 ≠ 0).
Proof.
  unfold heads_for_embed_dim, try_head_counts.
  destruct (e mod 64 =? 0) eqn:H64;
    [apply Z.eqb_eq in H64 | apply Z.eqb_neq in H64].
  { split; [intros h [= <-]; by left|].
    split; [done|]. intros (H8 & _). exfalso.
    Z.to_euclidean_division_equations; lia. }
  destruct (e mod 32 =? 0) eqn:H32;
    [apply Z.eqb_eq in H32 | apply Z.eqb_neq in H32].
  { split; [intros h [= <-]; right; by left|].
    split; [done|]. intros (H8 & _). exfalso.
    Z.to_euclidean_division_equations; lia. }
  destruct (e mod 128 =? 0) eqn:H128;
    [apply Z.eqb_eq in H128; exfalso;
     Z.to_euclidean_division_equations; lia |].
  destruct (e mod 8 =? 0) eqn:H8;
    [apply Z.eqb_eq in H8 | apply Z.eqb_neq in H8].
  { split; [intros h [= <-]; do 2 right; by left|].
    split; [done|]. by intros (? & _). }
  destruct (e mod 12 =? 0) eqn:H12;
    [apply Z.eqb_eq in H12 | apply Z.eqb_neq in H12].
  { split; [intros h [= <-]; do 3 right; by left|].
    split; [done|]. by intros (_ & ? & _). }
  destruct (e mod 16 =? 0) eqn:H16;
    [apply Z.eqb_eq in H16; exfalso;
     Z.to_euclidean_division_equations; lia |].
  destruct (e mod 20 =? 0) eqn:H20;
    [apply Z.eqb_eq in H20 | apply Z.eqb_neq in H20].
  { split; [intros h [= <-]; do 4 right; done|].
    split; [done|]. by intros (_ & _ & ?). }
  destruct (e mod 24 =? 0) eqn:H24;
    [apply Z.eqb_eq in H24; exfalso;
     Z.to_euclidean_division_equations; lia |].
  destruct (e mod 32 =? 0) eqn:H32';
    [apply Z.eqb_eq in H32'; done |].
  split; [done|]. done.
Qed.

Lemma try_head_dims_is_32 (out_dim : Z) :
  try_head_dims out_dim [32; 64; 128]
  = if out_dim mod 32 =? 0 then Some (out_dim / 32) else None.
Proof.
  simpl. destruct (out_dim mod 32 =? 0) eqn:H32; [done|].
  apply Z.eqb_neq in H32.
  destruct (out_dim mod 64 =? 0) eqn:H64;
    [apply Z.eqb_eq in H64; exfalso;
     Z.to_euclidean_division_equations; lia |].
  destruct (out_dim mod 128 =? 0) eqn:H128;
    [apply Z.eqb_eq in H128; exfalso;
     Z.to_euclidean_division_equations; lia | done].
Qed.

Lemma heads_from_query_skip (e : Z) (pre rest : table) :
  Forall (fun '(key, _) => matches_query_rule key = false) pre →
  heads_from_query e (pre ++ rest) = heads_from_query e rest.
Proof.
  induction 1 as [|[key shape] pre Hk _ IH]; simpl; [done|].
  unfold matches_query_rule in Hk. by rewrite Hk.
Qed.

(** X7: the fallback stage reads only the first key, in iteration order,
    that passes the query-key test.  It returns a head count exactly when
    that key holds a matrix [out_dim, embed_dim] with [out_dim] a multiple
    of 32, and the head count is then [out_dim / 32]: the head sizes 64 and
    128 of the list are never selected, and later query keys are never
    read. *)
Theorem fallback_reads_first_query_key (e h : Z) (tbl : table) :
  heads_from_query e tbl = Some h ↔
  ∃ pre key out_dim post,
    tbl = pre ++ (key, [out_dim; e]) :: post
    ∧ Forall (fun '(k, _) => matches_query_rule k = false) pre
    ∧ matches_query_rule key = true
    ∧ out_dim mod 32 = 0
    ∧ h = out_dim / 32.
Proof.
  split.
  - induction tbl as [|[key shape] tbl IH]; [done|].
    cbn [heads_from_query]. fold (matches_query_rule key).
    destruct (matches_query_rule key) eqn:Hkey.
    + destruct shape as [|out_dim [|in_dim [|x shape]]]; try done.
      destruct (in_dim =? e) eqn:Hin; [|done].
      apply Z.eqb_eq in Hin as ->. rewrite try_head_dims_is_32.
      destruct (out_dim mod 32 =? 0) eqn:H32; [|done].
      intros [= <-]. apply Z.eqb_eq in H32.
      by exists [], key, out_dim, tbl.
    + intros (pre & k & out_dim & post & -> & Hpre & Hk & H32 & ->)%IH.
      exists ((key, shape) :: pre), k, out_dim, post.
      split; [done|]. split; [by constructor | done].
  - intros (pre & key & out_dim & post & -> & Hpre & Hkey & H32 & ->).
    rewrite heads_from_query_skip by done.
    cbn [heads_from_query]. fold (matches_query_rule key). rewrite Hkey.
    rewrite Z.eqb_refl, try_head_dims_is_32.
    apply Z.eqb_eq in H32. by rewrite H32.
Qed.

Lemma fallback_reads_first_query_key_witness :
  heads_from_query 64
    (query_mismatch_pre
       ++ ("model.layers.0.attn.query.weight"%string, [96; 64])
       :: query_mismatch_post)
  = Some (96 / 32).
Proof.
  apply (fallback_reads_first_query_key 64 (96 / 32)).
  exists query_mismatch_pre, "model.layers.0.attn.query.weight"%string, 96,
         query_mismatch_post.
  repeat split. repeat constructor.
Defined.

(** X8: the layer count depends only on the set of keys of the table:
    neither the order of the entries nor the tensors they hold change the
    set of layer indices. *)
Theorem layer_indices_depend_on_keys_only (tbl1 tbl2 : table) :
  (∀ key, (∃ shape, (key, shape) ∈ tbl1) ↔ (∃ shape, (key, shape) ∈ tbl2)) →
  layer_indices tbl1 = layer_indices tbl2.
Proof.
  intros Hkeys. apply set_eq. intros idx. rewrite !layer_indices_spec.
  unfold index_found. split.
  - intros (key & shape & Hin & Hc & Hix).
    destruct (proj1 (Hkeys key) (ex_intro _ shape Hin)) as [shape' Hin'].
    by exists key, shape'.
  - intros (key & shape & Hin & Hc & Hix).
    destruct (proj2 (Hkeys key) (ex_intro _ shape Hin)) as [shape' Hin'].
    by exists key, shape'.
Qed.

Lemma layer_indices_depend_on_keys_only_witness :
  layer_indices gap_layers_shuffled = layer_indices gap_layers.
Proof.
  apply layer_indices_depend_on_keys_only. intros key.
  unfold gap_layers_shuffled, gap_layers. split; intros [shape Hin].
  - repeat (apply elem_of_cons in Hin as [[= -> _] | Hin];
            [eexists; repeat ((by left) || right) |]).
    by apply elem_of_nil in Hin.
  - repeat (apply elem_of_cons in Hin as [[= -> _] | Hin];
            [eexists; repeat ((by left) || right) |]).
    by apply elem_of_nil in Hin.
Defined.

Lemma find_embed_dim_elem (tbl : table) (e : Z) :
  find_embed_dim tbl = Ok (Some e) →
  ∃ key shape, (key, shape) ∈ tbl ∧ e ∈ shape.
Proof.
  induction tbl as [|[key shape] tbl IH]; simpl; [done|].
  destruct (Py.contains tok_embeddings_name key);
    [|destruct (Py.contains wo_name key);
      [|destruct (Py.contains wi_name key)]].
  4:{ intros (k & s & Hin & He)%IH. exists k, s. split; [by right | done]. }
  all: destruct (Py.unpack2 shape) as [[a b]|err] eqn:Hu; simpl; [|done];
    intros [= <-]; apply unpack2_ok in Hu as ->;
    exists key, [a; b]; (split; [by left|]).
  - right; by left.
  - by left.
  - right; by left.
Qed.

Lemma heads_from_wqkv_some (e h : Z) (tbl : table) :
  heads_from_wqkv e tbl = Ok (Some h) → heads_for_embed_dim e = Some h.
Proof.
  induction tbl as [|[key shape] tbl IH]; simpl; [done|].
  destruct (Py.contains wqkv_name key); [|exact IH].
  destruct (Py.unpack2 shape) as [[q m]|err]; simpl; [|done].
  destruct (q =? 3 * e); [|done]. by intros [= ->].
Qed.

(** X9: when every extent of every tensor of the table is positive, the
    three scalars of a returned architecture are positive. *)
Theorem inferred_architecture_is_positive (tbl : table) (e l h : Z) :
  dims_positive tbl →
  infer_architecture tbl = Ok (e, l, h) →
  0 < e ∧ 0 < l ∧ 0 < h.
Proof.
  intros Hpos (Hfind & -> & Hl & Hheads)%infer_architecture_ok.
  assert (∀ key shape d, (key, shape) ∈ tbl → d ∈ shape → 0 < d) as Hdim.
  { intros key shape d Hin Hd. unfold dims_positive in Hpos.
    rewrite Forall_forall in Hpos. specialize (Hpos _ Hin). simpl in Hpos.
    rewrite Forall_forall in Hpos. by apply Hpos. }
  assert (0 < e) as He.
  { destruct (find_embed_dim_elem _ _ Hfind) as (key & shape & Hin & Hd).
    by eapply Hdim. }
  split; [done|]. split; [lia|].
  destruct Hheads as [Hprimary | [_ Hfallback]].
  - apply heads_from_wqkv_some in Hprimary as Hrule.
    by destruct (primary_heads_divide_width e h He Hrule) as [[? _] _].
  - apply fallback_reads_first_query_key in Hfallback
      as (pre & key & out_dim & post & -> & _ & _ & H32 & ->).
    assert (0 < out_dim) as Hout.
    { apply (Hdim key [out_dim; e]); [|by left].
      apply elem_of_app; right. by left. }
    by destruct (exact_quotient_divides out_dim 32 Hout ltac:(lia) H32)
      as [[? _] _].
Qed.

Lemma inferred_architecture_is_positive_witness :
  0 < 64 ∧ 0 < 2 ∧ 0 < 2.
Proof.
  apply (inferred_architecture_is_positive separate_query).
  - repeat constructor.
  - vm_compute. reflexivity.
Defined.

(** * More on the generator *)

Lemma batches_zero (sequences : list string) :
  batches sequences 0 = Raise (ValueError "range() arg 3 must not be zero").
Proof. reflexivity. Qed.

Lemma batches_none (sequences : list string) (batch_size : Z) :
  batch_size < 0 ∨ sequences = [] ∧ batch_size ≠ 0 →
  batches sequences batch_size = Ok [].
Proof.
  intros Hcase. unfold batches, PySeq.range.
  destruct (batch_size =? 0) eqn:Hz; [apply Z.eqb_eq in Hz; lia|].
  assert (Z.to_nat
            (if 0 <? batch_size
             then (Z.of_nat (length sequences) - 0 + batch_size - 1) / batch_size
             else (0 - Z.of_nat (length sequences) - batch_size - 1)
                  / - batch_size) = 0%nat) as ->; [|done].
  destruct (0 <? batch_size) eqn:Hp;
    [apply Z.ltb_lt in Hp | apply Z.ltb_ge in Hp].
  - destruct Hcase as [? | [-> _]]; [lia|]. simpl.
    rewrite Z.div_small by lia. done.
  - assert ((0 - Z.of_nat (length sequences) - batch_size - 1) / - batch_size
            ≤ 0); [|lia].
    apply Z.lt_succ_r, Z.div_lt_upper_bound; lia.
Qed.

Section GeneratorExtras.
Context {F World Model : Type} `{FloatOps F}.
Variable C : collaborators F World Model.

(** After a successful set-up the run is the two messages followed by the
    loop over batches. *)
Lemma run_after_setup (checkpoint_path : string) (sequences : list string)
    (batch_size max_length : Z) (device : string) (per_seq_embeddings : bool)
    (mlp_activation : string) (w : World) (e l h : Z) (model : Model) :
  setup_succeeds C checkpoint_path device mlp_activation w e l h model →
  load_and_generate_embeddings C checkpoint_path sequences batch_size
    max_length device per_seq_embeddings mlp_activation w
  = Gen (Printed (DetectedArchitecture e l h)
           :: Printed (LoadedCheckpoint checkpoint_path)
           :: emitted (bs ← lift (batches sequences batch_size);
                       for_each bs (process_batch C model per_seq_embeddings
                                      max_length)))
        (returned (bs ← lift (batches sequences batch_size);
                   for_each bs (process_batch C model per_seq_embeddings
                                  max_length))).
Proof.
  intros (w1 & w2 & read & built & loaded & Hi & Hn & Hl & Hs & Hd).
  unfold load_and_generate_embeddings. rewrite Hi.
  rewrite (gen_bind_ok _ _ tt) by done.
  rewrite Hn. rewrite (gen_bind_ok _ _ built) by done.
  rewrite Hl, Hs.
  rewrite (gen_bind_ok _ _ tt) by done.
  rewrite Hd. rewrite (gen_bind_ok _ _ model) by done.
  reflexivity.
Qed.

(** X10: with [batch_size = 0] and a checkpoint that loads, the generator
    prints its two messages and then lets the [ValueError] of [range]
    reach the caller; it yields nothing. *)
Theorem zero_batch_size_raises (checkpoint_path : string)
    (sequences : list string) (max_length : Z) (device : string)
    (per_seq_embeddings : bool) (mlp_activation : string) (w : World)
    (e l h : Z) (model : Model) :
  setup_succeeds C checkpoint_path device mlp_activation w e l h model →
  load_and_generate_embeddings C checkpoint_path sequences 0 max_length
    device per_seq_embeddings mlp_activation w
  = Gen [Printed (DetectedArchitecture e l h);
         Printed (LoadedCheckpoint checkpoint_path)]
        (Raise (ValueError "range() arg 3 must not be zero")).
Proof.
  intros Hsetup.
  rewrite (run_after_setup _ _ _ _ _ _ _ _ _ _ _ _ Hsetup).
  rewrite batches_zero.
  by rewrite (gen_bind_raise _ _ (ValueError "range() arg 3 must not be zero")).
Qed.

(** X11: with a negative [batch_size] and a checkpoint that loads, the
    generator ends normally without a yield and without an error message,
    whatever the input sequences: the tokenizer and the encoder are never
    run. *)
Theorem negative_batch_size_yields_nothing (checkpoint_path : string)
    (sequences : list string) (batch_size max_length : Z) (device : string)
    (per_seq_embeddings : bool) (mlp_activation : string) (w : World)
    (e l h : Z) (model : Model) :
  setup_succeeds C checkpoint_path device mlp_activation w e l h model →
  batch_size < 0 →
  load_and_generate_embeddings C checkpoint_path sequences batch_size
    max_length device per_seq_embeddings mlp_activation w
  = Gen [Printed (DetectedArchitecture e l h);
         Printed (LoadedCheckpoint checkpoint_path)] (Ok tt).
Proof.
  intros Hsetup Hneg.
  rewrite (run_after_setup _ _ _ _ _ _ _ _ _ _ _ _ Hsetup).
  rewrite batches_none by by left.
  by rewrite (gen_bind_ok _ _ []).
Qed.

(** X12: with no input sequence, a non-zero [batch_size] and a checkpoint
    that loads, the generator ends normally without a yield; the tokenizer
    and the encoder are never run on an empty batch. *)
Theorem no_sequences_yield_nothing (checkpoint_path : string)
    (batch_size max_length : Z) (device : string)
    (per_seq_embeddings : bool) (mlp_activation : string) (w : World)
    (e l h : Z) (model : Model) :
  setup_succeeds C checkpoint_path device mlp_activation w e l h model →
  batch_size ≠ 0 →
  load_and_generate_embeddings C checkpoint_path [] batch_size
    max_length device per_seq_embeddings mlp_activation w
  = Gen [Printed (DetectedArchitecture e l h);
         Printed (LoadedCheckpoint checkpoint_path)] (Ok tt).
Proof.
  intros Hsetup Hnz.
  rewrite (run_after_setup _ _ _ _ _ _ _ _ _ _ _ _ Hsetup).
  rewrite batches_none by by right.
  by rewrite (gen_bind_ok _ _ []).
Qed.

(** X13: a checkpoint that cannot be read: the inspector turns the
    reader's exception into a [FileNotFoundError] whose message holds the
    path and the reader's message, and the generator logs it and ends
    without a yield. *)
Theorem unreadable_checkpoint_is_logged (checkpoint_path : string)
    (sequences : list string) (batch_size max_length : Z) (device : string)
    (per_seq_embeddings : bool) (mlp_activation : string) (w w' : World)
    (err : exn) :
  load_file C checkpoint_path w = (Raise err, w') →
  is_Exception err = true →
  (inspect_checkpoint_architecture C checkpoint_path w).1
  = Raise (FileNotFoundError
             ("Error loading checkpoint from " +:+ checkpoint_path
                +:+ ": " +:+ exn_str err))
  ∧ load_and_generate_embeddings C checkpoint_path sequences batch_size
      max_length device per_seq_embeddings mlp_activation w
    = Gen [Printed (ErrorDetectingArchitecture
                      (FileNotFoundError
                         ("Error loading checkpoint from " +:+ checkpoint_path
                            +:+ ": " +:+ exn_str err)))]
          (Ok tt).
Proof.
  intros Hload Hexc.
  unfold load_and_generate_embeddings, inspect_checkpoint_architecture.
  by rewrite Hload, Hexc.
Qed.

(** X14: an exception of the reader that is not an [Exception] (a
    keyboard interrupt, say) is neither rewrapped by the inspector nor
    logged by the generator: it reaches the caller unchanged, before
    anything is printed or yielded. *)
Theorem interrupt_while_reading_propagates (checkpoint_path : string)
    (sequences : list string) (batch_size max_length : Z) (device : string)
    (per_seq_embeddings : bool) (mlp_activation : string) (w w' : World)
    (err : exn) :
  load_file C checkpoint_path w = (Raise err, w') →
  is_Exception err = false →
  (inspect_checkpoint_architecture C checkpoint_path w).1 = Raise err
  ∧ load_and_generate_embeddings C checkpoint_path sequences batch_size
      max_length device per_seq_embeddings mlp_activation w
    = Gen [] (Raise err).
Proof.
  intros Hload Hexc.
  unfold load_and_generate_embeddings, inspect_checkpoint_architecture.
  rewrite Hload, Hexc. simpl. by rewrite Hexc.
Qed.





End GeneratorExtras.

Lemma demo_setup_succeeds :
  setup_succeeds (demo_collaborators four_layers) "model.safetensors" "cpu"
    "swiglu" tt 64 4 1 (64, 4, 1).
Proof. by exists tt, tt, (Ok four_layers), (64, 4, 1), (64, 4, 1). Qed.

Lemma zero_batch_size_raises_witness :
  load_and_generate_embeddings (demo_collaborators four_layers)
    "model.safetensors" ["MK"; "A"]%string 0 512 "cpu" true "swiglu" tt
  = Gen [Printed (DetectedArchitecture 64 4 1);
         Printed (LoadedCheckpoint "model.safetensors")]
        (Raise (ValueError "range() arg 3 must not be zero")).
Proof.
  apply (zero_batch_size_raises (demo_collaborators four_layers)
           "model.safetensors" ["MK"; "A"]%string 512 "cpu" true "swiglu" tt
           64 4 1 (64, 4, 1)).
  exact demo_setup_succeeds.
Defined.

Lemma negative_batch_size_yields_nothing_witness :
  load_and_generate_embeddings (demo_collaborators four_layers)
    "model.safetensors" ["MK"; "A"]%string (-1) 512 "cpu" false "swiglu" tt
  = Gen [Printed (DetectedArchitecture 64 4 1);
         Printed (LoadedCheckpoint "model.safetensors")] (Ok tt).
Proof.
  apply (negative_batch_size_yields_nothing (demo_collaborators four_layers)
           "model.safetensors" ["MK"; "A"]%string (-1) 512 "cpu" false
           "swiglu" tt 64 4 1 (64, 4, 1)).
  - exact demo_setup_succeeds.
  - lia.
Defined.

Lemma no_sequences_yield_nothing_witness :
  load_and_generate_embeddings (demo_collaborators four_layers)
    "model.safetensors" [] 32 512 "cpu" true "swiglu" tt
  = Gen [Printed (DetectedArchitecture 64 4 1);
         Printed (LoadedCheckpoint "model.safetensors")] (Ok tt).
Proof.
  apply (no_sequences_yield_nothing (demo_collaborators four_layers)
           "model.safetensors" 32 512 "cpu" true "swiglu" tt 64 4 1 (64, 4, 1)).
  - exact demo_setup_succeeds.
  - lia.
Defined.

Lemma unreadable_checkpoint_is_logged_witness :
  load_and_generate_embeddings
    (unreadable_collaborators (OtherException "OSError" "No such file"))
    "gone.safetensors" ["MK"]%string 32 512 "cpu" true "swiglu" tt
  = Gen [Printed (ErrorDetectingArchitecture
                    (FileNotFoundError
                       "Error loading checkpoint from gone.safetensors: No such file"))]
        (Ok tt).
Proof.
  apply (unreadable_checkpoint_is_logged
           (unreadable_collaborators (OtherException "OSError" "No such file"))
           "gone.safetensors" ["MK"]%string 32 512 "cpu" true "swiglu" tt tt
           (OtherException "OSError" "No such file")).
  - reflexivity.
  - reflexivity.
Defined.

Lemma interrupt_while_reading_propagates_witness :
  load_and_generate_embeddings
    (unreadable_collaborators (BaseOnly "KeyboardInterrupt"))
    "model.safetensors" ["MK"]%string 32 512 "cpu" true "swiglu" tt
  = Gen [] (Raise (BaseOnly "KeyboardInterrupt")).
Proof.
  apply (interrupt_while_reading_propagates
           (unreadable_collaborators (BaseOnly "KeyboardInterrupt"))
           "model.safetensors" ["MK"]%string 32 512 "cpu" true "swiglu" tt tt
           (BaseOnly "KeyboardInterrupt")).
  - reflexivity.
  - reflexivity.
Defined.





(** * More on the two extraction modes *)

Lemma zip2_lookup {A B} (xs : list A) (ys : list B) (i : nat) (x : A) (y : B) :
  xs !! i = Some x → ys !! i = Some y → PySeq.zip2 xs ys !! i = Some (x, y).
Proof.
  revert ys i. induction xs as [|x0 xs IH]; intros [|y0 ys] [|i]; simpl;
    try done.
  - by intros [= ->] [= ->].
  - apply IH.
Qed.

Lemma zip2_fst_take {A B} (xs : list A) (ys : list B) :
  map fst (PySeq.zip2 xs ys) = take (length ys) xs.
Proof.
  revert ys. induction xs as [|x xs IH]; intros [|y ys]; simpl; try done.
  by rewrite IH.
Qed.

Lemma zip2_Forall_snd {A B} (P : B → Prop) (xs : list A) (ys : list B) :
  Forall P ys → Forall (fun p => P p.2) (PySeq.zip2 xs ys).
Proof.
  intros Hys. revert xs. induction Hys as [|y ys Hy _ IH]; intros [|x xs];
    simpl; try by constructor.
Qed.

Lemma map_seq_const {A} (f : nat → A) (c : A) (start n : nat) :
  (∀ i, f i = c) → map f (seq start n) = replicate n c.
Proof.
  intros Hf. revert start. induction n as [|n IH]; intros start; simpl;
    [done|]. by rewrite Hf, IH.
Qed.

Section ModeExtras.
Context {F : Type} `{FloatOps F}.

(** X16: in per-token mode a row whose mask sums to 0 does not give an
    empty matrix: the slice bound is -1, so the matrix holds every position
    of the batch but the last. *)
Theorem per_token_blank_mask_row_keeps_all_but_last (batch : list string)
    (embeddings : tensor3 F) (attention_mask : tensor2 Z) (b : nat)
    (seq : string) :
  rows attention_mask = size0 embeddings →
  batch !! b = Some seq →
  (b < size0 embeddings)%nat →
  Torch.sum_item (Torch.row attention_mask b) = 0 →
  yielded (emitted (extract_batch false batch embeddings attention_mask)) !! b
  = Some (seq, PerToken (first_positions embeddings b (size1 embeddings - 1))).
Proof.
  intros Hrows Hseq Hb Hsum.
  destruct (per_token_yields batch embeddings attention_mask Hrows)
    as (_ & _ & ->).
  apply zip2_lookup; [done|].
  rewrite list_lookup_fmap, lookup_seq_lt by done. simpl.
  unfold actual_length. rewrite Hsum. simpl.
  by rewrite clip_index_minus_one.
Qed.

(** X17: in pooled mode, when the batch has at most one position (every
    sequence is empty, only the end marker is left), every sequence gets
    the same vector, whatever the hidden states: [embed_dim] copies of the
    empty sum divided by the clamp floor. *)
Theorem pooled_marker_only_batch_is_constant (batch : list string)
    (embeddings : tensor3 F) (attention_mask : tensor2 Z) :
  rows attention_mask = size0 embeddings →
  cols attention_mask = size1 embeddings →
  (size1 embeddings ≤ 1)%nat →
  returned (extract_batch true batch embeddings attention_mask) = Ok tt
  ∧ yielded (emitted (extract_batch true batch embeddings attention_mask))
    = PySeq.zip2 batch
        (replicate (size0 embeddings)
           (Pooled (replicate (size2 embeddings) empty_mean))).
Proof.
  intros Hrows Hcols Hlen.
  destruct (pooled_yields batch embeddings attention_mask Hrows Hcols)
    as (Hret & _ & ->).
  split; [done|]. f_equal. apply map_seq_const. intros b. f_equal.
  unfold pooled_vector. apply map_seq_const. intros d.
  unfold masked_mean, empty_mean.
  by replace (size1 embeddings - 1)%nat with 0%nat by lia.
Qed.

(** X18: a batch yields one pair for each sequence that has a row of hidden
    states, in order; sequences beyond the rows the encoder returned are
    dropped without an error, in both modes. *)
Theorem surplus_sequences_are_dropped (per_seq_embeddings : bool)
    (batch : list string) (embeddings : tensor3 F)
    (attention_mask : tensor2 Z) :
  rows attention_mask = size0 embeddings →
  cols attention_mask = size1 embeddings →
  returned (extract_batch per_seq_embeddings batch embeddings attention_mask)
  = Ok tt
  ∧ map fst (yielded (emitted
       (extract_batch per_seq_embeddings batch embeddings attention_mask)))
    = take (size0 embeddings) batch.
Proof.
  intros Hrows Hcols. destruct per_seq_embeddings.
  - destruct (pooled_yields batch embeddings attention_mask Hrows Hcols)
      as (Hret & _ & ->).
    split; [done|]. by rewrite zip2_fst_take, length_map, length_seq.
  - destruct (per_token_yields batch embeddings attention_mask Hrows)
      as (Hret & _ & ->).
    split; [done|]. by rewrite zip2_fst_take, length_map, length_seq.
Qed.

(** X19: in pooled mode a mask whose number of rows is neither the batch
    size of the hidden states nor 1 cannot be expanded: the batch fails
    with a [RuntimeError] before any yield. *)
Theorem pooled_mode_rejects_mismatched_mask (batch : list string)
    (embeddings : tensor3 F) (attention_mask : tensor2 Z) :
  rows attention_mask ≠ size0 embeddings →
  rows attention_mask ≠ 1%nat →
  ∃ msg, extract_batch true batch embeddings attention_mask
         = Gen [] (Raise (OtherException "RuntimeError" msg)).
Proof.
  intros Hrows Hone. unfold extract_batch, mean_pool, Torch.expand. simpl.
  apply Nat.eqb_neq in Hrows, Hone. rewrite Hrows, Hone. simpl.
  eexists. reflexivity.
Qed.

(** X20: the embeddings have the shapes the docstring announces.  In
    pooled mode every yield is a vector of [embed_dim] entries; in
    per-token mode every yield is a matrix of at most [seq_len] rows of
    [embed_dim] entries each. *)
Theorem yielded_embeddings_have_documented_shapes (per_seq_embeddings : bool)
    (batch : list string) (embeddings : tensor3 F)
    (attention_mask : tensor2 Z) :
  rows attention_mask = size0 embeddings →
  cols attention_mask = size1 embeddings →
  Forall (fun p : string * embedding F =>
            match p.2 with
            | Pooled v =>
                per_seq_embeddings = true ∧ length v = size2 embeddings
            | PerToken m =>
                per_seq_embeddings = false
                ∧ (length m ≤ size1 embeddings)%nat
                ∧ Forall (fun r => length r = size2 embeddings) m
            end)
    (yielded (emitted
       (extract_batch per_seq_embeddings batch embeddings attention_mask))).
Proof.
  intros Hrows Hcols. destruct per_seq_embeddings.
  - destruct (pooled_yields batch embeddings attention_mask Hrows Hcols)
      as (_ & _ & ->).
    apply (zip2_Forall_snd
             (fun emb => match emb with
                         | Pooled v => true = true ∧ length v = size2 embeddings
                         | PerToken m =>
                             true = false
                             ∧ (length m ≤ size1 embeddings)%nat
                             ∧ Forall (fun r => length r = size2 embeddings) m
                         end)).
    apply Forall_fmap, Forall_forall. intros b _. simpl. split; [done|].
    unfold pooled_vector. by rewrite length_map, length_seq.
  - destruct (per_token_yields batch embeddings attention_mask Hrows)
      as (_ & _ & ->).
    apply (zip2_Forall_snd
             (fun emb => match emb with
                         | Pooled v => false = true ∧ length v = size2 embeddings
                         | PerToken m =>
                             false = false
                             ∧ (length m ≤ size1 embeddings)%nat
                             ∧ Forall (fun r => length r = size2 embeddings) m
                         end)).
    apply Forall_fmap, Forall_forall. intros b _. simpl. split; [done|].
    unfold first_positions. rewrite length_map, length_seq. split.
    + unfold PySeq.clip_index. lia.
    + apply Forall_fmap, Forall_forall. intros t _. simpl.
      by rewrite length_map, length_seq.
Qed.

End ModeExtras.

Lemma per_token_blank_mask_row_keeps_all_but_last_witness :
  yielded (emitted (extract_batch false ["MK"; "A"]%string
                      demo_hidden demo_blank_mask)) !! 1%nat
  = Some ("A"%string, PerToken (first_positions demo_hidden 1 2)).
Proof.
  apply (per_token_blank_mask_row_keeps_all_but_last ["MK"; "A"]%string
           demo_hidden demo_blank_mask 1 "A"); try reflexivity; simpl; lia.
Defined.

Lemma pooled_marker_only_batch_is_constant_witness :
  yielded (emitted (extract_batch true [""; ""]%string
                      demo_marker_only_hidden demo_marker_only_mask))
  = [ (""%string, Pooled [empty_mean; empty_mean]);
      (""%string, Pooled [empty_mean; empty_mean]) ].
Proof.
  apply (pooled_marker_only_batch_is_constant [""; ""]%string
           demo_marker_only_hidden demo_marker_only_mask);
    try reflexivity; simpl; lia.
Defined.

Lemma surplus_sequences_are_dropped_witness :
  map fst (yielded (emitted
     (extract_batch true ["MK"; "A"; "GG"]%string demo_hidden demo_mask)))
  = ["MK"; "A"]%string.
Proof.
  apply (surplus_sequences_are_dropped true ["MK"; "A"; "GG"]%string
           demo_hidden demo_mask); reflexivity.
Defined.

Lemma pooled_mode_rejects_mismatched_mask_witness :
  ∃ msg, extract_batch true ["MK"; "A"]%string demo_hidden demo_tall_mask
         = Gen [] (Raise (OtherException "RuntimeError" msg)).
Proof.
  apply (pooled_mode_rejects_mismatched_mask ["MK"; "A"]%string
           demo_hidden demo_tall_mask); simpl; lia.
Defined.

Lemma yielded_embeddings_have_documented_shapes_witness :
  Forall (fun p : string * embedding Q =>
            match p.2 with
            | Pooled v => false = true ∧ length v = 2%nat
            | PerToken m =>
                false = false ∧ (length m ≤ 3)%nat
                ∧ Forall (fun r => length r = 2%nat) m
            end)
    (yielded (emitted
       (extract_batch false ["MK"; "A"]%string demo_hidden demo_mask))).
Proof.
  apply (yielded_embeddings_have_documented_shapes false ["MK"; "A"]%string
           demo_hidden demo_mask); reflexivity.
Defined.

(** * The layout of the batches *)

Lemma batches_explicit (sequences : list string) (batch_size : Z) :
  0 < batch_size →
  batches sequences batch_size
  = Ok (map (fun j => take (Z.to_nat batch_size)
                        (drop (j * Z.to_nat batch_size) sequences))
          (seq 0 (Z.to_nat ((Z.of_nat (length sequences) + batch_size - 1)
                            / batch_size)))).
Proof.
  intros Hpos. unfold batches, PySeq.range.
  destruct (batch_size =? 0) eqn:Hz; [apply Z.eqb_eq in Hz; lia|].
  destruct (0 <? batch_size) eqn:Hp; [|apply Z.ltb_ge in Hp; lia].
  simpl. rewrite map_map, Z.sub_0_r. f_equal. apply map_ext. intros j.
  replace (0 + Z.of_nat j * batch_size)
    with (Z.of_nat (j * Z.to_nat batch_size)) by lia.
  replace (Z.of_nat (j * Z.to_nat batch_size) + batch_size)
    with (Z.of_nat (j * Z.to_nat batch_size + Z.to_nat batch_size)) by lia.
  rewrite slice_nonneg by lia. f_equal. lia.
Qed.

(** X21: for a positive [batch_size] the number of batches is the number
    of sequences divided by [batch_size], rounded up, and the sequence at
    input position [i] is at position [i mod batch_size] of batch
    [i / batch_size]. *)
Theorem sequence_position_in_batches (sequences : list string)
    (batch_size : Z) :
  0 < batch_size →
  ∃ bl, batches sequences batch_size = Ok bl
    ∧ Z.of_nat (length bl)
      = (Z.of_nat (length sequences) + batch_size - 1) / batch_size
    ∧ ∀ (i : nat) (s : string),
        sequences !! i = Some s →
        ∃ b, bl !! (i / Z.to_nat batch_size)%nat = Some b
             ∧ b !! (i mod Z.to_nat batch_size)%nat = Some s.
Proof.
  intros Hpos. rewrite batches_explicit by done.
  set (B := Z.to_nat batch_size). set (n := length sequences).
  set (q := (Z.of_nat n + batch_size - 1) / batch_size).
  assert (0 ≤ q) as Hq0 by (apply Z.div_pos; lia).
  pose proof (Z.div_mod (Z.of_nat n + batch_size - 1) batch_size ltac:(lia))
    as Hdm.
  pose proof (Z.mod_pos_bound (Z.of_nat n + batch_size - 1) batch_size Hpos)
    as Hr.
  fold q in Hdm.
  assert (n ≤ B * Z.to_nat q)%nat as Hcover by nia.
  eexists. split; [reflexivity|]. split.
  { rewrite length_map, length_seq. lia. }
  intros i s Hs.
  assert (i < n)%nat as Hi by (by apply lookup_lt_Some in Hs).
  assert (i / B < Z.to_nat q)%nat as Hk.
  { apply Nat.Div0.div_lt_upper_bound. lia. }
  eexists. split.
  - rewrite list_lookup_fmap, lookup_seq_lt by done. reflexivity.
  - simpl. rewrite lookup_take_lt by (apply Nat.mod_upper_bound; lia).
    rewrite lookup_drop. rewrite <- Hs. f_equal.
    pose proof (Nat.div_mod_eq i B). lia.
Qed.

Lemma sequence_position_in_batches_witness :
  ∃ bl, batches ["MK"; "A"; "GGS"; "T"; "W"]%string 2 = Ok bl
    ∧ Z.of_nat (length bl) = 3
    ∧ ∃ b, bl !! 2%nat = Some b ∧ b !! 0%nat = Some "W"%string.
Proof.
  destruct (sequence_position_in_batches
              ["MK"; "A"; "GGS"; "T"; "W"]%string 2 ltac:(lia))
    as (bl & Hbl & Hlen & Hpos).
  exists bl. split; [exact Hbl|]. split; [exact Hlen|].
  exact (Hpos 4%nat "W"%string eq_refl).
Defined.

(** * The feed-forward block *)

Section BlockFacts.
Context {F : Type} `{FloatOps F} `{BlockOps F}.

Lemma broadcast_axis_same (n : nat) : NN.broadcast_axis n n = Some n.
Proof. unfold NN.broadcast_axis. by rewrite Nat.eqb_refl. Qed.

Lemma half_of_double (n : nat) : ((2 * n + 1) / 2)%nat = n.
Proof.
  symmetry. apply (Nat.div_unique (2 * n + 1) 2 n 1); lia.
Qed.

(** What [init] builds when it succeeds. *)
Lemma init_ok (config : ModernBertConfig)
    (values : @ModernBertMLPSwiGLU.initial_values F)
    (m : @ModernBertMLPSwiGLU.t F) :
  ModernBertMLPSwiGLU.init config values = Ok m →
  m = {| ModernBertMLPSwiGLU.Wi :=
           {| NN.weight :=
                Tensor2 (Z.to_nat (intermediate_size config * 2))
                  (Z.to_nat (hidden_size config))
                  (ModernBertMLPSwiGLU.Wi_weight values);
              NN.bias :=
                if mlp_bias config
                then Some (ModernBertMLPSwiGLU.Wi_bias values) else None |};
         ModernBertMLPSwiGLU.drop := mlp_dropout config;
         ModernBertMLPSwiGLU.Wo :=
           {| NN.weight :=
                Tensor2 (Z.to_nat (hidden_size config))
                  (Z.to_nat (intermediate_size config))
                  (ModernBertMLPSwiGLU.Wo_weight values);
              NN.bias :=
                if mlp_bias config
                then Some (ModernBertMLPSwiGLU.Wo_bias values) else None |};
         ModernBertMLPSwiGLU.training := true |}
  ∧ 0 ≤ hidden_size config ∧ 0 ≤ intermediate_size config.
Proof.
  unfold ModernBertMLPSwiGLU.init, NN.new_linear, NN.new_dropout.
  destruct (hidden_size config <? 0) eqn:Hh; simpl; [done|].
  destruct (intermediate_size config * 2 <? 0) eqn:Hi2; simpl; [done|].
  destruct (negb (Qle_bool 0 (mlp_dropout config))
            || negb (Qle_bool (mlp_dropout config) 1)); simpl; [done|].
  destruct (intermediate_size config <? 0) eqn:Hi; simpl; [done|].
  intros [= <-]. apply Z.ltb_ge in Hh, Hi. done.
Qed.

Lemma linear_spec (lin : @NN.Linear F) (x : tensor3 F) :
  cols (NN.weight lin) = size2 x →
  ∃ y, NN.linear lin x = Ok y
    ∧ size0 y = size0 x ∧ size1 y = size1 x
    ∧ size2 y = rows (NN.weight lin)
    ∧ ∀ b t o,
        get3 y b t o
        = let dot :=
            fsum (map (fun i => fmul (get3 x b t i) (get2 (NN.weight lin) o i))
                    (seq 0 (size2 x))) in
          match NN.bias lin with
          | Some bias_at => fadd dot (bias_at o)
          | None => dot
          end.
Proof.
  intros Hin. unfold NN.linear. rewrite Hin, Nat.eqb_refl.
  eexists. split; [reflexivity|]. done.
Qed.

Lemma linear_rejects (lin : @NN.Linear F) (x : tensor3 F) :
  cols (NN.weight lin) ≠ size2 x →
  ∃ msg, NN.linear lin x = Raise (OtherException "RuntimeError" msg).
Proof.
  intros Hin. unfold NN.linear.
  destruct (size2 x =? cols (NN.weight lin))%nat eqn:Heq.
  - apply Nat.eqb_eq in Heq. congruence.
  - by eexists.
Qed.

Lemma chunk2_even {A} (y : tensor3 A) (inner : nat) :
  size2 y = (2 * inner)%nat →
  ∃ v g, NN.chunk2 y = [v; g]
    ∧ size0 v = size0 y ∧ size1 v = size1 y ∧ size2 v = inner
    ∧ size0 g = size0 y ∧ size1 g = size1 y ∧ size2 g = inner
    ∧ ∀ b t d, (d < inner)%nat →
        get3 v b t d = get3 y b t d
        ∧ get3 g b t d = get3 y b t (inner + d).
Proof.
  intros Hn. unfold NN.chunk2. rewrite Hn.
  destruct inner as [|k].
  - simpl. do 2 eexists. split; [reflexivity|]. simpl.
    repeat split; lia.
  - replace (2 * S k =? 0)%nat with false by (symmetry; apply Nat.eqb_neq; lia).
    replace (2 * S k =? 1)%nat with false by (symmetry; apply Nat.eqb_neq; lia).
    rewrite half_of_double.
    do 2 eexists. split; [reflexivity|]. simpl.
    repeat split; lia.
Qed.

Lemma swiglu_spec (v g : tensor3 F) :
  size0 g = size0 v → size1 g = size1 v → size2 g = size2 v →
  ∃ a, SwiGLU.forward v g = Ok a
    ∧ size0 a = size0 v ∧ size1 a = size1 v ∧ size2 a = size2 v
    ∧ ∀ b t d, get3 a b t d = fmul (fsilu (get3 g b t d)) (get3 v b t d).
Proof.
  intros H0' H1' H2'. unfold SwiGLU.forward, NN.mul. simpl.
  rewrite H0', H1', H2', !broadcast_axis_same.
  eexists. split; [reflexivity|]. simpl. repeat split.
  intros b t d. by rewrite !expand_axis_same.
Qed.

Lemma dropout_shape (p : Q) (mode : bool) (x : tensor3 F) :
  size0 (NN.dropout p mode x) = size0 x
  ∧ size1 (NN.dropout p mode x) = size1 x
  ∧ size2 (NN.dropout p mode x) = size2 x.
Proof. unfold NN.dropout. by destruct (mode && _). Qed.

(** The forward pass of a block whose first layer has [2 * inner] outputs
    and whose second layer has [inner] inputs. *)
Lemma forward_core (wi wo : @NN.Linear F) (p : Q) (mode : bool)
    (x : tensor3 F) (inner : nat) :
  cols (NN.weight wi) = size2 x →
  rows (NN.weight wi) = (2 * inner)%nat →
  cols (NN.weight wo) = inner →
  ∃ out,
    ModernBertMLPSwiGLU.forward
      {| ModernBertMLPSwiGLU.Wi := wi; ModernBertMLPSwiGLU.drop := p;
         ModernBertMLPSwiGLU.Wo := wo; ModernBertMLPSwiGLU.training := mode |}
      x = Ok out
    ∧ size0 out = size0 x ∧ size1 out = size1 x
    ∧ size2 out = rows (NN.weight wo)
    ∧ (NN.bias wi = None → NN.bias wo = None →
       mode && negb (Qeq_bool p 0) = false →
       ∀ b t o,
         get3 out b t o
         = swiglu_entry (get2 (NN.weight wi)) (get2 (NN.weight wo))
             (size2 x) inner (get3 x b t) o).
Proof.
  intros Hin Hmid Hout. unfold ModernBertMLPSwiGLU.forward. simpl.
  destruct (linear_spec wi x Hin) as (y & -> & Hy0 & Hy1 & Hy2 & Hy). simpl.
  rewrite Hmid in Hy2.
  destruct (chunk2_even y inner Hy2)
    as (v & g & -> & Hv0 & Hv1 & Hv2 & Hg0 & Hg1 & Hg2 & Hvg). simpl.
  destruct (swiglu_spec v g) as (a & -> & Ha0 & Ha1 & Ha2 & Ha);
    [congruence.. |]. simpl.
  destruct (dropout_shape p mode a) as (Hd0 & Hd1 & Hd2).
  destruct (linear_spec wo (NN.dropout p mode a))
    as (out & -> & Ho0 & Ho1 & Ho2 & Ho); [congruence|].
  exists out. split; [done|].
  split; [congruence|]. split; [congruence|]. split; [done|].
  intros Hbi Hbo Hoff b t o. rewrite Ho, Hbo, Hd2, Ha2, Hv2.
  unfold swiglu_entry. simpl. f_equal. apply map_ext_in.
  intros j Hj%in_seq. f_equal.
  unfold NN.dropout. rewrite Hoff, Ha.
  destruct (Hvg b t j ltac:(lia)) as [-> ->].
  rewrite !Hy, Hbi. done.
Qed.

(** X22: a block built by [__init__] from any configuration maps hidden
    states of the configured width to hidden states of the same shape,
    without an error, in training and in evaluation mode: the projection
    always has an even width, so [chunk] gives two halves that multiply. *)
Theorem block_preserves_shape (config : ModernBertConfig)
    (values : @ModernBertMLPSwiGLU.initial_values F)
    (m : @ModernBertMLPSwiGLU.t F) (mode : bool) (hidden_states : tensor3 F) :
  ModernBertMLPSwiGLU.init config values = Ok m →
  size2 hidden_states = Z.to_nat (hidden_size config) →
  ∃ out,
    ModernBertMLPSwiGLU.forward (ModernBertMLPSwiGLU.train mode m)
      hidden_states = Ok out
    ∧ size0 out = size0 hidden_states
    ∧ size1 out = size1 hidden_states
    ∧ size2 out = size2 hidden_states.
Proof.
  intros [-> [Hh Hi]]%init_ok Hwidth.
  unfold ModernBertMLPSwiGLU.train. simpl.
  edestruct (forward_core) as (out & -> & H0' & H1' & H2' & _);
    [| | | exists out; split; [reflexivity|]; split; [exact H0'|];
           split; [exact H1'|]; rewrite H2'; simpl; by rewrite Hwidth].
  - simpl. by rewrite Hwidth.
  - simpl. instantiate (1 := Z.to_nat (intermediate_size config)). lia.
  - reflexivity.
Qed.

(** X23: the block [ProtX.__init__] installs (no bias, dropout 0) computes,
    at every position, [Wo (silu(gate) * value)] where [value] is the first
    [2 * embed_dim] entries of [Wi x] and [gate] the last [2 * embed_dim],
    in training and in evaluation mode alike. *)
Theorem protx_block_entries (tokenizer_vocab_size tokenizer_pad_token_id
    tokenizer_eos_token_id embed_dim num_layers num_heads : Z)
    (values : @ModernBertMLPSwiGLU.initial_values F)
    (m : @ModernBertMLPSwiGLU.t F) (mode : bool) (hidden_states : tensor3 F) :
  ModernBertMLPSwiGLU.init
    (protx_config tokenizer_vocab_size tokenizer_pad_token_id
       tokenizer_eos_token_id embed_dim num_layers num_heads) values = Ok m →
  size2 hidden_states = Z.to_nat embed_dim →
  ∃ out,
    ModernBertMLPSwiGLU.forward (ModernBertMLPSwiGLU.train mode m)
      hidden_states = Ok out
    ∧ ∀ b t o,
        get3 out b t o
        = swiglu_entry (ModernBertMLPSwiGLU.Wi_weight values)
            (ModernBertMLPSwiGLU.Wo_weight values)
            (Z.to_nat embed_dim) (2 * Z.to_nat embed_dim)
            (get3 hidden_states b t) o.
Proof.
  intros [-> [Hh Hi]]%init_ok Hwidth. simpl in Hh, Hi.
  unfold ModernBertMLPSwiGLU.train. simpl.
  edestruct (forward_core) as (out & -> & _ & _ & _ & Hval);
    [| | | exists out; split; [reflexivity|]].
  - simpl. by rewrite Hwidth.
  - simpl. instantiate (1 := (2 * Z.to_nat embed_dim)%nat). lia.
  - simpl. lia.
  - intros b t o. rewrite Hval; [by rewrite Hwidth | done | done |].
    by rewrite andb_false_r.
Qed.

(** X24: hidden states of another width than the configured one are
    rejected by the first linear layer with a [RuntimeError]. *)
Theorem block_rejects_other_widths (config : ModernBertConfig)
    (values : @ModernBertMLPSwiGLU.initial_values F)
    (m : @ModernBertMLPSwiGLU.t F) (hidden_states : tensor3 F) :
  ModernBertMLPSwiGLU.init config values = Ok m →
  size2 hidden_states ≠ Z.to_nat (hidden_size config) →
  ∃ msg, ModernBertMLPSwiGLU.forward m hidden_states
         = Raise (OtherException "RuntimeError" msg).
Proof.
  intros [-> _]%init_ok Hwidth. unfold ModernBertMLPSwiGLU.forward. simpl.
  edestruct (linear_rejects) as [msg ->]; [|by exists msg].
  simpl. congruence.
Qed.

End BlockFacts.

Lemma block_preserves_shape_witness :
  match ModernBertMLPSwiGLU.init (protx_config 30 0 2 2 1 1)
          demo_initial_values with
  | Ok m =>
      ∃ out,
        ModernBertMLPSwiGLU.forward (ModernBertMLPSwiGLU.train false m)
          demo_block_input = Ok out
        ∧ size0 out = 1%nat ∧ size1 out = 3%nat ∧ size2 out = 2%nat
  | Raise _ => False
  end.
Proof.
  destruct (ModernBertMLPSwiGLU.init (protx_config 30 0 2 2 1 1)
              demo_initial_values) as [m|err] eqn:Hinit.
  - apply (block_preserves_shape (protx_config 30 0 2 2 1 1)
             demo_initial_values m false demo_block_input Hinit).
    reflexivity.
  - vm_compute in Hinit. discriminate Hinit.
Defined.

Lemma protx_block_entries_witness :
  match ModernBertMLPSwiGLU.init (protx_config 30 0 2 2 1 1)
          demo_initial_values with
  | Ok m =>
      ∃ out,
        ModernBertMLPSwiGLU.forward (ModernBertMLPSwiGLU.train true m)
          demo_block_input = Ok out
        ∧ ∀ b t o,
            get3 out b t o
            = swiglu_entry (ModernBertMLPSwiGLU.Wi_weight demo_initial_values)
                (ModernBertMLPSwiGLU.Wo_weight demo_initial_values)
                2 4 (get3 demo_block_input b t) o
  | Raise _ => False
  end.
Proof.
  destruct (ModernBertMLPSwiGLU.init (protx_config 30 0 2 2 1 1)
              demo_initial_values) as [m|err] eqn:Hinit.
  - apply (protx_block_entries 30 0 2 2 1 1 demo_initial_values m true
             demo_block_input Hinit).
    reflexivity.
  - vm_compute in Hinit. discriminate Hinit.
Defined.

Lemma block_rejects_other_widths_witness :
  match ModernBertMLPSwiGLU.init (protx_config 30 0 2 3 1 1)
          demo_initial_values with
  | Ok m =>
      ∃ msg, ModernBertMLPSwiGLU.forward m demo_block_input
             = Raise (OtherException "RuntimeError" msg)
  | Raise _ => False
  end.
Proof.
  destruct (ModernBertMLPSwiGLU.init (protx_config 30 0 2 3 1 1)
              demo_initial_values) as [m|err] eqn:Hinit.
  - apply (block_rejects_other_widths (protx_config 30 0 2 3 1 1)
             demo_initial_values m demo_block_input Hinit).
    simpl. lia.
  - vm_compute in Hinit. discriminate Hinit.
Defined.

(** * Failures before the first batch *)

Section SetupFailures.
Context {F World Model : Type} `{FloatOps F}.
Variable C : collaborators F World Model.

(** X25: every failure of the inference on a checkpoint that was read,
    whichever scalar or unpacking it comes from, is logged by the
    generator, which then ends without a yield. *)
Theorem inference_failure_is_logged (checkpoint_path : string)
    (sequences : list string) (batch_size max_length : Z) (device : string)
    (per_seq_embeddings : bool) (mlp_activation : string) (w w' : World)
    (state_dict : table) (err : exn) :
  load_file C checkpoint_path w = (Ok state_dict, w') →
  infer_architecture state_dict = Raise err →
  load_and_generate_embeddings C checkpoint_path sequences batch_size
    max_length device per_seq_embeddings mlp_activation w
  = Gen [Printed (ErrorDetectingArchitecture err)] (Ok tt).
Proof.
  intros Hload Hinfer.
  destruct (inference_raises_only_value_errors _ _ Hinfer) as [msg ->].
  unfold load_and_generate_embeddings, inspect_checkpoint_architecture.
  by rewrite Hload, Hinfer.
Qed.

(** X26: when the architecture was detected and the encoder built, but
    the second read of the checkpoint or the loading of its weights raises
    an [Exception], the generator logs it after the detection message and
    ends without a yield. *)
Theorem weights_not_loaded_is_logged (checkpoint_path : string)
    (sequences : list string) (batch_size max_length : Z) (device : string)
    (per_seq_embeddings : bool) (mlp_activation : string) (w w1 w2 : World)
    (e l h : Z) (model : Model) (read : result table) (err : exn) :
  inspect_checkpoint_architecture C checkpoint_path w = (Ok (e, l, h), w1) →
  new_model C e l h mlp_activation = Ok model →
  load_file C checkpoint_path w1 = (read, w2) →
  read = Raise err
  ∨ (∃ state_dict, read = Ok state_dict
                   ∧ load_state_dict C model state_dict = Raise err) →
  is_Exception err = true →
  load_and_generate_embeddings C checkpoint_path sequences batch_size
    max_length device per_seq_embeddings mlp_activation w
  = Gen [Printed (DetectedArchitecture e l h);
         Printed (ErrorLoadingCheckpoint err)] (Ok tt).
Proof.
  intros Hinspect Hnew Hload Hfail Hexc.
  apply (loading_error_is_logged C checkpoint_path sequences batch_size
           max_length device per_seq_embeddings mlp_activation w w1 w2
           e l h model read err); try done.
  destruct Hfail as [-> | (state_dict & -> & Hsd)]; [done|].
  exact Hsd.
Qed.

End SetupFailures.

Lemma inference_failure_is_logged_witness :
  load_and_generate_embeddings (demo_collaborators [])
    "model.safetensors" ["MK"]%string 32 512 "cpu" true "swiglu" tt
  = Gen [Printed (ErrorDetectingArchitecture embed_dim_undetermined)] (Ok tt).
Proof.
  apply (inference_failure_is_logged (demo_collaborators [])
           "model.safetensors" ["MK"]%string 32 512 "cpu" true "swiglu" tt tt
           []).
  - reflexivity.
  - reflexivity.
Defined.

Lemma weights_not_loaded_is_logged_witness :
  load_and_generate_embeddings (vanishing_collaborators four_layers)
    "model.safetensors" ["MK"]%string 32 512 "cpu" true "swiglu" 0%nat
  = Gen [Printed (DetectedArchitecture 64 4 1);
         Printed (ErrorLoadingCheckpoint
                    (OtherException "OSError" "No such file"))] (Ok tt).
Proof.
  apply (weights_not_loaded_is_logged (vanishing_collaborators four_layers)
           "model.safetensors" ["MK"]%string 32 512 "cpu" true "swiglu"
           0%nat 1%nat 2%nat 64 4 1 (64, 4, 1)
           (Raise (OtherException "OSError" "No such file"))).
  - reflexivity.
  - reflexivity.
  - reflexivity.
  - by left.
  - reflexivity.
Defined.

(** * Contiguous layer indices *)

(** X27: when every layer index found in the table lies between 0 and [m],
    the layer count of a returned architecture is [m + 1], the largest
    index plus one, exactly when every integer from 0 to [m] is found: the
    count of distinct indices agrees with max + 1 on contiguous indices
    and on no others. *)
Theorem contiguous_indices_count (tbl : table) (e l h m : Z) :
  infer_architecture tbl = Ok (e, l, h) →
  (∀ idx, index_found tbl idx → 0 ≤ idx ≤ m) →
  l = m + 1 ↔ ∀ idx, 0 ≤ idx ≤ m → index_found tbl idx.
Proof.
  intros Hinfer Hrange.
  apply infer_architecture_ok in Hinfer as (_ & Hl & Hne & _).
  assert (0 ≤ m) as Hm.
  { destruct (decide (layer_indices tbl = ∅)) as [Hempty | Hsome].
    - rewrite Hempty, size_empty in Hl. lia.
    - apply set_choose_L in Hsome as [idx Hidx].
      apply layer_indices_spec, Hrange in Hidx. lia. }
  assert (layer_indices tbl ⊆ list_to_set (seqZ 0 (m + 1))) as Hsub.
  { intros idx Hidx. apply layer_indices_spec, Hrange in Hidx.
    apply elem_of_list_to_set, elem_of_seqZ. lia. }
  assert (size (list_to_set (seqZ 0 (m + 1)) : gset Z) = Z.to_nat (m + 1))
    as Hsize.
  { rewrite size_list_to_set by apply NoDup_seqZ. by rewrite length_seqZ. }
  split.
  - intros Hcount idx Hidx. apply layer_indices_spec.
    rewrite (set_subseteq_size_eq _ _ Hsub).
    + apply elem_of_list_to_set, elem_of_seqZ. lia.
    + rewrite Hsize. lia.
  - intros Hall.
    assert (layer_indices tbl = list_to_set (seqZ 0 (m + 1))) as Heq.
    { apply set_eq. intros idx. split; [apply Hsub|].
      intros Hidx%elem_of_list_to_set%elem_of_seqZ.
      apply layer_indices_spec, Hall. lia. }
    rewrite Heq, Hsize in Hl. lia.
Qed.

Lemma contiguous_indices_count_witness :
  (∀ idx, 0 ≤ idx ≤ 3 → index_found four_layers idx)
  ∧ ¬ (∀ idx, 0 ≤ idx ≤ 2 → index_found gap_layers idx).
Proof.
  split.
  - apply (contiguous_indices_count four_layers 64 4 1 3).
    + vm_compute. reflexivity.
    + intros idx. rewrite <- layer_indices_spec.
      assert (layer_indices four_layers = {[ 0; 1; 2; 3 ]}) as ->
        by (vm_compute; reflexivity).
      rewrite !elem_of_union, !elem_of_singleton. lia.
    + lia.
  - intros Hall.
    apply (contiguous_indices_count gap_layers 64 2 1 2) in Hall.
    + lia.
    + vm_compute. reflexivity.
    + intros idx. rewrite <- layer_indices_spec.
      assert (layer_indices gap_layers = {[ 0; 2 ]}) as ->
        by (vm_compute; reflexivity).
      rewrite !elem_of_union, !elem_of_singleton. lia.
Defined.
